(** * ram-kvm-ai: the HID report encoder and the visual-feedback control loop

    A shallow embedding of [src/hid.py] (keyboard and mouse HID gadget
    reports) and of [src/agent.py] (pointer tracking, motion planning and
    the capture / judge / act loop), followed by the properties of the
    specification that concern them.

    Conventions of the embedding.
    - A Python [int] is a [Z]; a Python [str] is a [string] whose characters
      are the code points below 256; a Python [float] is an IEEE-754
      binary64 value ([spec_float] at precision 53, exponent bound 1024).
    - A method that writes to a device or mutates [self] is a computation
      in the state-and-exception monad [Eff]; a raised exception leaves the
      state as it was at the [raise], as in Python.
    - A device file ([/dev/hidg0], [/dev/hidg1]) is the list of reports
      written to it so far; opening and writing the file succeeds.
    - [time.sleep] with a constant, non-negative length (the pauses of
      [hid.py] and of the click) has no counterpart; the one sleep whose
      length is a field of the agent, [time.sleep(self.capture_delay)],
      is part of the loop.
    - What lies outside the interpreter is given by a [World]: the
      answers of the capture device and of the vision provider, what the
      system's sleep does, and the [pow] of the C library. *)

From Stdlib Require Import ZArith Lia Ascii String DecimalString.
From Stdlib Require Import Floats.SpecFloat.
From stdpp Require Import base option list strings gmap.

Open Scope Z_scope.

(** ** Python values *)

Module Py.

(** An exception, with the text that [str(e)] gives.  [Exception] is an
    instance of the class [Exception] or of one of its subclasses
    ([RuntimeError], [ValueError], [OverflowError], ...); [BaseException]
    is an instance of a class outside [Exception] ([KeyboardInterrupt],
    [SystemExit]), which an [except Exception] clause does not catch. *)
Inductive Exn : Type :=
| Exception (msg : string)
| BaseException (msg : string).

Definition str_exn (e : Exn) : string :=
  match e with
  | Exception msg => msg
  | BaseException msg => msg
  end.

(** The outcome of a call: a value, or a raised exception. *)
Inductive Res (A : Type) : Type :=
| Ok (a : A)
| Raise (e : Exn).
Arguments Ok {A} a.
Arguments Raise {A} e.

(** Sequencing of outcomes: the first raise ends the evaluation. *)
Definition res_bind {A B} (f : A -> Res B) (m : Res A) : Res B :=
  match m with
  | Ok a => f a
  | Raise e => Raise e
  end.

#[global] Instance Res_ret : MRet Res := @Ok.
#[global] Instance Res_bind : MBind Res := @res_bind.

(** [str(n)] for an int. *)
Definition str_int (n : Z) : string :=
  NilZero.string_of_int (Z.to_int n).

(** The line feed that starts every context note. *)
Definition LF : string := String "010"%char EmptyString.

(** [c.lower()] on one code point below 256: the ASCII capitals and the
    Latin-1 capitals (U+00C0 to U+00DE, the multiplication sign apart)
    move up by 32. *)
Definition lower_char (c : ascii) : ascii :=
  let n := Z.of_N (Ascii.N_of_ascii c) in
  if ((65 <=? n) && (n <=? 90)) || ((192 <=? n) && (n <=? 222) && negb (n =? 215))
  then Ascii.ascii_of_N (Z.to_N (n + 32))
  else c.

Fixpoint lower (s : string) : string :=
  match s with
  | EmptyString => EmptyString
  | String c s' => String (lower_char c) (lower s')
  end.

(** The characters of a string, each as a string of length one, as
    [for char in text] yields them. *)
Fixpoint chars (s : string) : list string :=
  match s with
  | EmptyString => []
  | String c s' => String c EmptyString :: chars s'
  end.

(** *** Floats

    Arithmetic on binary64 values rounds to nearest, ties to even. *)
Definition prec : Z := 53.
Definition emax : Z := 1024.

(** A float literal, or an int constant that a comparison meets: the
    binary64 value of a small integer. *)
Definition float_const (n : Z) : spec_float :=
  binary_normalize prec emax n 0 false.

(** [float(n)], also where an int meets a float in [/], [*] or [**]:
    [OverflowError] for an int whose nearest float is not finite. *)
Definition float_of_int (n : Z) : Res spec_float :=
  match binary_normalize prec emax n 0 false with
  | S754_infinity _ => Raise (Exception "int too large to convert to float")
  | f => Ok f
  end.

(** [x / y] on floats: [ZeroDivisionError] for a zero divisor. *)
Definition fdiv (x y : spec_float) : Res spec_float :=
  match y with
  | S754_zero _ => Raise (Exception "float division by zero")
  | _ => Ok (SFdiv prec emax x y)
  end.

Definition fmul : spec_float -> spec_float -> spec_float := SFmul prec emax.
Definition flt : spec_float -> spec_float -> bool := SFltb.

(** [int(f)]: truncation toward zero; [OverflowError] on an infinity and
    [ValueError] on a NaN. *)
Definition int_of_float (f : spec_float) : Res Z :=
  match f with
  | S754_zero _ => Ok 0
  | S754_finite s m e =>
      let a := if 0 <=? e then Z.shiftl (Z.pos m) e
               else Z.shiftr (Z.pos m) (- e) in
      Ok (if s then - a else a)
  | S754_infinity _ => Raise (Exception "cannot convert float infinity to integer")
  | S754_nan => Raise (Exception "cannot convert float NaN to integer")
  end.

(** The [pow] of the C library, which [**] on floats calls; how it
    rounds is the library's business. *)
Definition Libm : Type := spec_float -> spec_float -> spec_float.

Definition half : spec_float := S754_finite false 4503599627370496 (-53).
Definition one : spec_float := S754_finite false 4503599627370496 (-52).

(** [x ** 0.5] for a float [x] that is a zero or positive: the
    interpreter itself answers for the bases 0.0 and 1.0 and for an
    infinity or a NaN, and hands the others to the C library, raising
    [OverflowError] when the library signals a range error by an
    infinite value.  (The bases of this program are sums of two squares
    of ints; Python gives a complex number for a negative base, which
    has no counterpart here.) *)
Definition float_pow_half (pow : Libm) (x : spec_float) : Res spec_float :=
  match x with
  | S754_zero _ => Ok (S754_zero false)
  | S754_nan => Ok S754_nan
  | S754_infinity _ => Ok (S754_infinity false)
  | S754_finite _ _ _ =>
      if SFeqb x one then Ok one
      else
        match pow x half with
        | S754_infinity _ => Raise (Exception "(34, 'Numerical result out of range')")
        | f => Ok f
        end
  end.

(** [n ** 0.5] for an int [n]. *)
Definition int_pow_half (pow : Libm) (n : Z) : Res spec_float :=
  x ← float_of_int n ; float_pow_half pow x.

(** [time.sleep(secs)]: [ValueError] for a NaN and for a negative
    length; otherwise what the system's sleep does, [platform]: it
    returns, or it is interrupted or refuses the length. *)
Definition time_sleep (platform : Res unit) (secs : spec_float) : Res unit :=
  match secs with
  | S754_nan => Raise (Exception "Invalid value NaN (not a number)")
  | _ =>
      if flt secs (S754_zero false)
      then Raise (Exception "sleep length must be non-negative")
      else platform
  end.

End Py.

Import Py.

(** ** The state-and-exception monad *)

Definition Eff (S A : Type) : Type := S -> Res A * S.

Definition eff_ret {S A} (a : A) : Eff S A := fun s => (Ok a, s).

Definition eff_bind {S A B} (f : A -> Eff S B) (m : Eff S A) : Eff S B :=
  fun s =>
    match m s with
    | (Ok a, s') => f a s'
    | (Raise e, s') => (Raise e, s')
    end.

#[global] Instance Eff_ret {S} : MRet (Eff S) := @eff_ret S.
#[global] Instance Eff_bind {S} : MBind (Eff S) := @eff_bind S.

(** [raise e]. *)
Definition raise {S A} (e : Exn) : Eff S A := fun s => (Raise e, s).

(** An outcome that is not the effect of a method: a value computed, or
    an exception raised, without touching the state. *)
Definition lift {S A} (r : Res A) : Eff S A := fun s => (r, s).

(** [try: m except Exception as e: ...]: the value of [m], or the
    exception that the handler receives, as a value; an exception that
    is not an [Exception] goes through. *)
Definition try_except {S A} (m : Eff S A) : Eff S (Res A) :=
  fun s =>
    match m s with
    | (Ok a, s') => (Ok (Ok a), s')
    | (Raise (Exception msg), s') => (Ok (Raise (Exception msg)), s')
    | (Raise (BaseException msg), s') => (Raise (BaseException msg), s')
    end.

Definition get {S} : Eff S S := fun s => (Ok s, s).
Definition gets {S A} (f : S -> A) : Eff S A := fun s => (Ok (f s), s).
Definition modify {S} (f : S -> S) : Eff S unit := fun s => (Ok tt, f s).

(** A method call on a field of [self]: runs [m] on the part that
    [proj] reads and stores the part back with [upd]. *)
Definition zoom {S T A} (proj : S -> T) (upd : T -> S -> S) (m : Eff T A)
  : Eff S A :=
  fun s => let '(r, t') := m (proj s) in (r, upd t' s).

(** [for x in xs: body(x)]. *)
Fixpoint for_each {S A} (xs : list A) (body : A -> Eff S unit) : Eff S unit :=
  match xs with
  | [] => mret tt
  | x :: xs' => body x ;; for_each xs' body
  end.

(** ** [hid.py]: keyboard and mouse reports *)

(** A dict entry [key: value]. *)
Notation "key :-> value" := (pair key value) (at level 70, only parsing).

(** HID keyboard scan codes (US layout). *)
Definition KEYMAP : gmap string Z :=
  list_to_map
    [ "a" :-> 0x04; "b" :-> 0x05; "c" :-> 0x06; "d" :-> 0x07; "e" :-> 0x08; "f" :-> 0x09;
      "g" :-> 0x0A; "h" :-> 0x0B; "i" :-> 0x0C; "j" :-> 0x0D; "k" :-> 0x0E; "l" :-> 0x0F;
      "m" :-> 0x10; "n" :-> 0x11; "o" :-> 0x12; "p" :-> 0x13; "q" :-> 0x14; "r" :-> 0x15;
      "s" :-> 0x16; "t" :-> 0x17; "u" :-> 0x18; "v" :-> 0x19; "w" :-> 0x1A; "x" :-> 0x1B;
      "y" :-> 0x1C; "z" :-> 0x1D; "1" :-> 0x1E; "2" :-> 0x1F; "3" :-> 0x20; "4" :-> 0x21;
      "5" :-> 0x22; "6" :-> 0x23; "7" :-> 0x24; "8" :-> 0x25; "9" :-> 0x26; "0" :-> 0x27;
      " " :-> 0x2C; "-" :-> 0x2D; "=" :-> 0x2E; "[" :-> 0x2F; "]" :-> 0x30;
      "\" :-> 0x31;
      ";" :-> 0x33; "'" :-> 0x34; "`" :-> 0x35; "," :-> 0x36; "." :-> 0x37; "/" :-> 0x38;
      String "010"%char EmptyString :-> 0x28; String "009"%char EmptyString :-> 0x2B;
      String "008"%char EmptyString :-> 0x2A ].

Definition SHIFT_CHARS : gmap string string :=
  list_to_map
    [ "A" :-> "a"; "B" :-> "b"; "C" :-> "c"; "D" :-> "d"; "E" :-> "e"; "F" :-> "f"; "G" :-> "g";
      "H" :-> "h"; "I" :-> "i"; "J" :-> "j"; "K" :-> "k"; "L" :-> "l"; "M" :-> "m"; "N" :-> "n";
      "O" :-> "o"; "P" :-> "p"; "Q" :-> "q"; "R" :-> "r"; "S" :-> "s"; "T" :-> "t"; "U" :-> "u";
      "V" :-> "v"; "W" :-> "w"; "X" :-> "x"; "Y" :-> "y"; "Z" :-> "z";
      "!" :-> "1"; "@" :-> "2"; "#" :-> "3"; "$" :-> "4"; "%" :-> "5"; "^" :-> "6"; "&" :-> "7";
      "*" :-> "8"; "(" :-> "9"; ")" :-> "0"; "_" :-> "-"; "+" :-> "="; "{" :-> "["; "}" :-> "]";
      "|" :-> "\"; ":" :-> ";";
      String "034"%char EmptyString :-> "'"; "~" :-> "`"; "<" :-> ","; ">" :-> "."; "?" :-> "/" ].

(** Special keys. *)
Definition SPECIAL_KEYS : gmap string Z :=
  list_to_map
    [ "enter" :-> 0x28; "escape" :-> 0x29; "backspace" :-> 0x2A; "tab" :-> 0x2B;
      "space" :-> 0x2C; "capslock" :-> 0x39; "f1" :-> 0x3A; "f2" :-> 0x3B; "f3" :-> 0x3C;
      "f4" :-> 0x3D; "f5" :-> 0x3E; "f6" :-> 0x3F; "f7" :-> 0x40; "f8" :-> 0x41; "f9" :-> 0x42;
      "f10" :-> 0x43; "f11" :-> 0x44; "f12" :-> 0x45; "right" :-> 0x4F; "left" :-> 0x50;
      "down" :-> 0x51; "up" :-> 0x52; "delete" :-> 0x4C; "home" :-> 0x4A; "end" :-> 0x4D;
      "pageup" :-> 0x4B; "pagedown" :-> 0x4E ].

(** Modifier keys. *)
Definition MOD_NONE : Z := 0x00.
Definition MOD_CTRL : Z := 0x01.
Definition MOD_SHIFT : Z := 0x02.
Definition MOD_ALT : Z := 0x04.
Definition MOD_META : Z := 0x08.

(** [d.get(k, default)]. *)
Definition dict_get {V} (d : gmap string V) (k : string) (dflt : V) : V :=
  default dflt (d !! k).

Module Keyboard.

(** The keyboard gadget: its device path and the reports written to it,
    oldest first, each report the list of its bytes. *)
Record t : Type := mk {
  device : string;
  written : list (list Z)
}.

Definition write (report : list Z) (kb : t) : t :=
  {| device := device kb; written := written kb ++ [report] |}.

(** [bytes([...])] raises [ValueError] unless every item is in
    [range(0, 256)]. *)
Definition bytes (items : list Z) : Res (list Z) :=
  if forallb (fun b => (0 <=? b) && (b <? 256)) items
  then Ok items
  else Raise (Exception "bytes must be in range(0, 256)").

(** Send a keyboard HID report. *)
Definition _send_report (modifier keycode : Z) : Eff t unit :=
  match bytes [modifier; 0; keycode; 0; 0; 0; 0; 0] with
  | Ok report => modify (write report)
  | Raise e => raise e
  end.

(** Press and release a single key. *)
Definition press_key (char : string) (modifier : Z) : Eff t unit :=
  let '(modifier, char) :=
    match SHIFT_CHARS !! char with
    | Some base => (Z.lor modifier MOD_SHIFT, base)
    | None => (modifier, char)
    end in
  let keycode := dict_get KEYMAP char 0 in
  if keycode =? 0 then mret tt
  else
    _send_report modifier keycode ;;
    _send_report 0 0.

(** Press a special key (enter, escape, arrow keys, etc). *)
Definition press_special (key : string) (modifier : Z) : Eff t unit :=
  let keycode := dict_get SPECIAL_KEYS (lower key) 0 in
  if keycode =? 0 then mret tt
  else
    _send_report modifier keycode ;;
    _send_report 0 0.

(** Type a string character by character. *)
Definition type_string (text : string) : Eff t unit :=
  for_each (chars text) (fun char => press_key char MOD_NONE).

(** One turn of the [for key in keys] loop of [hotkey], on the pair
    [(modifier, keycode)]. *)
Definition hotkey_key (acc : Z * Z) (key : string) : Z * Z :=
  let '(modifier, keycode) := acc in
  let key := lower key in
  if decide (key ∈ ["ctrl"; "control"]) then (Z.lor modifier MOD_CTRL, keycode)
  else if decide (key ∈ ["shift"]) then (Z.lor modifier MOD_SHIFT, keycode)
  else if decide (key ∈ ["alt"; "option"]) then (Z.lor modifier MOD_ALT, keycode)
  else if decide (key ∈ ["meta"; "cmd"; "command"; "win"; "super"])
  then (Z.lor modifier MOD_META, keycode)
  else
    match SPECIAL_KEYS !! key with
    | Some code => (modifier, code)
    | None =>
        if (String.length key =? 1)%nat then
          match KEYMAP !! key with
          | Some code => (modifier, code)
          | None => acc
          end
        else acc
    end.

(** Press a key combination (e.g., hotkey('ctrl', 'c')). *)
Definition hotkey (keys : list string) : Eff t unit :=
  let '(modifier, keycode) := foldl hotkey_key (MOD_NONE, 0) keys in
  _send_report modifier keycode ;;
  _send_report 0 0.

End Keyboard.

Module Mouse.

(** The mouse gadget: its device path and the reports written to it,
    oldest first, each report the list of its three bytes. *)
Record t : Type := mk {
  device : string;
  written : list (list Z)
}.

Definition write (report : list Z) (m : t) : t :=
  {| device := device m; written := written m ++ [report] |}.

(** [struct.pack('b', v)]: one signed byte in two's complement;
    [struct.error] outside [-128, 127]. *)
Definition pack_b (v : Z) : Res Z :=
  if (-128 <=? v) && (v <=? 127) then Ok (v mod 256)
  else Raise (Exception "byte format requires -128 <= number <= 127").

(** [struct.pack('bbb', b, x, y)]. *)
Definition pack_bbb (b x y : Z) : Res (list Z) :=
  match pack_b b, pack_b x, pack_b y with
  | Ok b', Ok x', Ok y' => Ok [b'; x'; y']
  | Raise e, _, _ | _, Raise e, _ | _, _, Raise e => Raise e
  end.

(** The signed value a byte of a report stands for. *)
Definition unpack_b (b : Z) : Z := if b <? 128 then b else b - 256.

(** The motion [(dx, dy)] a report carries. *)
Definition delta_of (report : list Z) : Z * Z :=
  match report with
  | [_; x; y] => (unpack_b x, unpack_b y)
  | _ => (0, 0)
  end.

(** Send a mouse HID report. *)
Definition _send_report (buttons x y : Z) : Eff t unit :=
  let x := Z.max (-127) (Z.min 127 x) in
  let y := Z.max (-127) (Z.min 127 y) in
  match pack_bbb buttons x y with
  | Ok report => modify (write report)
  | Raise e => raise e
  end.

(** Move mouse by relative offset. *)
Definition move (x y : Z) : Eff t unit := _send_report 0 x y.

(** Click a mouse button. *)
Definition click (button : string) : Eff t unit :=
  let btn :=
    dict_get (list_to_map [("left", 1); ("right", 2); ("middle", 4)]) button 1 in
  _send_report btn 0 0 ;;
  _send_report 0 0 0.

(** The [while abs(dx) > 0 or abs(dy) > 0] loop of [move_to]; [None]
    when [fuel] passes of the body do not reach its exit. *)
Fixpoint move_to_loop (fuel : nat) (dx dy : Z) (m : t) : option (Res unit * t) :=
  if (0 <? Z.abs dx) || (0 <? Z.abs dy) then
    match fuel with
    | O => None
    | S fuel' =>
        let step_x := Z.max (-127) (Z.min 127 dx) in
        let step_y := Z.max (-127) (Z.min 127 dy) in
        match move step_x step_y m with
        | (Ok _, m') => move_to_loop fuel' (dx - step_x) (dy - step_y) m'
        | (Raise e, m') => Some (Raise e, m')
        end
    end
  else Some (Ok tt, m).

(** Move mouse to absolute position: to the top-left corner first when
    the current position is unknown, then by steps of at most 127. *)
Definition move_to (fuel : nat) (target_x target_y : Z)
    (screen_width screen_height : Z) (current_x current_y : option Z) (m : t)
  : option (Res unit * t) :=
  match current_x, current_y with
  | Some current_x, Some current_y =>
      move_to_loop fuel (target_x - current_x) (target_y - current_y) m
  | _, _ =>
      match for_each (replicate 20 tt) (fun _ => move (-127) (-127)) m with
      | (Ok _, m') => move_to_loop fuel (target_x - 0) (target_y - 0) m'
      | (Raise e, m') => Some (Raise e, m')
      end
  end.

End Mouse.

(** ** [agent.py]: the data model *)

Module Point.

Record t : Type := mk { x : Z; y : Z }.

Definition distance_to (pow : Libm) (self other : t) : Res spec_float :=
  int_pow_half pow ((x self - x other) ^ 2 + (y self - y other) ^ 2).

(** Returns normalized direction vector (-1, 0, or 1 for each axis). *)
Definition direction_to (self other : t) : Z * Z :=
  let dx := x other - x self in
  let dy := y other - y self in
  (if 10 <? dx then 1 else if dx <? -10 then -1 else 0,
   if 10 <? dy then 1 else if dy <? -10 then -1 else 0).

End Point.

(** Result of analyzing a screen capture. *)
Record ScreenAnalysis : Type := {
  cursor_position : option Point.t;
  target_position : option Point.t;
  target_found : bool;
  target_description : string;
  suggested_action : string;
  text_to_type : option string;
  confidence : spec_float;
  raw_response : string
}.

(** The dict that [execute_task] returns. *)
Module RunResult.
Record t : Type := mk {
  success : bool;
  iterations : Z;
  history : list ScreenAnalysis;
  error : option string
}.
End RunResult.

(** ** The collaborators

    The capture device, the vision provider, the system's sleep and the
    C library are outside the program.  A [World] gives what the first
    three answer (a value or an exception) when they are called in a
    given iteration with given arguments, and the [pow] of the C
    library; every run of the program is the run against one such
    world. *)
Record World : Type := {
  capture_frame_base64 : Z -> string -> Res string;
  sleep : Z -> spec_float -> Res unit;
  analyze : Z -> string -> string -> string -> Res ScreenAnalysis;
  libm_pow : Libm
}.

(** The [callback] argument of [execute_task], called with
    [(iteration, analysis, action_taken)]. *)
Definition Callback : Type := Z -> ScreenAnalysis -> string -> Res unit.

(** The calls made to the collaborators and to the callback, in order. *)
Inductive Call : Type :=
| CallCapture (device : string)
| CallAnalyze (image_base64 task context : string)
| CallCallback (iteration : Z) (analysis : ScreenAnalysis) (action : string).

(** ** [agent.py]: the agent *)

Module Agent.

(** The fields of [self]. *)
Record t : Type := mk {
  keyboard : Keyboard.t;
  mouse : Mouse.t;
  capture_device : string;
  screen_width : Z;
  screen_height : Z;
  capture_delay : spec_float;
  move_speed : Z;
  max_iterations : Z;
  iteration : Z;
  history : list ScreenAnalysis;
  estimated_cursor : option Point.t
}.

Definition set_keyboard (k : Keyboard.t) (a : t) : t :=
  mk k (mouse a) (capture_device a) (screen_width a) (screen_height a)
     (capture_delay a) (move_speed a) (max_iterations a) (iteration a) (history a)
     (estimated_cursor a).
Definition set_mouse (m : Mouse.t) (a : t) : t :=
  mk (keyboard a) m (capture_device a) (screen_width a) (screen_height a)
     (capture_delay a) (move_speed a) (max_iterations a) (iteration a) (history a)
     (estimated_cursor a).
Definition set_iteration (i : Z) (a : t) : t :=
  mk (keyboard a) (mouse a) (capture_device a) (screen_width a)
     (screen_height a) (capture_delay a) (move_speed a) (max_iterations a) i (history a)
     (estimated_cursor a).
Definition set_history (h : list ScreenAnalysis) (a : t) : t :=
  mk (keyboard a) (mouse a) (capture_device a) (screen_width a)
     (screen_height a) (capture_delay a) (move_speed a) (max_iterations a) (iteration a) h
     (estimated_cursor a).
Definition set_estimated_cursor (c : option Point.t) (a : t) : t :=
  mk (keyboard a) (mouse a) (capture_device a) (screen_width a)
     (screen_height a) (capture_delay a) (move_speed a) (max_iterations a) (iteration a)
     (history a) c.

(** [self.mouse.f(...)] and [self.keyboard.f(...)]. *)
Definition on_mouse {A} (m : Eff Mouse.t A) : Eff t A := zoom mouse set_mouse m.
Definition on_keyboard {A} (m : Eff Keyboard.t A) : Eff t A :=
  zoom keyboard set_keyboard m.

(** [int((d / distance) * speed)]. *)
Definition scaled (d : Z) (distance : spec_float) (speed : Z) : Res Z :=
  fd ← float_of_int d ;
  quotient ← fdiv fd distance ;
  fspeed ← float_of_int speed ;
  int_of_float (fmul quotient fspeed).

(** The first part of [move_cursor_toward]: the values of [move_x] and
    [move_y] when [self.mouse.move] is reached, or the exception that
    the arithmetic raises before. *)
Definition motion (pow : Libm) (self : t) (target : Point.t) (speed : option Z)
  : Res (Z * Z) :=
  (* speed = speed or self.move_speed *)
  let speed :=
    match speed with
    | Some s => if s =? 0 then move_speed self else s
    | None => move_speed self
    end in
  match estimated_cursor self with
  | Some cursor =>
      let dx := Point.x target - Point.x cursor in
      let dy := Point.y target - Point.y cursor in
      (* Proportional movement (faster when far, slower when close) *)
      distance ← int_pow_half pow (dx ^ 2 + dy ^ 2) ;
      let speed :=
        if flt distance (float_const 50) then Z.max 5 (speed / 4)
        else if flt distance (float_const 150) then Z.max 10 (speed / 2)
        else speed in
      (* Normalize and scale *)
      if flt (float_const 0) distance
      then
        move_x ← scaled dx distance speed ;
        move_y ← scaled dy distance speed ;
        mret (move_x, move_y)
      else mret (0, 0)
  | None =>
      (* No cursor position known, move toward target from center *)
      let center := Point.mk (screen_width self / 2) (screen_height self / 2) in
      let dx := Point.x target - Point.x center in
      let dy := Point.y target - Point.y center in
      distance ← int_pow_half pow (dx ^ 2 + dy ^ 2) ;
      if flt (float_const 0) distance
      then
        move_x ← scaled dx distance speed ;
        move_y ← scaled dy distance speed ;
        mret (move_x, move_y)
      else mret (0, 0)
  end.

(** Move cursor toward target position. *)
Definition move_cursor_toward (pow : Libm) (target : Point.t) (speed : option Z)
  : Eff t unit :=
  self ← get ;
  d ← lift (motion pow self target speed) ;
  let '(move_x, move_y) := d in
  on_mouse (Mouse.move move_x move_y) ;;
  (* Update estimated position *)
  self ← get ;
  match estimated_cursor self with
  | Some cursor =>
      modify (set_estimated_cursor
                (Some (Point.mk (Point.x cursor + move_x) (Point.y cursor + move_y))))
  | None => mret tt
  end.

(** Click mouse button. *)
Definition click (button : string) : Eff t unit := on_mouse (Mouse.click button).

(** Type text via keyboard. *)
Definition type_text (text : string) : Eff t unit :=
  on_keyboard (Keyboard.type_string text).

(** Press Enter key. *)
Definition press_enter : Eff t unit :=
  on_keyboard (Keyboard.press_special "enter" MOD_NONE).

(** *** The control loop

    A run is the agent together with the calls made so far. *)
Record Run : Type := mkRun {
  self : t;
  calls : list Call
}.

Definition set_self (a : t) (r : Run) : Run := mkRun a (calls r).
Definition record_call (c : Call) (r : Run) : Run := mkRun (self r) (calls r ++ [c]).

(** A method of [self] run inside the loop. *)
Definition on_self {A} (m : Eff t A) : Eff Run A := zoom self set_self m.

(** A call to a collaborator: recorded, then answered. *)
Definition call {A} (c : Call) (answer : Res A) : Eff Run A :=
  fun r => (answer, record_call c r).

(** Capture screen and return base64 image. *)
Definition capture (w : World) : Eff Run string :=
  a ← gets self ;
  call (CallCapture (capture_device a))
       (capture_frame_base64 w (iteration a) (capture_device a)).

(** [time.sleep(self.capture_delay)]. *)
Definition pause (w : World) : Eff Run unit :=
  a ← gets self ;
  lift (time_sleep (sleep w (iteration a) (capture_delay a)) (capture_delay a)).

(** [self.vision.analyze(image_b64, task, context)]. *)
Definition vision_analyze (w : World) (image_b64 task context : string)
  : Eff Run ScreenAnalysis :=
  a ← gets self ;
  call (CallAnalyze image_b64 task context)
       (analyze w (iteration a) image_b64 task context).

(** [if callback: callback(self.iteration, analysis, action)]. *)
Definition notify (callback : option Callback) (analysis : ScreenAnalysis)
    (action : string) : Eff Run unit :=
  match callback with
  | Some f =>
      a ← gets self ;
      call (CallCallback (iteration a) analysis action)
           (f (iteration a) analysis action)
  | None => mret tt
  end.

(** How one pass of the loop body ends: at a [return], or at its end
    (or a [continue]) with the new value of [context]. *)
Inductive Step : Type :=
| Return (result : RunResult.t)
| Continue (context : string).

(** [return {'success': ..., 'iterations': self.iteration,
    'history': self.history, 'error': ...}]. *)
Definition result (success : bool) (error : option string) : Eff Run Step :=
  a ← gets self ;
  mret (Return (RunResult.mk success (iteration a) (history a) error)).

(** The note prefix ["\nIteration {self.iteration}: "]. *)
Definition note (a : t) (text : string) : string :=
  LF +:+ "Iteration " +:+ str_int (iteration a) +:+ ": " +:+ text.

(** The body of the [while] loop of [execute_task]. *)
Definition loop_body (w : World) (task : string) (callback : option Callback)
    (context : string) : Eff Run Step :=
  on_self (modify (fun a => set_iteration (iteration a + 1) a)) ;;
  (* 1. Capture screen *)
  captured ← try_except (capture w) ;
  match captured with
  | Raise e => result false (Some ("Capture failed: " +:+ str_exn e))
  | Ok image_b64 =>
    pause w ;;
    (* 2. Analyze with vision *)
    analysed ← try_except
      (analysis ← vision_analyze w image_b64 task context ;
       on_self (modify (fun a => set_history (history a ++ [analysis]) a)) ;;
       mret analysis) ;
    match analysed with
    | Raise e => result false (Some ("Vision failed: " +:+ str_exn e))
    | Ok analysis =>
      (* Update cursor estimate if vision found it *)
      match cursor_position analysis with
      | Some p => on_self (modify (set_estimated_cursor (Some p)))
      | None => mret tt
      end ;;
      (* 3. Execute suggested action *)
      a ← gets self ;
      let action := suggested_action analysis in
      if decide (action = "done") then
        notify callback analysis "done" ;;
        result true None
      else if decide (action = "error") then
        let context := context +:+ note a ("Error - " +:+ target_description analysis) in
        notify callback analysis "error" ;;
        mret (Continue context)
      else if decide (action = "move") then
        context ← match target_position analysis with
                  | Some target =>
                      on_self (move_cursor_toward (libm_pow w) target None) ;;
                      mret (context +:+ note a ("Moved toward " +:+ target_description analysis))
                  | None => mret context
                  end ;
        notify callback analysis "move" ;;
        mret (Continue context)
      else if decide (action = "click") then
        on_self (click "left") ;;
        let context := context +:+ note a ("Clicked on " +:+ target_description analysis) in
        notify callback analysis "click" ;;
        mret (Continue context)
      else if decide (action = "type") then
        context ← match text_to_type analysis with
                  | Some text =>
                      if decide (text = "") then mret context
                      else
                        on_self (type_text text) ;;
                        mret (context +:+ note a ("Typed '" +:+ text +:+ "'"))
                  | None => mret context
                  end ;
        notify callback analysis "type" ;;
        mret (Continue context)
      else if decide (action = "scroll_up") then
        on_self (on_keyboard (Keyboard.press_special "pageup" MOD_NONE)) ;;
        let context := context +:+ note a "Scrolled up" in
        notify callback analysis "scroll_up" ;;
        mret (Continue context)
      else if decide (action = "scroll_down") then
        on_self (on_keyboard (Keyboard.press_special "pagedown" MOD_NONE)) ;;
        let context := context +:+ note a "Scrolled down" in
        notify callback analysis "scroll_down" ;;
        mret (Continue context)
      else
        mret (Continue context)
    end
  end.

(** The [while self.iteration < self.max_iterations] loop and the
    [return] after it; [None] when [fuel] passes of the body do not
    reach a [return], a [raise] or the exit of the loop. *)
Fixpoint while_loop (fuel : nat) (w : World) (task : string)
    (callback : option Callback) (context : string) (r : Run)
  : option (Res RunResult.t * Run) :=
  if iteration (self r) <? max_iterations (self r) then
    match fuel with
    | O => None
    | S fuel' =>
        match loop_body w task callback context r with
        | (Ok (Return res), r') => Some (Ok res, r')
        | (Ok (Continue context'), r') => while_loop fuel' w task callback context' r'
        | (Raise e, r') => Some (Raise e, r')
        end
    end
  else
    Some (Ok (RunResult.mk false (iteration (self r)) (history (self r))
                           (Some "Max iterations reached")), r).

(** Execute a task using visual feedback loop. *)
Definition execute_task (fuel : nat) (w : World) (task : string)
    (callback : option Callback) (r : Run) : option (Res RunResult.t * Run) :=
  let r := set_self (set_history [] (set_iteration 0 (self r))) r in
  while_loop fuel w task callback "" r.

End Agent.

(** * Notions used in the statements *)

(** ** Reports *)

(** The range of a motion byte: [max(-127, min(127, v))]. *)
Definition clamp (v : Z) : Z := Z.max (-127) (Z.min 127 v).

(** The three bytes that [Mouse._send_report buttons x y] writes. *)
Definition mouse_report (buttons x y : Z) : list Z :=
  [buttons mod 256; clamp x mod 256; clamp y mod 256].

(** The mouse after [reports] more have been written. *)
Definition wrote (m : Mouse.t) (reports : list (list Z)) : Mouse.t :=
  Mouse.mk (Mouse.device m) (Mouse.written m ++ reports).

(** The component-wise sum of the motions of a list of reports. *)
Definition total_delta (reports : list (list Z)) : Z * Z :=
  foldr (fun r acc => (fst (Mouse.delta_of r) + fst acc,
                       snd (Mouse.delta_of r) + snd acc))
        (0, 0) reports.

(** Both motion components of a report lie in [-127, 127]. *)
Definition in_device_range (report : list Z) : Prop :=
  -127 <= fst (Mouse.delta_of report) <= 127 /\
  -127 <= snd (Mouse.delta_of report) <= 127.

(** The eight bytes of a key press, and the all-zero release. *)
Definition key_report (modifier keycode : Z) : list Z :=
  [modifier; 0; keycode; 0; 0; 0; 0; 0].

Definition release_report : list Z := [0; 0; 0; 0; 0; 0; 0; 0].

(** The keyboard after [reports] more have been written. *)
Definition typed (kb : Keyboard.t) (reports : list (list Z)) : Keyboard.t :=
  Keyboard.mk (Keyboard.device kb) (Keyboard.written kb ++ reports).

(** A character that [press_key] can send: it has a shifted form or a
    keycode of its own. *)
Definition mapped (char : string) : Prop :=
  is_Some (SHIFT_CHARS !! char) \/ is_Some (KEYMAP !! char).

(** A name that [press_special] knows. *)
Definition known_special (key : string) : Prop :=
  is_Some (SPECIAL_KEYS !! lower key).

(** ** Decoding a press report *)

(** The key of [d] whose value is [v]. *)
Definition key_of {V} `{EqDecision V} (d : gmap string V) (v : V) : option string :=
  fst <$> head (filter (fun kv => kv.2 = v) (map_to_list d)).

(** The character that a press report with this keycode and modifier
    stands for: the base character of the keycode and, when the shift bit
    is set, the character of [SHIFT_CHARS] that has this base. *)
Definition derive_char (keycode modifier : Z) : option string :=
  base ← key_of KEYMAP keycode ;
  if Z.testbit modifier 1 then key_of SHIFT_CHARS base else Some base.

(** ** Motion planning, in the words of the specification *)

(** The screen centre, the reference point when no estimate exists. *)
Definition screen_center (a : Agent.t) : Point.t :=
  Point.mk (Agent.screen_width a / 2) (Agent.screen_height a / 2).

(** The point a move starts from: the estimate, or else the centre. *)
Definition reference_point (a : Agent.t) : Point.t :=
  default (screen_center a) (Agent.estimated_cursor a).

(** The base speed of a call: [speed or self.move_speed]. *)
Definition base_speed (a : Agent.t) (speed : option Z) : Z :=
  match speed with
  | Some s => if s =? 0 then Agent.move_speed a else s
  | None => Agent.move_speed a
  end.

(** Proportional speed control: below 50 units [max(5, base/4)], from 50
    and below 150 [max(10, base/2)], the base speed otherwise. *)
Definition proportional_speed (base : Z) (distance : spec_float) : Z :=
  if flt distance (float_const 50) then Z.max 5 (base / 4)
  else if flt distance (float_const 150) then Z.max 10 (base / 2)
  else base.

(** A fixed speed, whatever the distance. *)
Definition constant_speed (base : Z) (distance : spec_float) : Z := base.

(** One component [d] of a vector of length [distance], at unit
    length. *)
Definition unit_component (d : Z) (distance : spec_float) : Res spec_float :=
  component ← float_of_int d ;
  fdiv component distance.

(** A float times an int speed, truncated toward zero. *)
Definition times_truncated (f : spec_float) (speed : Z) : Res Z :=
  factor ← float_of_int speed ;
  int_of_float (fmul f factor).

(** The vector from [origin] to [target], normalized to unit length,
    scaled by the speed that [speed_at] gives for the distance and
    truncated to integers, first along x, then along y; the zero vector
    when the distance is not positive; the exception of the first step
    of the arithmetic that raises one. *)
Definition toward (pow : Libm) (origin target : Point.t)
    (speed_at : spec_float -> Z) : Res (Z * Z) :=
  distance ← Point.distance_to pow target origin ;
  if flt (float_const 0) distance then
    unit_x ← unit_component (Point.x target - Point.x origin) distance ;
    move_x ← times_truncated unit_x (speed_at distance) ;
    unit_y ← unit_component (Point.y target - Point.y origin) distance ;
    move_y ← times_truncated unit_y (speed_at distance) ;
    mret (move_x, move_y)
  else mret (0, 0).

(** The motion under proportional speed control, whether or not an
    estimate exists. *)
Definition proportional_motion (pow : Libm) (a : Agent.t) (target : Point.t)
    (speed : option Z) : Res (Z * Z) :=
  toward pow (reference_point a) target (proportional_speed (base_speed a speed)).

(** The motion as the code plans it: under proportional speed control
    with an estimate, at the base speed without one. *)
Definition planned_motion (pow : Libm) (a : Agent.t) (target : Point.t)
    (speed : option Z) : Res (Z * Z) :=
  toward pow (reference_point a) target
         (match Agent.estimated_cursor a with
          | Some _ => proportional_speed (base_speed a speed)
          | None => constant_speed (base_speed a speed)
          end).

(** ** The pointer estimate *)

(** [p] displaced by [(dx, dy)]. *)
Definition displaced (p : Point.t) (d : Z * Z) : Point.t :=
  Point.mk (Point.x p + d.1) (Point.y p + d.2).

(** The agent after a move command asking for the motion [d]: one report
    more on the mouse, and the estimate, when there is one, displaced. *)
Definition moved (a : Agent.t) (d : Z * Z) : Agent.t :=
  let a' := Agent.set_mouse (wrote (Agent.mouse a) [mouse_report 0 d.1 d.2]) a in
  match Agent.estimated_cursor a with
  | Some cursor => Agent.set_estimated_cursor (Some (displaced cursor d)) a'
  | None => a'
  end.

(** The reports written to the mouse, and to the keyboard, of [a'] since
    they were those of [a]. *)
Definition mouse_reports_since (a a' : Agent.t) : list (list Z) :=
  drop (length (Mouse.written (Agent.mouse a))) (Mouse.written (Agent.mouse a')).

Definition keyboard_reports_since (a a' : Agent.t) : list (list Z) :=
  drop (length (Keyboard.written (Agent.keyboard a)))
       (Keyboard.written (Agent.keyboard a')).

(** ** One pass of the loop *)

(** The actions that the loop has a branch for. *)
Definition recognised_actions : list string :=
  ["move"; "click"; "type"; "scroll_up"; "scroll_down"; "done"; "error"].

(** The agent once the judgment of this pass is in: the counter advanced,
    the judgment appended to the history, the cursor it reports (if any)
    taken as the estimate. *)
Definition perceived (analysis : ScreenAnalysis) (a : Agent.t) : Agent.t :=
  let a' := Agent.set_history (Agent.history a ++ [analysis])
              (Agent.set_iteration (Agent.iteration a + 1) a) in
  match cursor_position analysis with
  | Some p => Agent.set_estimated_cursor (Some p) a'
  | None => a'
  end.

(** What the pass leaves of the agent apart from its two devices and its
    estimate. *)
Definition same_bookkeeping (a a' : Agent.t) : Prop :=
  Agent.capture_device a' = Agent.capture_device a /\
  Agent.screen_width a' = Agent.screen_width a /\
  Agent.screen_height a' = Agent.screen_height a /\
  Agent.capture_delay a' = Agent.capture_delay a /\
  Agent.move_speed a' = Agent.move_speed a /\
  Agent.max_iterations a' = Agent.max_iterations a /\
  Agent.iteration a' = Agent.iteration a /\
  Agent.history a' = Agent.history a.

(** The agent once the device commands of the action of a judgment
    have run on [seen], the agent as the judgment left it; or the
    exception that the arithmetic of a move raises, before anything is
    written. *)
Definition acted (pow : Libm) (analysis : ScreenAnalysis) (seen : Agent.t)
  : Res Agent.t :=
  let action := suggested_action analysis in
  if decide (action = "move") then
    match target_position analysis with
    | Some target =>
        d ← planned_motion pow seen target None ;
        mret (moved seen d)
    | None => mret seen
    end
  else if decide (action = "click") then
    mret (Agent.set_mouse (wrote (Agent.mouse seen) [[1; 0; 0]; [0; 0; 0]]) seen)
  else if decide (action = "type") then
    match text_to_type analysis with
    | Some text =>
        mret (Agent.set_keyboard
                (Keyboard.type_string text (Agent.keyboard seen)).2 seen)
    | None => mret seen
    end
  else if decide (action = "scroll_up") then
    mret (Agent.set_keyboard
            (typed (Agent.keyboard seen) [key_report 0 0x4B; release_report]) seen)
  else if decide (action = "scroll_down") then
    mret (Agent.set_keyboard
            (typed (Agent.keyboard seen) [key_report 0 0x4E; release_report]) seen)
  else mret seen.

(** What a pass notes of its action in the running context: nothing
    for [done], for an action without a branch, for a move without a
    target and for a text that is absent or empty. *)
Definition pass_note (analysis : ScreenAnalysis) : option string :=
  let action := suggested_action analysis in
  if decide (action = "error") then
    Some ("Error - " +:+ target_description analysis)
  else if decide (action = "move") then
    match target_position analysis with
    | Some _ => Some ("Moved toward " +:+ target_description analysis)
    | None => None
    end
  else if decide (action = "click") then
    Some ("Clicked on " +:+ target_description analysis)
  else if decide (action = "type") then
    match text_to_type analysis with
    | Some text => if decide (text = "") then None
                   else Some ("Typed '" +:+ text +:+ "'")
    | None => None
    end
  else if decide (action = "scroll_up") then Some "Scrolled up"
  else if decide (action = "scroll_down") then Some "Scrolled down"
  else None.

(** The running context after pass [i]. *)
Definition next_context (context : string) (i : Z) (analysis : ScreenAnalysis)
  : string :=
  match pass_note analysis with
  | Some text => context +:+ LF +:+ "Iteration " +:+ str_int i +:+ ": " +:+ text
  | None => context
  end.

(** ** Runs of the loop *)

(** The run as [execute_task] sets it up: counter at 0, empty history. *)
Definition started (r : Agent.Run) : Agent.Run :=
  Agent.set_self (Agent.set_history [] (Agent.set_iteration 0 (Agent.self r))) r.

(** The calls to the observer, to the judge and to the capture among
    the calls of a run. *)
Definition is_callback_call (c : Call) : bool :=
  match c with CallCallback _ _ _ => true | _ => false end.

Definition is_analyze_call (c : Call) : bool :=
  match c with CallAnalyze _ _ _ => true | _ => false end.

Definition is_capture_call (c : Call) : bool :=
  match c with CallCapture _ => true | _ => false end.

Definition callback_calls (calls : list Call) : list Call :=
  List.filter is_callback_call calls.

Definition analyze_calls (calls : list Call) : list Call :=
  List.filter is_analyze_call calls.

Definition capture_calls (calls : list Call) : list Call :=
  List.filter is_capture_call calls.

(** The calls that a pass makes before it acts. *)
Definition perception_calls (r : Agent.Run) (image_b64 task context : string)
  : list Call :=
  Agent.calls r ++ [CallCapture (Agent.capture_device (Agent.self r));
                    CallAnalyze image_b64 task context].

(** The judge follows a script: in iteration [i] it answers
    [script i], whatever the image and the context. *)
Definition scripted (w : World) (task : string) (script : Z -> ScreenAnalysis)
    (i : Z) : Prop :=
  forall image_b64 context, analyze w i image_b64 task context = Ok (script i).

(** In iteration [i] the capture of the device of [a] answers and the
    sleep of the length of [a] returns. *)
Definition frame_arrives (w : World) (a : Agent.t) (i : Z) : Prop :=
  (exists image_b64,
      capture_frame_base64 w i (Agent.capture_device a) = Ok image_b64) /\
  time_sleep (sleep w i (Agent.capture_delay a)) (Agent.capture_delay a) = Ok tt.

(** The observer, if there is one, returns in iteration [i]. *)
Definition observer_returns (callback : option Callback) (i : Z) : Prop :=
  forall f analysis action, callback = Some f -> f i analysis action = Ok tt.

(** Pass [i] goes through: the frame arrives, the judge follows the
    script and the observer returns. *)
Definition goes_through (w : World) (task : string) (callback : option Callback)
    (a : Agent.t) (script : Z -> ScreenAnalysis) (i : Z) : Prop :=
  frame_arrives w a i /\ scripted w task script i /\ observer_returns callback i.

(** The agent after [n] more passes of a scripted run, as far as the
    judgments and the device commands go; or the exception that the
    arithmetic of a move raises on the way. *)
Fixpoint agent_after (pow : Libm) (script : Z -> ScreenAnalysis) (n : nat)
    (a : Agent.t) : Res Agent.t :=
  match n with
  | O => Ok a
  | S n' =>
      let analysis := script (Agent.iteration a + 1) in
      a' ← acted pow analysis (perceived analysis a) ;
      agent_after pow script n' a'
  end.

(** The call to the observer that pass [i] of a scripted run makes:
    one, with the judgment and its action, when the loop has a branch
    for the action; none otherwise. *)
Definition observer_call (script : Z -> ScreenAnalysis) (i : Z) : list Call :=
  if decide (suggested_action (script i) ∈ recognised_actions)
  then [CallCallback i (script i) (suggested_action (script i))]
  else [].

(** The calls to the observer in the [n] passes from pass [first] on. *)
Definition observer_calls (script : Z -> ScreenAnalysis) (first : Z) (n : nat)
  : list Call :=
  flat_map (observer_call script) (seqZ first (Z.of_nat n)).

(** The judgments of the [n] passes from pass [first] on. *)
Definition judgments (script : Z -> ScreenAnalysis) (first : Z) (n : nat)
  : list ScreenAnalysis :=
  script <$> seqZ first (Z.of_nat n).

(** The running context after the [n] passes from pass [first] on of a
    scripted run, which started them with [context]. *)
Fixpoint context_after (script : Z -> ScreenAnalysis) (first : Z) (n : nat)
    (context : string) : string :=
  match n with
  | O => context
  | S n' =>
      context_after script (first + 1) n'
                    (next_context context first (script first))
  end.

(** ** Key combinations, in the words of the specification *)

(** The modifier bit that a name of a combination stands for. *)
Definition modifier_bit (key : string) : option Z :=
  let name := lower key in
  if decide (name = "ctrl" \/ name = "control") then Some MOD_CTRL
  else if decide (name = "shift") then Some MOD_SHIFT
  else if decide (name = "alt" \/ name = "option") then Some MOD_ALT
  else if decide (name = "meta" \/ name = "cmd" \/ name = "command" \/
                  name = "win" \/ name = "super") then Some MOD_META
  else None.

(** The keycode that a name of a combination stands for: that of a
    special key, or that of a single character of the key map; none for
    the name of a modifier. *)
Definition combination_keycode (key : string) : option Z :=
  let name := lower key in
  match modifier_bit key with
  | Some _ => None
  | None =>
      match SPECIAL_KEYS !! name with
      | Some code => Some code
      | None => if (String.length name =? 1)%nat then KEYMAP !! name else None
      end
  end.

(** A name that [hotkey] knows. *)
Definition known_name (key : string) : bool :=
  bool_decide (is_Some (modifier_bit key) \/ is_Some (combination_keycode key)).

(** The modifier byte of a combination: the bits of its modifier names
    together; and its keycode: that of the last key name, 0 without
    one. *)
Definition combined_modifier (keys : list string) : Z :=
  foldr Z.lor 0 (omap modifier_bit keys).

Definition combined_keycode (keys : list string) : Z :=
  default 0 (last (omap combination_keycode keys)).

(** ** Decoding what was typed *)

(** The character a keyboard report stands for: none for a release
    report, the character of its keycode and modifier for a press. *)
Definition report_char (report : list Z) : option string :=
  match report with
  | [modifier; _; keycode; _; _; _; _; _] =>
      if keycode =? 0 then None else derive_char keycode modifier
  | _ => None
  end.

(** The text that a list of keyboard reports types. *)
Definition typed_chars (reports : list (list Z)) : list string :=
  omap report_char reports.

(** [mapped], as a test. *)
Definition is_mapped (char : string) : bool :=
  bool_decide (is_Some (SHIFT_CHARS !! char)) || bool_decide (is_Some (KEYMAP !! char)).

(** The number of steps of at most 127 that cover a distance. *)
Definition steps_for (distance : Z) : Z := (distance + 126) / 127.

(** ** Sample agents, worlds and observers *)

(** A judgment that names a cursor, a target and an action. *)
Definition judgment (cursor target : option Point.t) (action : string)
  : ScreenAnalysis :=
  {| cursor_position := cursor;
     target_position := target;
     target_found := true;
     target_description := "button";
     suggested_action := action;
     text_to_type := None;
     confidence := S754_zero false;
     raw_response := "" |}.

(** A judgment that asks for [text] to be typed. *)
Definition typing_judgment (text : string) : ScreenAnalysis :=
  {| cursor_position := None;
     target_position := None;
     target_found := true;
     target_description := "field";
     suggested_action := "type";
     text_to_type := Some text;
     confidence := S754_zero false;
     raw_response := "" |}.

(** The default [capture_delay], 0.3. *)
Definition default_capture_delay : spec_float :=
  S754_finite false 5404319552844595 (-54).

(** [Agent(vision, move_speed=..., max_iterations=...)] on the default
    devices, resolution and delay, with the estimate given. *)
Definition sample_agent (move_speed max_iterations : Z) (estimate : option Point.t)
  : Agent.t :=
  Agent.mk (Keyboard.mk "/dev/hidg0" []) (Mouse.mk "/dev/hidg1" []) "/dev/video0"
           1920 1080 default_capture_delay move_speed max_iterations 0 []
           estimate.

Definition sample_run (max_iterations : Z) : Agent.Run :=
  Agent.mkRun (sample_agent 40 max_iterations None) [].

(** A C library whose [pow(x, 0.5)] is the correctly rounded square
    root of [x]. *)
Definition rounded_root : Libm := fun x _ => SFsqrt prec emax x.

(** A world in which the capture answers, the sleep returns, the C
    library is [pow], and the judge follows [script]. *)
Definition world_of (pow : Libm) (script : Z -> ScreenAnalysis) : World :=
  {| capture_frame_base64 := fun _ _ => Ok "frame";
     sleep := fun _ _ => Ok tt;
     analyze := fun i _ _ _ => Ok (script i);
     libm_pow := pow |}.

(** The script that gives [action] in every iteration but [k], where
    it says [done]. *)
Definition action_until_done (action : string) (k : Z) (i : Z) : ScreenAnalysis :=
  judgment None None (if i =? k then "done" else action).

Definition scripted_world (action : string) (k : Z) : World :=
  world_of rounded_root (action_until_done action k).

(** A judge that reports the same cursor, target and action in every
    iteration, with the C library [pow]. *)
Definition pointing_world (pow : Libm) (cursor target : option Point.t)
    (action : string) : World :=
  world_of pow (fun _ => judgment cursor target action).

(** A judge that asks for [text] to be typed in every iteration. *)
Definition typing_world (text : string) : World :=
  world_of rounded_root (fun _ => typing_judgment text).

(** A capture that raises [e] in iteration [k], and a judge that says
    [done]. *)
Definition broken_capture_world (k : Z) (e : Exn) : World :=
  {| capture_frame_base64 := fun i _ => if i =? k then Raise e else Ok "frame";
     sleep := fun _ _ => Ok tt;
     analyze := fun _ _ _ _ => Ok (judgment None None "done");
     libm_pow := rounded_root |}.

(** A judge that raises [e] in iteration [k] and follows the script of
    [action] in the others. *)
Definition broken_judge_world (action : string) (k : Z) (e : Exn) : World :=
  {| capture_frame_base64 := fun _ _ => Ok "frame";
     sleep := fun _ _ => Ok tt;
     analyze := fun i _ _ _ =>
       if i =? k then Raise e else Ok (action_until_done action 0 i);
     libm_pow := rounded_root |}.

(** An observer that returns, and one that raises in iteration [k]. *)
Definition silent_observer : Callback := fun _ _ _ => Ok tt.

Definition failing_observer (k : Z) : Callback :=
  fun i _ _ => if i =? k then Raise (Exception "observer") else Ok tt.
(** * Properties of [hid.py] *)

(** Unfolds the monad operations in a goal about a run. *)
Ltac eff_unfold :=
  unfold mbind, mret, Eff_bind, Eff_ret, eff_bind, eff_ret, raise, try_except,
    get, gets, modify, zoom in *;
  cbv beta in *.

#[global] Arguments clamp : simpl never.
#[global] Arguments mouse_report : simpl never.

(** ** Mouse reports *)

Lemma clamp_range v : -127 <= clamp v <= 127.
Proof. unfold clamp. lia. Qed.

Lemma clamp_id v : -127 <= v <= 127 -> clamp v = v.
Proof. unfold clamp. lia. Qed.

(** A signed byte survives packing and unpacking. *)
Lemma unpack_pack_b v :
  -128 <= v <= 127 ->
  Mouse.pack_b v = Ok (v mod 256) /\ Mouse.unpack_b (v mod 256) = v.
Proof.
  intros Hv. unfold Mouse.pack_b, Mouse.unpack_b.
  replace ((-128 <=? v) && (v <=? 127)) with true by lia.
  split; [reflexivity|].
  destruct (Z.neg_nonneg_cases v) as [Hneg|Hpos].
  - rewrite <- (Z.mod_add v 1 256) by lia.
    rewrite Z.mod_small by lia.
    destruct (Z.ltb_spec (v + 1 * 256) 128); lia.
  - rewrite Z.mod_small by lia.
    destruct (Z.ltb_spec v 128); lia.
Qed.

Lemma wrote_wrote m r1 r2 : wrote (wrote m r1) r2 = wrote m (r1 ++ r2).
Proof. unfold wrote. simpl. by rewrite app_assoc. Qed.

Lemma wrote_nil m : wrote m [] = m.
Proof. destruct m. unfold wrote. simpl. by rewrite app_nil_r. Qed.

Lemma mouse_send_report buttons x y m :
  -128 <= buttons <= 127 ->
  Mouse._send_report buttons x y m = (Ok tt, wrote m [mouse_report buttons x y]).
Proof.
  intros Hb. unfold Mouse._send_report, Mouse.pack_bbb.
  fold (clamp x) (clamp y).
  destruct (unpack_pack_b buttons Hb) as [-> _].
  destruct (unpack_pack_b (clamp x) ltac:(pose proof (clamp_range x); lia)) as [-> _].
  destruct (unpack_pack_b (clamp y) ltac:(pose proof (clamp_range y); lia)) as [-> _].
  reflexivity.
Qed.

Lemma mouse_move x y m :
  Mouse.move x y m = (Ok tt, wrote m [mouse_report 0 x y]).
Proof. apply mouse_send_report. lia. Qed.

Lemma delta_of_mouse_report buttons x y :
  Mouse.delta_of (mouse_report buttons x y) = (clamp x, clamp y).
Proof.
  unfold Mouse.delta_of, mouse_report.
  destruct (unpack_pack_b (clamp x) ltac:(pose proof (clamp_range x); lia)) as [_ ->].
  destruct (unpack_pack_b (clamp y) ltac:(pose proof (clamp_range y); lia)) as [_ ->].
  reflexivity.
Qed.

Lemma mouse_click button m :
  exists btn,
    Mouse.click button m
    = (Ok tt, wrote m [mouse_report btn 0 0; mouse_report 0 0 0]).
Proof.
  unfold Mouse.click. eff_unfold.
  set (btn := dict_get _ button 1).
  assert (Hbtn : -128 <= btn <= 127).
  { subst btn. unfold dict_get.
    destruct (_ !! button) as [v|] eqn:Hv; simpl; [|lia].
    apply elem_of_list_to_map_2 in Hv.
    repeat (apply elem_of_cons in Hv as [Hv|Hv]; [inversion Hv; lia|]).
    by apply elem_of_nil in Hv. }
  exists btn. rewrite mouse_send_report by assumption.
  rewrite mouse_send_report by lia. by rewrite wrote_wrote.
Qed.

Lemma total_delta_cons r reports :
  total_delta (r :: reports) =
  (fst (Mouse.delta_of r) + fst (total_delta reports),
   snd (Mouse.delta_of r) + snd (total_delta reports)).
Proof. reflexivity. Qed.

(** The stepping loop of [move_to], by induction on the passes left:
    with enough of them it exits, having written reports in range whose
    motions add up to the delta it was given. *)
Lemma move_to_loop_spec fuel : forall dx dy m,
  (Z.to_nat (Z.max (Z.abs dx) (Z.abs dy)) <= fuel)%nat ->
  exists reports,
    Mouse.move_to_loop fuel dx dy m = Some (Ok tt, wrote m reports) /\
    Forall in_device_range reports /\
    total_delta reports = (dx, dy) /\
    (dx <> 0 \/ dy <> 0 -> (1 <= length reports)%nat) /\
    (127 < Z.abs dx \/ 127 < Z.abs dy -> (2 <= length reports)%nat).
Proof.
  induction fuel as [|fuel IH]; intros dx dy m Hfuel.
  - assert (dx = 0 /\ dy = 0) as [-> ->] by lia.
    exists []. rewrite wrote_nil. repeat split; auto; simpl; lia.
  - simpl. destruct ((0 <? Z.abs dx) || (0 <? Z.abs dy)) eqn:Hgo.
    + rewrite mouse_move. fold (clamp dx) (clamp dy).
      destruct (IH (dx - clamp dx) (dy - clamp dy)
                  (wrote m [mouse_report 0 (clamp dx) (clamp dy)]))
        as (reports & Hrun & Hrange & Hsum & Hone & _).
      { unfold clamp. apply orb_true_iff in Hgo. lia. }
      exists (mouse_report 0 (clamp dx) (clamp dy) :: reports).
      rewrite Hrun, wrote_wrote. split; [reflexivity|].
      split; [|split; [|split]].
      * constructor; [|assumption]. unfold in_device_range.
        rewrite delta_of_mouse_report. simpl.
        pose proof (clamp_range (clamp dx)). pose proof (clamp_range (clamp dy)). lia.
      * rewrite total_delta_cons, Hsum, delta_of_mouse_report. simpl.
        rewrite !(clamp_id (clamp _)) by apply clamp_range.
        f_equal; lia.
      * intros _. simpl. lia.
      * intros Hbig. simpl.
        assert (dx - clamp dx <> 0 \/ dy - clamp dy <> 0) as Hrest
          by (unfold clamp; lia).
        specialize (Hone Hrest). lia.
    + apply orb_false_iff in Hgo as [Hx Hy].
      assert (dx = 0 /\ dy = 0) as [-> ->] by lia.
      exists []. rewrite wrote_nil. repeat split; auto; simpl; lia.
Qed.

(** C9. [move_to] from a known position, given passes enough for the
    larger of the two distances: it returns normally, every report it
    writes carries a motion within [-127, 127] on both axes, the motions
    add up to the requested delta exactly, and a delta beyond 127 on
    either axis takes at least two reports. *)
Theorem move_to_decomposes_large_motion
    (fuel : nat) (target_x target_y screen_width screen_height : Z)
    (current_x current_y : Z) (m : Mouse.t) :
  (Z.to_nat (Z.max (Z.abs (target_x - current_x)) (Z.abs (target_y - current_y)))
   <= fuel)%nat ->
  exists reports,
    Mouse.move_to fuel target_x target_y screen_width screen_height
                  (Some current_x) (Some current_y) m
    = Some (Ok tt, wrote m reports) /\
    Forall in_device_range reports /\
    total_delta reports = (target_x - current_x, target_y - current_y) /\
    (127 < Z.abs (target_x - current_x) \/ 127 < Z.abs (target_y - current_y) ->
     (2 <= length reports)%nat).
Proof.
  intros Hfuel. unfold Mouse.move_to.
  destruct (move_to_loop_spec fuel _ _ m Hfuel)
    as (reports & Hrun & Hrange & Hsum & _ & Htwo).
  exists reports. auto.
Qed.

Lemma move_to_decomposes_large_motion_witness :
  exists reports,
    Mouse.move_to 300 300 (-130) 1920 1080 (Some 0) (Some 0) (Mouse.mk "/dev/hidg1" [])
    = Some (Ok tt, wrote (Mouse.mk "/dev/hidg1" []) reports) /\
    Forall in_device_range reports /\
    total_delta reports = (300 - 0, -130 - 0) /\
    (127 < Z.abs (300 - 0) \/ 127 < Z.abs (-130 - 0) -> (2 <= length reports)%nat).
Proof.
  apply (move_to_decomposes_large_motion 300 300 (-130) 1920 1080 0 0).
  vm_compute. lia.
Defined.

(** ** Keyboard reports *)

#[global] Opaque KEYMAP SHIFT_CHARS SPECIAL_KEYS.

Lemma typed_typed kb r1 r2 : typed (typed kb r1) r2 = typed kb (r1 ++ r2).
Proof. unfold typed. simpl. by rewrite app_assoc. Qed.

Lemma typed_nil kb : typed kb [] = kb.
Proof. destruct kb. unfold typed. simpl. by rewrite app_nil_r. Qed.

Lemma keyboard_send_report modifier keycode kb :
  0 <= modifier < 256 -> 0 <= keycode < 256 ->
  Keyboard._send_report modifier keycode kb
  = (Ok tt, typed kb [key_report modifier keycode]).
Proof.
  intros Hm Hk. unfold Keyboard._send_report, Keyboard.bytes. simpl.
  replace ((0 <=? modifier) && (modifier <? 256)) with true by lia.
  replace ((0 <=? keycode) && (keycode <? 256)) with true by lia.
  reflexivity.
Qed.

(** A press report followed by the release report. *)
Lemma keyboard_press_release modifier keycode kb :
  0 <= modifier < 256 -> 0 <= keycode < 256 ->
  (Keyboard._send_report modifier keycode ;; Keyboard._send_report 0 0) kb
  = (Ok tt, typed kb [key_report modifier keycode; release_report]).
Proof.
  intros Hm Hk. eff_unfold.
  rewrite keyboard_send_report by assumption.
  rewrite keyboard_send_report by lia.
  by rewrite typed_typed.
Qed.

(** The tables, checked entry by entry. *)
Lemma KEYMAP_codes : map_Forall (fun _ keycode => 0 < keycode < 256) KEYMAP.
Proof. apply (bool_decide_unpack _). by vm_compute. Qed.

Lemma SPECIAL_KEYS_codes :
  map_Forall (fun _ keycode => 0 < keycode < 256) SPECIAL_KEYS.
Proof. apply (bool_decide_unpack _). by vm_compute. Qed.

Lemma SHIFT_CHARS_round_trip :
  map_Forall (fun char base =>
                exists keycode, KEYMAP !! base = Some keycode
                  /\ key_of KEYMAP keycode = Some base
                  /\ key_of SHIFT_CHARS base = Some char) SHIFT_CHARS.
Proof.
  assert (H : map_Forall (fun char base =>
            (KEYMAP !! base ≫= key_of KEYMAP) = Some base
            /\ key_of SHIFT_CHARS base = Some char) SHIFT_CHARS)
    by (apply (bool_decide_unpack _); by vm_compute).
  intros char base Hin. destruct (H char base Hin) as [Hkey Hshift].
  destruct (KEYMAP !! base) as [keycode|]; [|done]. by exists keycode.
Qed.

(** Setting the shift bit of a byte gives a byte with the bit set. *)
Lemma mod_shift_byte modifier :
  0 <= modifier < 256 ->
  0 <= Z.lor modifier MOD_SHIFT < 256 /\
  Z.land (Z.lor modifier MOD_SHIFT) MOD_SHIFT = MOD_SHIFT /\
  Z.testbit (Z.lor modifier MOD_SHIFT) 1 = true.
Proof.
  intros Hm.
  assert (Hall : Forall (fun m => 0 <= Z.lor m MOD_SHIFT < 256
                                  /\ Z.land (Z.lor m MOD_SHIFT) MOD_SHIFT = MOD_SHIFT
                                  /\ Z.testbit (Z.lor m MOD_SHIFT) 1 = true)
                        (seqZ 0 256))
    by (apply (bool_decide_unpack _); by vm_compute).
  rewrite Forall_forall in Hall. apply Hall, elem_of_seqZ. lia.
Qed.

(** What [press_key] does, by the table the character is found in. *)
Lemma press_key_run char modifier kb :
  0 <= modifier < 256 ->
  Keyboard.press_key char modifier kb =
  match SHIFT_CHARS !! char with
  | Some base =>
      (Ok tt, typed kb [key_report (Z.lor modifier MOD_SHIFT) (dict_get KEYMAP base 0);
                        release_report])
  | None =>
      match KEYMAP !! char with
      | Some keycode => (Ok tt, typed kb [key_report modifier keycode; release_report])
      | None => (Ok tt, kb)
      end
  end.
Proof.
  intros Hm. unfold Keyboard.press_key.
  destruct (SHIFT_CHARS !! char) as [base|] eqn:Hshift.
  - destruct (SHIFT_CHARS_round_trip char base Hshift) as (keycode & Hkey & _).
    pose proof (KEYMAP_codes base keycode Hkey) as Hcode. simpl in Hcode.
    unfold dict_get. rewrite Hkey. simpl.
    destruct (Z.eqb_spec keycode 0); [lia|].
    apply keyboard_press_release; [by apply mod_shift_byte | lia].
  - unfold dict_get. destruct (KEYMAP !! char) as [keycode|] eqn:Hkey; simpl.
    + pose proof (KEYMAP_codes char keycode Hkey) as Hcode. simpl in Hcode.
      destruct (Z.eqb_spec keycode 0); [lia|].
      apply keyboard_press_release; lia.
    + reflexivity.
Qed.

Lemma press_special_run key modifier kb :
  0 <= modifier < 256 ->
  Keyboard.press_special key modifier kb =
  match SPECIAL_KEYS !! lower key with
  | Some keycode => (Ok tt, typed kb [key_report modifier keycode; release_report])
  | None => (Ok tt, kb)
  end.
Proof.
  intros Hm. unfold Keyboard.press_special, dict_get.
  destruct (SPECIAL_KEYS !! lower key) as [keycode|] eqn:Hkey; simpl; [|done].
  pose proof (SPECIAL_KEYS_codes _ keycode Hkey) as Hcode. simpl in Hcode.
  destruct (Z.eqb_spec keycode 0); [lia|].
  apply keyboard_press_release; lia.
Qed.

(** Typing never raises: each character adds its two reports or none. *)
Lemma type_string_run text kb :
  exists reports, Keyboard.type_string text kb = (Ok tt, typed kb reports).
Proof.
  unfold Keyboard.type_string. generalize (chars text) as cs.
  intros cs. revert kb. induction cs as [|c cs IH]; intros kb.
  - exists []. by rewrite typed_nil.
  - cbn [for_each]. eff_unfold.
    rewrite press_key_run by (unfold MOD_NONE; lia).
    assert (exists r, match SHIFT_CHARS !! c with
      | Some base =>
          (Ok tt, typed kb [key_report (Z.lor MOD_NONE MOD_SHIFT) (dict_get KEYMAP base 0);
                            release_report])
      | None =>
          match KEYMAP !! c with
          | Some keycode => (Ok tt, typed kb [key_report MOD_NONE keycode; release_report])
          | None => (Ok tt, kb)
          end
      end = (Ok tt, typed kb r)) as [r ->].
    { destruct (SHIFT_CHARS !! c); [eauto|].
      destruct (KEYMAP !! c); [eauto|]. exists []. by rewrite typed_nil. }
    destruct (IH (typed kb r)) as [rs ->].
    exists (r ++ rs). by rewrite typed_typed.
Qed.

(** C7. A keyboard command, [press_key] on a mapped character or
    [press_special] on a known key, with a modifier that fits the
    modifier byte: exactly two reports are written, a press report (its
    keycode is not zero) and straight after it the all-zero release
    report, so the last report on the device releases every key and
    modifier. *)
Theorem keyboard_command_press_then_release
    (command : Eff Keyboard.t unit) (modifier : Z) (kb : Keyboard.t) :
  0 <= modifier < 256 ->
  (exists char, mapped char /\ command = Keyboard.press_key char modifier) \/
  (exists key, known_special key /\ command = Keyboard.press_special key modifier) ->
  exists modifier' keycode,
    0 < keycode < 256 /\
    command kb = (Ok tt, typed kb [key_report modifier' keycode; release_report]) /\
    last (Keyboard.written (command kb).2) = Some release_report.
Proof.
  intros Hm [(char & Hmapped & ->)|(key & Hknown & ->)].
  - rewrite press_key_run by assumption.
    destruct (SHIFT_CHARS !! char) as [base|] eqn:Hshift.
    + destruct (SHIFT_CHARS_round_trip char base Hshift) as (keycode & Hkey & _).
      exists (Z.lor modifier MOD_SHIFT), keycode.
      unfold dict_get. rewrite Hkey. simpl.
      split; [exact (KEYMAP_codes base keycode Hkey)|].
      split; [reflexivity|]. by rewrite last_app.
    + destruct Hmapped as [[b Hb]|[keycode Hkey]]; [congruence|].
      rewrite Hkey. exists modifier, keycode.
      split; [exact (KEYMAP_codes char keycode Hkey)|].
      split; [reflexivity|]. simpl. by rewrite last_app.
  - rewrite press_special_run by assumption.
    destruct Hknown as [keycode Hkey]. rewrite Hkey.
    exists modifier, keycode.
    split; [exact (SPECIAL_KEYS_codes _ keycode Hkey)|].
    split; [reflexivity|]. simpl. by rewrite last_app.
Qed.

Lemma keyboard_command_press_then_release_witness :
  exists modifier' keycode,
    0 < keycode < 256 /\
    Keyboard.press_special "PageDown" MOD_CTRL (Keyboard.mk "/dev/hidg0" [])
    = (Ok tt, typed (Keyboard.mk "/dev/hidg0" [])
                    [key_report modifier' keycode; release_report]) /\
    last (Keyboard.written
            (Keyboard.press_special "PageDown" MOD_CTRL (Keyboard.mk "/dev/hidg0" [])).2)
    = Some release_report.
Proof.
  apply (keyboard_command_press_then_release
           (Keyboard.press_special "PageDown" MOD_CTRL) MOD_CTRL).
  - unfold MOD_CTRL. lia.
  - right. exists "PageDown". split; [|reflexivity].
    unfold known_special. vm_compute. eauto.
Defined.

(** C8. A character of the shift table is sent as the keycode of its
    base character with the shift bit added to the modifier, and
    [derive_char] reads the character back from that pair; a character
    in neither table writes nothing and raises nothing. *)
Theorem press_key_shift_round_trip_and_unmapped_dropped
    (char : string) (modifier : Z) (kb : Keyboard.t) :
  (forall base,
     0 <= modifier < 256 ->
     SHIFT_CHARS !! char = Some base ->
     exists keycode,
       KEYMAP !! base = Some keycode /\
       Keyboard.press_key char modifier kb
       = (Ok tt, typed kb [key_report (Z.lor modifier MOD_SHIFT) keycode;
                           release_report]) /\
       Z.land (Z.lor modifier MOD_SHIFT) MOD_SHIFT = MOD_SHIFT /\
       derive_char keycode (Z.lor modifier MOD_SHIFT) = Some char) /\
  (SHIFT_CHARS !! char = None -> KEYMAP !! char = None ->
   Keyboard.press_key char modifier kb = (Ok tt, kb)).
Proof.
  split.
  - intros base Hm Hshift.
    destruct (SHIFT_CHARS_round_trip char base Hshift)
      as (keycode & Hkey & Hback & Hunshift).
    exists keycode. split; [assumption|].
    rewrite press_key_run, Hshift by assumption.
    unfold dict_get. rewrite Hkey. simpl. split; [reflexivity|].
    destruct (mod_shift_byte modifier Hm) as (_ & Hland & Hbit).
    split; [assumption|].
    unfold derive_char. rewrite Hback. cbn [mbind option_bind]. by rewrite Hbit.
  - intros Hshift Hkey. unfold Keyboard.press_key, dict_get.
    by rewrite Hshift, Hkey.
Qed.

Lemma press_key_shift_round_trip_and_unmapped_dropped_witness :
  (exists keycode,
     KEYMAP !! "5" = Some keycode /\
     Keyboard.press_key "%" MOD_CTRL (Keyboard.mk "/dev/hidg0" [])
     = (Ok tt, typed (Keyboard.mk "/dev/hidg0" [])
                     [key_report (Z.lor MOD_CTRL MOD_SHIFT) keycode; release_report]) /\
     Z.land (Z.lor MOD_CTRL MOD_SHIFT) MOD_SHIFT = MOD_SHIFT /\
     derive_char keycode (Z.lor MOD_CTRL MOD_SHIFT) = Some "%") /\
  Keyboard.press_key (String "013"%char EmptyString) MOD_NONE (Keyboard.mk "/dev/hidg0" [])
  = (Ok tt, Keyboard.mk "/dev/hidg0" []).
Proof.
  split.
  - apply (proj1 (press_key_shift_round_trip_and_unmapped_dropped
                    "%" MOD_CTRL (Keyboard.mk "/dev/hidg0" [])) "5").
    + unfold MOD_CTRL. lia.
    + by vm_compute.
  - apply (proj2 (press_key_shift_round_trip_and_unmapped_dropped
                    (String "013"%char EmptyString) MOD_NONE
                    (Keyboard.mk "/dev/hidg0" []))); by vm_compute.
Defined.

(** * Properties of [agent.py] *)

(** ** Motion planning *)

#[global] Arguments float_const : simpl never.

(** Unfolds the sequencing of outcomes. *)
Ltac res_unfold :=
  unfold mbind, mret, Res_bind, Res_ret, res_bind in *; cbv beta in *.

(** [int((d / distance) * speed)] is the component at unit length,
    scaled and truncated. *)
Lemma scaled_unit_component d distance speed :
  Agent.scaled d distance speed
  = unit_component d distance ≫= fun unit => times_truncated unit speed.
Proof.
  unfold Agent.scaled, unit_component, times_truncated. res_unfold.
  destruct (float_of_int d) as [fd|e]; [|reflexivity].
  destruct (fdiv fd distance); reflexivity.
Qed.

(** The motion that [move_cursor_toward] asks of the mouse is the
    truncated scaled unit vector from the reference point, at the speed
    that the code selects; and it raises what the arithmetic of that
    vector raises. *)
Lemma motion_toward pow a target speed :
  Agent.motion pow a target speed = planned_motion pow a target speed.
Proof.
  unfold Agent.motion, planned_motion, toward, reference_point, screen_center,
    proportional_speed, constant_speed, Point.distance_to, base_speed.
  unfold Agent.scaled, unit_component, times_truncated.
  destruct (Agent.estimated_cursor a) as [cursor|]; cbn [default Point.x Point.y];
    res_unfold; cbv zeta; unfold id;
    repeat match goal with
           | |- context [int_pow_half ?p ?n] => destruct (int_pow_half p n)
           | |- context [float_of_int ?n] => destruct (float_of_int n)
           | |- context [fdiv ?x ?y] => destruct (fdiv x y)
           | |- context [int_of_float ?x] => destruct (int_of_float x)
           | |- context [if flt ?x ?y then _ else _] => destruct (flt x y)
           end;
    reflexivity.
Qed.

(** A target at the origin of the move: no motion, whatever the speed
    and the C library. *)
Lemma toward_self pow p speed_at : toward pow p p speed_at = Ok (0, 0).
Proof.
  unfold toward, Point.distance_to.
  replace ((Point.x p - Point.x p) ^ 2 + (Point.y p - Point.y p) ^ 2) with 0 by lia.
  reflexivity.
Qed.

(** [move_cursor_toward] leaves the agent [moved] by the motion
    planned; when the planning raises, the agent is as it was. *)
Lemma move_cursor_toward_run pow target speed a :
  Agent.move_cursor_toward pow target speed a
  = match Agent.motion pow a target speed with
    | Ok d => (Ok tt, moved a d)
    | Raise e => (Raise e, a)
    end.
Proof.
  unfold Agent.move_cursor_toward, Agent.on_mouse, moved, lift.
  unfold mbind at 1, Eff_bind, eff_bind, get.
  unfold mbind at 1.
  destruct (Agent.motion pow a target speed) as [[move_x move_y]|e]; [|reflexivity].
  eff_unfold. rewrite mouse_move.
  destruct a as [kb m dev sw sh cd ms mi it hist [cursor|]]; reflexivity.
Qed.

(** ** The device commands of a pass *)

Lemma agent_click_left a :
  Agent.click "left" a
  = (Ok tt, Agent.set_mouse (wrote (Agent.mouse a) [[1; 0; 0]; [0; 0; 0]]) a).
Proof.
  unfold Agent.click, Agent.on_mouse, zoom, Mouse.click.
  assert (Hleft : dict_get (list_to_map ["left" :-> 1; "right" :-> 2; "middle" :-> 4])
                           "left" 1 = 1) by (by vm_compute).
  rewrite Hleft. eff_unfold.
  rewrite mouse_send_report by lia. rewrite mouse_send_report by lia.
  by rewrite wrote_wrote.
Qed.

Lemma agent_scroll key keycode a :
  SPECIAL_KEYS !! lower key = Some keycode ->
  Agent.on_keyboard (Keyboard.press_special key MOD_NONE) a
  = (Ok tt, Agent.set_keyboard
              (typed (Agent.keyboard a) [key_report MOD_NONE keycode; release_report]) a).
Proof.
  intros Hkey. unfold Agent.on_keyboard, zoom.
  rewrite press_special_run by (unfold MOD_NONE; lia). by rewrite Hkey.
Qed.

Lemma agent_type_text text a :
  Agent.type_text text a
  = (Ok tt, Agent.set_keyboard (Keyboard.type_string text (Agent.keyboard a)).2 a).
Proof.
  unfold Agent.type_text, Agent.on_keyboard, zoom.
  destruct (type_string_run text (Agent.keyboard a)) as [reports ->]. reflexivity.
Qed.

Lemma set_keyboard_same a : Agent.set_keyboard (Agent.keyboard a) a = a.
Proof. by destruct a. Qed.

(** ** What the device commands leave untouched *)

Lemma same_bookkeeping_refl a : same_bookkeeping a a.
Proof. by repeat split. Qed.

Lemma same_bookkeeping_set_mouse m a : same_bookkeeping a (Agent.set_mouse m a).
Proof. by repeat split. Qed.

Lemma same_bookkeeping_set_keyboard k a : same_bookkeeping a (Agent.set_keyboard k a).
Proof. by repeat split. Qed.

Lemma same_bookkeeping_moved a d : same_bookkeeping a (moved a d).
Proof. destruct a as [? ? ? ? ? ? ? ? ? ? [c|]]; by repeat split. Qed.

Lemma moved_estimate a d :
  Agent.estimated_cursor (moved a d)
  = (fun cursor => displaced cursor d) <$> Agent.estimated_cursor a.
Proof. by destruct a as [? ? ? ? ? ? ? ? ? ? [c|]]. Qed.

Lemma moved_mouse a d :
  Agent.mouse (moved a d) = wrote (Agent.mouse a) [mouse_report 0 d.1 d.2].
Proof. by destruct a as [? ? ? ? ? ? ? ? ? ? [c|]]. Qed.

Lemma moved_keyboard a d : Agent.keyboard (moved a d) = Agent.keyboard a.
Proof. by destruct a as [? ? ? ? ? ? ? ? ? ? [c|]]. Qed.

(** The commands of an action leave the bookkeeping of the agent as
    the judgment left it. *)
Lemma acted_bookkeeping pow analysis seen a' :
  acted pow analysis seen = Ok a' -> same_bookkeeping seen a'.
Proof.
  unfold acted. intros H.
  repeat (destruct (decide _) in H);
    repeat match type of H with
           | context [match ?x with _ => _ end] => destruct x eqn:?
           end;
    res_unfold;
    repeat match type of H with
           | context [match ?x with _ => _ end] => destruct x eqn:?
           end;
    try discriminate; injection H as <-;
    first [ apply same_bookkeeping_refl | apply same_bookkeeping_moved
          | apply same_bookkeeping_set_mouse | apply same_bookkeeping_set_keyboard ].
Qed.

(** Only a move changes the estimate, and no action gives or takes
    one. *)
Lemma acted_estimate pow analysis seen a' :
  acted pow analysis seen = Ok a' ->
  (is_Some (Agent.estimated_cursor a') <-> is_Some (Agent.estimated_cursor seen)) /\
  (suggested_action analysis <> "move" ->
   Agent.estimated_cursor a' = Agent.estimated_cursor seen).
Proof.
  unfold acted. intros H.
  repeat (destruct (decide _) in H);
    repeat match type of H with
           | context [match ?x with _ => _ end] => destruct x eqn:?
           end;
    res_unfold;
    repeat match type of H with
           | context [match ?x with _ => _ end] => destruct x eqn:?
           end;
    try discriminate; injection H as <-;
    (split; [|by (intros; first [congruence|reflexivity])]);
    first [ by (rewrite moved_estimate; apply fmap_is_Some) | reflexivity ].
Qed.

(** ** One pass of the loop body *)

(** Running [m] and then [f] when [m] returns normally. *)
Lemma eff_bind_ok {S A B} (f : A -> Eff S B) (m : Eff S A) s a s' :
  m s = (Ok a, s') -> (m ≫= f) s = f a s'.
Proof. intros H. unfold mbind, Eff_bind, eff_bind. by rewrite H. Qed.

(** Running [m] and then [f] when [m] raises. *)
Lemma eff_bind_raise {S A B} (f : A -> Eff S B) (m : Eff S A) s e s' :
  m s = (Raise e, s') -> (m ≫= f) s = (Raise e, s').
Proof. intros H. unfold mbind, Eff_bind, eff_bind. by rewrite H. Qed.

(** The callback does not touch the agent. *)
Lemma notify_run callback analysis action a calls :
  Agent.notify callback analysis action (Agent.mkRun a calls) =
  match callback with
  | Some f =>
      (f (Agent.iteration a) analysis action,
       Agent.mkRun a (calls ++ [CallCallback (Agent.iteration a) analysis action]))
  | None => (Ok tt, Agent.mkRun a calls)
  end.
Proof. by destruct callback. Qed.

(** The pass up to the dispatch on the action: the counter, the capture,
    the sleep, the judge, the history and the estimate. *)
Lemma perceive_run w task context r image_b64 analysis {A}
    (k : ScreenAnalysis -> Agent.t -> Eff Agent.Run A) (kc kv : Exn -> Eff Agent.Run A) :
  capture_frame_base64 w (Agent.iteration (Agent.self r) + 1)
    (Agent.capture_device (Agent.self r)) = Ok image_b64 ->
  time_sleep (sleep w (Agent.iteration (Agent.self r) + 1)
                (Agent.capture_delay (Agent.self r)))
             (Agent.capture_delay (Agent.self r)) = Ok tt ->
  analyze w (Agent.iteration (Agent.self r) + 1) image_b64 task context = Ok analysis ->
  forall body : Eff Agent.Run A,
  body =
    (Agent.on_self (modify (fun a => Agent.set_iteration (Agent.iteration a + 1) a)) ;;
     captured ← try_except (Agent.capture w) ;
     match captured with
     | Raise e => kc e
     | Ok image_b64 =>
       Agent.pause w ;;
       analysed ← try_except
         (analysis ← Agent.vision_analyze w image_b64 task context ;
          Agent.on_self (modify (fun a => Agent.set_history (Agent.history a ++ [analysis]) a)) ;;
          mret analysis) ;
       match analysed with
       | Raise e => kv e
       | Ok analysis =>
         match cursor_position analysis with
         | Some p => Agent.on_self (modify (Agent.set_estimated_cursor (Some p)))
         | None => mret tt
         end ;;
         a ← gets Agent.self ;
         k analysis a
       end
     end) ->
  body r = k analysis (perceived analysis (Agent.self r))
             (Agent.mkRun (perceived analysis (Agent.self r))
                          (perception_calls r image_b64 task context)).
Proof.
  intros Hcap Hsleep Hana body ->. destruct r as [a calls].
  cbn [Agent.self] in Hcap, Hsleep, Hana.
  unfold Agent.capture, Agent.pause, Agent.vision_analyze, Agent.call, Agent.on_self,
    perception_calls, perceived, lift.
  eff_unfold.
  cbn [Agent.self Agent.calls Agent.set_self Agent.record_call
       Agent.iteration Agent.capture_device Agent.capture_delay Agent.set_iteration].
  rewrite Hcap. cbv beta iota.
  cbn [Agent.self Agent.calls Agent.set_self Agent.record_call
       Agent.iteration Agent.capture_device Agent.capture_delay Agent.set_iteration].
  rewrite Hsleep. cbv beta iota.
  cbn [Agent.self Agent.calls Agent.set_self Agent.record_call
       Agent.iteration Agent.capture_device Agent.capture_delay Agent.set_iteration].
  rewrite Hana. cbv beta iota.
  cbn [Agent.self Agent.calls Agent.set_self Agent.record_call
       Agent.iteration Agent.capture_device Agent.capture_delay Agent.set_iteration].
  unfold Agent.record_call, Agent.set_self. cbn [Agent.self Agent.calls].
  rewrite <- app_assoc.
  destruct (cursor_position analysis); reflexivity.
Qed.

(** A method of [self] run inside the loop. *)
Lemma on_self_run {A} (m : Eff Agent.t A) a calls :
  Agent.on_self m (Agent.mkRun a calls) = ((m a).1, Agent.mkRun (m a).2 calls).
Proof. unfold Agent.on_self, zoom. cbn [Agent.self]. by destruct (m a). Qed.

Lemma on_self_ok {A} (m : Eff Agent.t A) a calls x a' :
  m a = (Ok x, a') ->
  Agent.on_self m (Agent.mkRun a calls) = (Ok x, Agent.mkRun a' calls).
Proof. intros H. by rewrite on_self_run, H. Qed.

(** Closes the equation of a pass once its device command has run: what
    is left is the callback and the value returned. *)
Ltac finish_pass callback :=
  unfold Agent.result;
  unfold mbind, mret, Eff_bind, Eff_ret, eff_bind, eff_ret, gets;
  rewrite ?notify_run;
  destruct callback as [f|]; [destruct (f _ _ _)|]; reflexivity.

(** Membership of a literal in a literal list, and its failure given
    that the action differs from every element. *)
Ltac in_list :=
  try unfold recognised_actions;
  solve [repeat first [apply list_elem_of_here | apply list_elem_of_further]].

Ltac not_in_list :=
  try unfold recognised_actions;
  let H := fresh in
  intros H;
  repeat (apply elem_of_cons in H as [H|H]; [congruence|]);
  by apply elem_of_nil in H.

(** Sequencing of outcomes, on an outcome that is known. *)
Lemma res_bind_Ok {A B} (f : A -> Res B) (a : A) : (Ok a ≫= f) = f a.
Proof. reflexivity. Qed.

Lemma res_bind_Raise {A B} (f : A -> Res B) (e : Exn) : (Raise e ≫= f) = Raise e.
Proof. reflexivity. Qed.

Lemma res_ret_Ok {A} (a : A) : (mret a : Res A) = Ok a.
Proof. reflexivity. Qed.

Ltac res_reduce :=
  rewrite ?res_bind_Ok, ?res_bind_Raise, ?res_ret_Ok; cbv beta iota.

(** Decides the tests of an action against the literals of the loop. *)
Ltac decide_literals :=
  repeat first [ rewrite decide_True by reflexivity
               | rewrite decide_False by discriminate ];
  res_reduce.

(** The equation of a pass in which the frame arrives and the judge
    answers: the commands of the action run on the agent as the judgment
    left it; an exception of theirs ends the pass before the observer
    is called; otherwise the observer is called when the loop has a
    branch for the action, and the pass returns on [done] and continues
    with the next context otherwise. *)
Lemma loop_body_run w task callback context r image_b64 analysis :
  capture_frame_base64 w (Agent.iteration (Agent.self r) + 1)
    (Agent.capture_device (Agent.self r)) = Ok image_b64 ->
  time_sleep (sleep w (Agent.iteration (Agent.self r) + 1)
                (Agent.capture_delay (Agent.self r)))
             (Agent.capture_delay (Agent.self r)) = Ok tt ->
  analyze w (Agent.iteration (Agent.self r) + 1) image_b64 task context = Ok analysis ->
  let seen := perceived analysis (Agent.self r) in
  let action := suggested_action analysis in
  let calls' := perception_calls r image_b64 task context in
  Agent.loop_body w task callback context r =
  match acted (libm_pow w) analysis seen with
  | Raise e => (Raise e, Agent.mkRun seen calls')
  | Ok a' =>
      if decide (action ∈ recognised_actions) then
        (Agent.notify callback analysis action ;;
         mret (if decide (action = "done")
               then Agent.Return
                      (RunResult.mk true (Agent.iteration a') (Agent.history a') None)
               else Agent.Continue
                      (next_context context (Agent.iteration seen) analysis)))
          (Agent.mkRun a' calls')
      else (Ok (Agent.Continue context), Agent.mkRun a' calls')
  end.
Proof.
  intros Hcap Hsleep Hana seen action calls'.
  erewrite (perceive_run w task context r image_b64 analysis _ _ _ Hcap Hsleep Hana);
    [|unfold Agent.loop_body; reflexivity].
  fold seen. fold calls'. cbv beta zeta. subst action.
  unfold acted, next_context, pass_note, Agent.note.
  destruct (decide (suggested_action analysis = "done")) as [e|n1].
  { rewrite e. decide_literals. rewrite decide_True by in_list.
    finish_pass callback. }
  destruct (decide (suggested_action analysis = "error")) as [e|n2].
  { rewrite e. decide_literals. rewrite decide_True by in_list.
    finish_pass callback. }
  destruct (decide (suggested_action analysis = "move")) as [e|n3].
  { rewrite e. decide_literals. destruct (target_position analysis) as [target|].
    - rewrite <- motion_toward.
      destruct (Agent.motion (libm_pow w) seen target None) as [d|e0] eqn:Hd;
        res_reduce.
      + rewrite decide_True by in_list.
        erewrite (eff_bind_ok _ (_ ≫= _));
          [|erewrite eff_bind_ok;
            [reflexivity
            |apply on_self_ok; rewrite move_cursor_toward_run, Hd; reflexivity]].
        finish_pass callback.
      + erewrite (eff_bind_raise _ (_ ≫= _)); [reflexivity|].
        erewrite eff_bind_raise; [reflexivity|].
        rewrite on_self_run, move_cursor_toward_run, Hd. reflexivity.
    - res_reduce. rewrite decide_True by in_list. finish_pass callback. }
  destruct (decide (suggested_action analysis = "click")) as [e|n4].
  { rewrite e. decide_literals. rewrite decide_True by in_list.
    erewrite eff_bind_ok; [|apply on_self_ok, agent_click_left].
    finish_pass callback. }
  destruct (decide (suggested_action analysis = "type")) as [e|n5].
  { rewrite e. decide_literals.
    destruct (text_to_type analysis) as [text|]; res_reduce.
    - destruct (decide (text = "")) as [->|Htext].
      + assert (Hsame : Agent.set_keyboard
                          (Keyboard.type_string "" (Agent.keyboard seen)).2 seen = seen)
          by apply set_keyboard_same.
        res_reduce. rewrite Hsame. rewrite decide_True by in_list.
        finish_pass callback.
      + rewrite decide_True by in_list.
        erewrite (eff_bind_ok _ (_ ≫= _));
          [|erewrite eff_bind_ok;
            [reflexivity|apply on_self_ok, agent_type_text]].
        finish_pass callback.
    - rewrite decide_True by in_list. finish_pass callback. }
  destruct (decide (suggested_action analysis = "scroll_up")) as [e|n6].
  { rewrite e. decide_literals. rewrite decide_True by in_list.
    erewrite eff_bind_ok;
      [|apply on_self_ok, (agent_scroll "pageup" 0x4B); by vm_compute].
    finish_pass callback. }
  destruct (decide (suggested_action analysis = "scroll_down")) as [e|n7].
  { rewrite e. decide_literals. rewrite decide_True by in_list.
    erewrite eff_bind_ok;
      [|apply on_self_ok, (agent_scroll "pagedown" 0x4E); by vm_compute].
    finish_pass callback. }
  res_reduce. rewrite decide_False by not_in_list. reflexivity.
Qed.

(** ** What a judgment changes of the agent *)

Lemma perceived_bookkeeping analysis a :
  Agent.iteration (perceived analysis a) = Agent.iteration a + 1 /\
  Agent.max_iterations (perceived analysis a) = Agent.max_iterations a /\
  Agent.history (perceived analysis a) = Agent.history a ++ [analysis] /\
  Agent.keyboard (perceived analysis a) = Agent.keyboard a /\
  Agent.mouse (perceived analysis a) = Agent.mouse a /\
  Agent.capture_device (perceived analysis a) = Agent.capture_device a /\
  Agent.capture_delay (perceived analysis a) = Agent.capture_delay a.
Proof. unfold perceived. by destruct (cursor_position analysis). Qed.

Lemma perceived_estimate analysis a :
  Agent.estimated_cursor (perceived analysis a)
  = match cursor_position analysis with
    | Some p => Some p
    | None => Agent.estimated_cursor a
    end.
Proof. unfold perceived. by destruct (cursor_position analysis). Qed.

(** The agent after a pass that acted, against the agent before it. *)
Lemma acted_perceived_fields pow analysis a a' :
  acted pow analysis (perceived analysis a) = Ok a' ->
  Agent.iteration a' = Agent.iteration a + 1 /\
  Agent.max_iterations a' = Agent.max_iterations a /\
  Agent.history a' = Agent.history a ++ [analysis] /\
  Agent.capture_device a' = Agent.capture_device a /\
  Agent.capture_delay a' = Agent.capture_delay a.
Proof.
  intros H. apply acted_bookkeeping in H.
  destruct H as (Hd & _ & _ & Hc & _ & Hm & Hi & Hh).
  destruct (perceived_bookkeeping analysis a) as (Hi' & Hm' & Hh' & _ & _ & Hd' & Hc').
  split_and!; congruence.
Qed.

(** ** The failures of a pass *)

(** The pass up to the capture, when the capture raises. *)
Lemma loop_body_capture_raises w task callback context r e :
  capture_frame_base64 w (Agent.iteration (Agent.self r) + 1)
    (Agent.capture_device (Agent.self r)) = Raise e ->
  Agent.loop_body w task callback context r =
  (match e with
   | Exception msg =>
       Ok (Agent.Return
             (RunResult.mk false (Agent.iteration (Agent.self r) + 1)
                (Agent.history (Agent.self r)) (Some ("Capture failed: " +:+ msg))))
   | BaseException msg => Raise (BaseException msg)
   end,
   Agent.mkRun (Agent.set_iteration (Agent.iteration (Agent.self r) + 1) (Agent.self r))
     (Agent.calls r ++ [CallCapture (Agent.capture_device (Agent.self r))])).
Proof.
  intros Hcap. destruct r as [a calls]. cbn [Agent.self Agent.calls] in *.
  unfold Agent.loop_body, Agent.capture, Agent.call, Agent.on_self, Agent.result.
  eff_unfold.
  cbn [Agent.self Agent.calls Agent.set_self Agent.record_call
       Agent.iteration Agent.capture_device Agent.set_iteration].
  rewrite Hcap. by destruct e.
Qed.

(** The pass up to the sleep, when the sleep raises: the exception
    leaves the pass. *)
Lemma loop_body_sleep_raises w task callback context r image_b64 e :
  capture_frame_base64 w (Agent.iteration (Agent.self r) + 1)
    (Agent.capture_device (Agent.self r)) = Ok image_b64 ->
  time_sleep (sleep w (Agent.iteration (Agent.self r) + 1)
                (Agent.capture_delay (Agent.self r)))
             (Agent.capture_delay (Agent.self r)) = Raise e ->
  Agent.loop_body w task callback context r =
  (Raise e,
   Agent.mkRun (Agent.set_iteration (Agent.iteration (Agent.self r) + 1) (Agent.self r))
     (Agent.calls r ++ [CallCapture (Agent.capture_device (Agent.self r))])).
Proof.
  intros Hcap Hsleep. destruct r as [a calls]. cbn [Agent.self Agent.calls] in *.
  unfold Agent.loop_body, Agent.capture, Agent.pause, Agent.call, Agent.on_self,
    Agent.result, lift.
  eff_unfold.
  cbn [Agent.self Agent.calls Agent.set_self Agent.record_call
       Agent.iteration Agent.capture_device Agent.capture_delay Agent.set_iteration].
  rewrite Hcap. cbv beta iota.
  cbn [Agent.self Agent.calls Agent.set_self Agent.record_call
       Agent.iteration Agent.capture_device Agent.capture_delay Agent.set_iteration].
  rewrite Hsleep. reflexivity.
Qed.

(** The pass up to the judge, when the judge raises. *)
Lemma loop_body_vision_raises w task callback context r image_b64 e :
  capture_frame_base64 w (Agent.iteration (Agent.self r) + 1)
    (Agent.capture_device (Agent.self r)) = Ok image_b64 ->
  time_sleep (sleep w (Agent.iteration (Agent.self r) + 1)
                (Agent.capture_delay (Agent.self r)))
             (Agent.capture_delay (Agent.self r)) = Ok tt ->
  analyze w (Agent.iteration (Agent.self r) + 1) image_b64 task context = Raise e ->
  Agent.loop_body w task callback context r =
  (match e with
   | Exception msg =>
       Ok (Agent.Return
             (RunResult.mk false (Agent.iteration (Agent.self r) + 1)
                (Agent.history (Agent.self r)) (Some ("Vision failed: " +:+ msg))))
   | BaseException msg => Raise (BaseException msg)
   end,
   Agent.mkRun (Agent.set_iteration (Agent.iteration (Agent.self r) + 1) (Agent.self r))
     (perception_calls r image_b64 task context)).
Proof.
  intros Hcap Hsleep Hana. destruct r as [a calls]. cbn [Agent.self Agent.calls] in *.
  unfold Agent.loop_body, Agent.capture, Agent.pause, Agent.vision_analyze, Agent.call,
    Agent.on_self, Agent.result, perception_calls, lift.
  eff_unfold.
  cbn [Agent.self Agent.calls Agent.set_self Agent.record_call
       Agent.iteration Agent.capture_device Agent.capture_delay Agent.set_iteration].
  rewrite Hcap. cbv beta iota.
  cbn [Agent.self Agent.calls Agent.set_self Agent.record_call
       Agent.iteration Agent.capture_device Agent.capture_delay Agent.set_iteration].
  rewrite Hsleep. cbv beta iota.
  cbn [Agent.self Agent.calls Agent.set_self Agent.record_call
       Agent.iteration Agent.capture_device Agent.capture_delay Agent.set_iteration].
  rewrite Hana. cbv beta iota.
  unfold Agent.record_call, Agent.set_self. cbn [Agent.self Agent.calls].
  rewrite <- app_assoc. by destruct e.
Qed.

(** ** The observer *)

(** Whatever the callback does, the agent of the run after the pass is
    the one the pass left. *)
Lemma notify_keeps_self callback analysis action a calls {A} (x : A) :
  Agent.self ((Agent.notify callback analysis action ;; mret x) (Agent.mkRun a calls)).2 = a.
Proof.
  unfold mbind, mret, Eff_bind, Eff_ret, eff_bind, eff_ret.
  rewrite notify_run. destruct callback as [f|]; [destruct (f _ _ _)|]; reflexivity.
Qed.

Lemma callback_calls_app calls calls' :
  callback_calls (calls ++ calls') = callback_calls calls ++ callback_calls calls'.
Proof. unfold callback_calls. induction calls as [|c calls IH]; [reflexivity|].
  simpl. destruct (is_callback_call c); simpl; by rewrite IH. Qed.

Lemma callback_calls_perception r image_b64 task context :
  callback_calls (perception_calls r image_b64 task context)
  = callback_calls (Agent.calls r).
Proof.
  unfold perception_calls. rewrite callback_calls_app. simpl. apply app_nil_r.
Qed.

(** ** The loop *)

Lemma while_loop_unfold fuel w task callback context r :
  Agent.while_loop (S fuel) w task callback context r =
  if Agent.iteration (Agent.self r) <? Agent.max_iterations (Agent.self r) then
    match Agent.loop_body w task callback context r with
    | (Ok (Agent.Return res), r') => Some (Ok res, r')
    | (Ok (Agent.Continue context'), r') =>
        Agent.while_loop fuel w task callback context' r'
    | (Raise e, r') => Some (Raise e, r')
    end
  else
    Some (Ok (RunResult.mk false (Agent.iteration (Agent.self r))
                (Agent.history (Agent.self r)) (Some "Max iterations reached")), r).
Proof. reflexivity. Qed.

Lemma while_loop_exit fuel w task callback context r :
  Agent.max_iterations (Agent.self r) <= Agent.iteration (Agent.self r) ->
  Agent.while_loop fuel w task callback context r =
  Some (Ok (RunResult.mk false (Agent.iteration (Agent.self r))
              (Agent.history (Agent.self r)) (Some "Max iterations reached")), r).
Proof.
  intros Hle. destruct fuel; cbn [Agent.while_loop];
    destruct (Z.ltb_spec (Agent.iteration (Agent.self r))
                (Agent.max_iterations (Agent.self r))); (lia || reflexivity).
Qed.

Lemma started_fields r :
  Agent.iteration (Agent.self (started r)) = 0 /\
  Agent.history (Agent.self (started r)) = [] /\
  Agent.max_iterations (Agent.self (started r)) = Agent.max_iterations (Agent.self r) /\
  Agent.capture_device (Agent.self (started r)) = Agent.capture_device (Agent.self r) /\
  Agent.keyboard (Agent.self (started r)) = Agent.keyboard (Agent.self r) /\
  Agent.mouse (Agent.self (started r)) = Agent.mouse (Agent.self r) /\
  Agent.estimated_cursor (Agent.self (started r)) = Agent.estimated_cursor (Agent.self r) /\
  Agent.calls (started r) = Agent.calls r.
Proof. by repeat split. Qed.

Lemma execute_task_started fuel w task callback r :
  Agent.execute_task fuel w task callback r
  = Agent.while_loop fuel w task callback "" (started r).
Proof. reflexivity. Qed.

(** ** Scripted runs *)

Lemma judgments_S script first n :
  judgments script first (S n) = script first :: judgments script (first + 1) n.
Proof.
  unfold judgments. rewrite seqZ_cons by lia. cbn [fmap list_fmap].
  do 3 f_equal; lia.
Qed.

Lemma observer_calls_S script first n :
  observer_calls script first (S n)
  = observer_call script first ++ observer_calls script (first + 1) n.
Proof.
  unfold observer_calls. rewrite seqZ_cons by lia. cbn [flat_map].
  do 3 f_equal; lia.
Qed.

Lemma judgments_snoc script first n :
  judgments script first (S n)
  = judgments script first n ++ [script (first + Z.of_nat n)].
Proof.
  unfold judgments. replace (Z.of_nat (S n)) with (Z.of_nat n + 1) by lia.
  rewrite seqZ_app by lia. rewrite fmap_app. reflexivity.
Qed.

Lemma observer_calls_snoc script first n :
  observer_calls script first (S n)
  = observer_calls script first n ++ observer_call script (first + Z.of_nat n).
Proof.
  unfold observer_calls. replace (Z.of_nat (S n)) with (Z.of_nat n + 1) by lia.
  rewrite seqZ_app by lia. rewrite flat_map_app. cbn [seqZ flat_map].
  change (seqZ (first + Z.of_nat n) 1) with [first + Z.of_nat n].
  cbn [flat_map]. by rewrite app_nil_r.
Qed.

(** The agent after [n] scripted passes: its counter, its history and
    what stays. *)
Lemma agent_after_fields pow script n : forall a a',
  agent_after pow script n a = Ok a' ->
  Agent.iteration a' = Agent.iteration a + Z.of_nat n /\
  Agent.max_iterations a' = Agent.max_iterations a /\
  Agent.history a' = Agent.history a ++ judgments script (Agent.iteration a + 1) n /\
  Agent.capture_device a' = Agent.capture_device a /\
  Agent.capture_delay a' = Agent.capture_delay a.
Proof.
  induction n as [|n IH]; intros a a' H.
  - injection H as <-. unfold judgments. cbn. rewrite app_nil_r.
    split_and!; [lia|reflexivity..].
  - cbn [agent_after] in H.
    destruct (acted pow _ _) as [a1|e] eqn:H1; [|discriminate].
    rewrite res_bind_Ok in H.
    apply acted_perceived_fields in H1 as (Hi & Hm & Hh & Hd & Hc).
    apply IH in H as (Hi' & Hm' & Hh' & Hd' & Hc').
    rewrite judgments_S, Hi' , Hm', Hh', Hd', Hc', Hi, Hm, Hh, Hd, Hc.
    rewrite <- app_assoc. split_and!; [lia|reflexivity..].
Qed.

(** The last of [S n] scripted passes, after the first [n]. *)
Lemma agent_after_last pow script n : forall a,
  agent_after pow script (S n) a
  = agent_after pow script n a ≫= fun a1 =>
      acted pow (script (Agent.iteration a1 + 1))
            (perceived (script (Agent.iteration a1 + 1)) a1).
Proof.
  induction n as [|n IH]; intros a.
  - cbn [agent_after]. rewrite res_bind_Ok.
    by destruct (acted pow _ _).
  - change (agent_after pow script (S (S n)) a)
      with (acted pow (script (Agent.iteration a + 1))
                  (perceived (script (Agent.iteration a + 1)) a)
            ≫= agent_after pow script (S n)).
    change (agent_after pow script (S n) a)
      with (acted pow (script (Agent.iteration a + 1))
                  (perceived (script (Agent.iteration a + 1)) a)
            ≫= agent_after pow script n).
    destruct (acted pow _ _) as [a1|e]; [|reflexivity].
    rewrite !res_bind_Ok. apply IH.
Qed.

(** A pass of a scripted run that goes through without [done]. *)
Lemma loop_body_goes_through w task callback context r script a' :
  goes_through w task callback (Agent.self r) script (Agent.iteration (Agent.self r) + 1) ->
  suggested_action (script (Agent.iteration (Agent.self r) + 1)) <> "done" ->
  acted (libm_pow w) (script (Agent.iteration (Agent.self r) + 1))
        (perceived (script (Agent.iteration (Agent.self r) + 1)) (Agent.self r)) = Ok a' ->
  exists calls',
    Agent.loop_body w task callback context r
    = (Ok (Agent.Continue
             (next_context context (Agent.iteration (Agent.self r) + 1)
                           (script (Agent.iteration (Agent.self r) + 1)))),
       Agent.mkRun a' calls') /\
    callback_calls calls'
    = callback_calls (Agent.calls r)
      ++ match callback with
         | Some _ => observer_call script (Agent.iteration (Agent.self r) + 1)
         | None => []
         end.
Proof.
  set (i := Agent.iteration (Agent.self r) + 1).
  intros ((Hcap & Hsleep) & Hscript & Hobs) Hnot_done Hact.
  destruct Hcap as [image_b64 Hcap].
  rewrite (loop_body_run w task callback context r image_b64 (script i)
             Hcap Hsleep (Hscript image_b64 context)).
  fold i. cbv zeta. rewrite Hact.
  destruct (acted_perceived_fields _ _ _ _ Hact) as (Hi & _).
  destruct (perceived_bookkeeping (script i) (Agent.self r)) as (Hi' & _).
  rewrite Hi'. fold i.
  unfold observer_call.
  destruct (decide (suggested_action (script i) ∈ recognised_actions)) as [Hin|Hout].
  - rewrite decide_False by assumption.
    unfold mbind, mret, Eff_bind, Eff_ret, eff_bind, eff_ret.
    rewrite notify_run, Hi. fold i.
    destruct callback as [f|].
    + rewrite (Hobs f _ _ eq_refl). eexists. split; [reflexivity|].
      rewrite callback_calls_app, callback_calls_perception. reflexivity.
    + eexists. split; [reflexivity|].
      rewrite callback_calls_perception. by rewrite app_nil_r.
  - assert (Hnone : pass_note (script i) = None).
    { unfold pass_note.
      repeat (rewrite decide_False
                by (intros Heq; apply Hout; rewrite Heq; in_list)).
      reflexivity. }
    unfold next_context. rewrite Hnone.
    eexists. split; [reflexivity|].
    rewrite callback_calls_perception. destruct callback; by rewrite app_nil_r.
Qed.

Lemma goes_through_same w task callback a a' script i :
  Agent.capture_device a' = Agent.capture_device a ->
  Agent.capture_delay a' = Agent.capture_delay a ->
  goes_through w task callback a script i ->
  goes_through w task callback a' script i.
Proof.
  intros Hd Hc. unfold goes_through, frame_arrives. by rewrite Hd, Hc.
Qed.

(** [n] scripted passes that go through without [done], by induction
    on [n]: the loop is then where it would be had it started [n]
    passes later, with the agent, the context and the observer's calls
    that the script gives. *)
Lemma while_loop_scripted w task callback script (n : nat) : forall fuel context r a',
  (forall i, Agent.iteration (Agent.self r) < i <= Agent.iteration (Agent.self r) + Z.of_nat n ->
             goes_through w task callback (Agent.self r) script i /\
             suggested_action (script i) <> "done") ->
  agent_after (libm_pow w) script n (Agent.self r) = Ok a' ->
  Agent.iteration (Agent.self r) + Z.of_nat n <= Agent.max_iterations (Agent.self r) ->
  exists calls',
    Agent.while_loop (n + fuel) w task callback context r
    = Agent.while_loop fuel w task callback
        (context_after script (Agent.iteration (Agent.self r) + 1) n context)
        (Agent.mkRun a' calls') /\
    callback_calls calls'
    = callback_calls (Agent.calls r)
      ++ match callback with
         | Some _ => observer_calls script (Agent.iteration (Agent.self r) + 1) n
         | None => []
         end.
Proof.
  induction n as [|n IH]; intros fuel context r a' Hquiet Hafter Hmax.
  - injection Hafter as <-. exists (Agent.calls r). destruct r as [a calls].
    split; [reflexivity|]. cbn [Agent.calls]. destruct callback; by rewrite app_nil_r.
  - change (S n + fuel)%nat with (S (n + fuel)). rewrite while_loop_unfold.
    destruct (Z.ltb_spec (Agent.iteration (Agent.self r))
                (Agent.max_iterations (Agent.self r))) as [_|]; [|lia].
    cbn [agent_after] in Hafter.
    destruct (acted (libm_pow w) _ _) as [a1|e] eqn:Hact; [|discriminate].
    rewrite res_bind_Ok in Hafter.
    destruct (Hquiet (Agent.iteration (Agent.self r) + 1)) as [Hgo Hnot_done]; [lia|].
    destruct (loop_body_goes_through w task callback context r script a1
                Hgo Hnot_done Hact) as (calls1 & -> & Hcalls1).
    destruct (acted_perceived_fields _ _ _ _ Hact) as (Hi & Hm & _ & Hd & Hc).
    destruct (IH fuel (next_context context (Agent.iteration (Agent.self r) + 1)
                                    (script (Agent.iteration (Agent.self r) + 1)))
                (Agent.mkRun a1 calls1) a') as (calls' & Hrun & Hcalls').
    { cbn [Agent.self]. intros i Hrange.
      destruct (Hquiet i) as [Hgo' Hnd']; [lia|].
      split; [|assumption]. by apply (goes_through_same w task callback (Agent.self r)). }
    { exact Hafter. }
    { cbn [Agent.self]. lia. }
    cbn [Agent.self Agent.calls] in Hrun, Hcalls'. rewrite Hi in Hrun, Hcalls'.
    exists calls'. split; [exact Hrun|].
    rewrite Hcalls', Hcalls1, <- app_assoc.
    destruct callback; [by rewrite observer_calls_S|reflexivity].
Qed.

(** ** Runs of [execute_task] *)

(** C6. When the capture raises in the first iteration, [execute_task]
    (given a cap of at least one iteration and one pass of the loop)
    ends at once, after that one call of the capture: no second attempt,
    no call to the judge, nothing written to the keyboard or to the
    mouse.  When the exception is an [Exception], with text [msg], it
    returns the result with [success] false, [iterations] 1, an empty
    history and the error ["Capture failed: "] followed by [msg]; when
    it is not an [Exception] (a [KeyboardInterrupt], a [SystemExit]),
    the handler does not catch it and it leaves [execute_task]: there
    is no result. *)
Theorem capture_failure_in_first_iteration_is_fatal
    (fuel : nat) (w : World) (task : string) (callback : option Callback)
    (r : Agent.Run) (e : Exn) :
  1 <= Agent.max_iterations (Agent.self r) ->
  (1 <= fuel)%nat ->
  capture_frame_base64 w 1 (Agent.capture_device (Agent.self r)) = Raise e ->
  exists r',
    Agent.execute_task fuel w task callback r
    = Some (match e with
            | Exception msg =>
                Ok (RunResult.mk false 1 [] (Some ("Capture failed: " +:+ msg)))
            | BaseException msg => Raise (BaseException msg)
            end, r') /\
    Agent.calls r' = Agent.calls r ++ [CallCapture (Agent.capture_device (Agent.self r))] /\
    Agent.keyboard (Agent.self r') = Agent.keyboard (Agent.self r) /\
    Agent.mouse (Agent.self r') = Agent.mouse (Agent.self r).
Proof.
  intros Hcap Hfuel Hraise.
  destruct fuel as [|fuel]; [lia|].
  rewrite execute_task_started, while_loop_unfold.
  destruct (started_fields r) as (Hi & Hh & Hm & Hd & Hk & Hmo & _ & Hcalls).
  rewrite Hi, Hm.
  destruct (Z.ltb_spec 0 (Agent.max_iterations (Agent.self r))); [|lia].
  rewrite (loop_body_capture_raises w task callback "" (started r) e)
    by (rewrite Hi, Hd; exact Hraise).
  rewrite Hi, Hh, Hd, Hcalls.
  destruct e as [msg|msg]; (eexists; split; [reflexivity|]);
    cbn [Agent.self Agent.calls]; by destruct r as [[] ?].
Qed.

Lemma capture_failure_in_first_iteration_is_fatal_witness :
  exists r',
    Agent.execute_task 3 (broken_capture_world 1 (Exception "no frame")) "open the menu"
                       (Some silent_observer) (sample_run 3)
    = Some (Ok (RunResult.mk false 1 [] (Some ("Capture failed: " +:+ "no frame"))), r') /\
    Agent.calls r'
    = Agent.calls (sample_run 3)
      ++ [CallCapture (Agent.capture_device (Agent.self (sample_run 3)))] /\
    Agent.keyboard (Agent.self r') = Agent.keyboard (Agent.self (sample_run 3)) /\
    Agent.mouse (Agent.self r') = Agent.mouse (Agent.self (sample_run 3)).
Proof.
  apply (capture_failure_in_first_iteration_is_fatal
           3 (broken_capture_world 1 (Exception "no frame")) "open the menu"
           (Some silent_observer) (sample_run 3) (Exception "no frame")).
  - simpl. lia.
  - lia.
  - reflexivity.
Defined.

(** Against C6 as stated: a capture that raises [KeyboardInterrupt] in
    the first iteration.  [execute_task] returns no result: the
    exception, which is not an [Exception], passes the handler and
    comes out of it, after the one call of the capture. *)
Lemma capture_interrupt_is_not_caught_counterexample :
  exists r',
    Agent.execute_task 3 (broken_capture_world 1 (BaseException "KeyboardInterrupt"))
                       "open the menu" None (sample_run 3)
    = Some (Raise (BaseException "KeyboardInterrupt"), r') /\
    Agent.calls r' = [CallCapture "/dev/video0"] /\
    Agent.iteration (Agent.self r') = 1.
Proof.
  eexists. split; [vm_compute; reflexivity|]. split; reflexivity.
Qed.

(** C1. With the capture answering, the sleep returning, the judge
    following a script and the observer returning in every iteration up
    to [k] (within the cap), the judge not saying [done] before [k],
    and the arithmetic of the moves raising nothing (the agent after
    [k] scripted passes exists): when the judge says [done] in
    iteration [k], [execute_task] returns [success = True],
    [iterations = k] and [error = None]; when [k] is the cap and the
    judge does not say [done] in iteration [k] either, it returns
    [success = False], [iterations] equal to the cap and the error
    ["Max iterations reached"].  In both cases the history holds the
    [k] judgments of the script, in order, and the agent is the one the
    script gives. *)
Theorem execute_task_ends_at_done_or_at_the_cap
    (fuel : nat) (w : World) (task : string) (callback : option Callback)
    (r : Agent.Run) (script : Z -> ScreenAnalysis) (k : Z) (a' : Agent.t) :
  let cap := Agent.max_iterations (Agent.self r) in
  let a0 := Agent.self (started r) in
  1 <= k <= cap ->
  (Z.to_nat k <= fuel)%nat ->
  (forall i, 1 <= i <= k -> goes_through w task callback a0 script i) ->
  (forall i, 1 <= i < k -> suggested_action (script i) <> "done") ->
  agent_after (libm_pow w) script (Z.to_nat k) a0 = Ok a' ->
  (suggested_action (script k) = "done" ->
   exists r',
     Agent.execute_task fuel w task callback r
     = Some (Ok (RunResult.mk true k (judgments script 1 (Z.to_nat k)) None), r') /\
     Agent.self r' = a') /\
  (k = cap ->
   suggested_action (script k) <> "done" ->
   exists r',
     Agent.execute_task fuel w task callback r
     = Some (Ok (RunResult.mk false cap (judgments script 1 (Z.to_nat cap))
                              (Some "Max iterations reached")), r') /\
     Agent.self r' = a').
Proof.
  intros cap a0 Hk Hfuel Hgo Hnot_done Hafter.
  destruct (started_fields r) as (Hi & Hh & Hm & _).
  fold a0 in Hi, Hh, Hm. fold cap in Hm.
  split.
  - intros Hdone.
    replace (Z.to_nat k) with (S (Z.to_nat (k - 1))) in Hafter |- * by lia.
    rewrite agent_after_last in Hafter.
    destruct (agent_after (libm_pow w) script (Z.to_nat (k - 1)) a0)
      as [a1|e] eqn:Hafter1; [|discriminate].
    rewrite res_bind_Ok in Hafter.
    destruct (agent_after_fields _ _ _ _ _ Hafter1) as (Hi1 & Hm1 & Hh1 & Hd1 & Hc1).
    assert (Hk1 : Agent.iteration a1 + 1 = k) by lia.
    rewrite Hk1 in Hafter.
    destruct (while_loop_scripted w task callback script (Z.to_nat (k - 1))
                (S (fuel - Z.to_nat k)) "" (started r) a1)
      as (calls1 & Hrun & _).
    { fold a0. intros i Hrange. split; [apply Hgo|apply Hnot_done]; lia. }
    { exact Hafter1. }
    { fold a0. lia. }
    rewrite execute_task_started.
    replace fuel with (Z.to_nat (k - 1) + S (fuel - Z.to_nat k))%nat by lia.
    rewrite Hrun, while_loop_unfold. cbn [Agent.self].
    destruct (Z.ltb_spec (Agent.iteration a1) (Agent.max_iterations a1)); [|lia].
    destruct (Hgo k) as ((Hcap & Hsleep) & Hscript & Hobs); [lia|].
    destruct Hcap as [image_b64 Hcap].
    rewrite <- Hd1 in Hcap. rewrite <- Hc1 in Hsleep.
    erewrite (loop_body_run w task callback _ (Agent.mkRun a1 calls1) image_b64 (script k));
      [|cbn [Agent.self]; rewrite Hk1; first [exact Hcap|exact Hsleep|apply Hscript]..].
    cbn [Agent.self]. cbv zeta. rewrite Hafter.
    rewrite decide_True by (rewrite Hdone; in_list).
    rewrite (decide_True (P := suggested_action (script k) = "done")) by assumption.
    destruct (acted_perceived_fields _ _ _ _ Hafter) as (Hi' & _ & Hh' & _).
    unfold mbind, mret, Eff_bind, Eff_ret, eff_bind, eff_ret.
    rewrite notify_run.
    assert (Hres : RunResult.mk true (Agent.iteration a') (Agent.history a') None
                   = RunResult.mk true k (judgments script 1 (S (Z.to_nat (k - 1)))) None).
    { rewrite Hi', Hk1, Hh', Hh1, Hh, Hi, judgments_snoc. cbn [app].
      do 4 f_equal. lia. }
    rewrite Hres.
    destruct callback as [f|].
    + rewrite Hi', Hk1, (Hobs f _ _ eq_refl). eexists. split; reflexivity.
    + eexists. split; reflexivity.
  - intros Hcap Hnd. subst k.
    destruct (agent_after_fields _ _ _ _ _ Hafter) as (Hi' & Hm' & Hh' & _).
    destruct (while_loop_scripted w task callback script (Z.to_nat cap)
                (fuel - Z.to_nat cap) "" (started r) a')
      as (calls' & Hrun & _).
    { fold a0. intros i Hrange. split; [apply Hgo; lia|].
      destruct (decide (i = cap)) as [->|]; [assumption|apply Hnot_done; lia]. }
    { exact Hafter. }
    { fold a0. lia. }
    rewrite execute_task_started.
    replace fuel with (Z.to_nat cap + (fuel - Z.to_nat cap))%nat by lia.
    rewrite Hrun, while_loop_exit by (cbn [Agent.self]; lia).
    cbn [Agent.self]. rewrite Hi', Hh', Hh, Hi. cbn [app].
    replace (0 + Z.of_nat (Z.to_nat cap)) with cap by lia.
    eexists. split; reflexivity.
Qed.

Lemma execute_task_ends_at_done_or_at_the_cap_witness :
  (exists r',
     Agent.execute_task 3 (scripted_world "move" 2) "open the menu"
                        (Some silent_observer) (sample_run 3)
     = Some (Ok (RunResult.mk true 2
                   (judgments (action_until_done "move" 2) 1 (Z.to_nat 2)) None), r') /\
     Agent.self r'
     = perceived (judgment None None "done")
         (perceived (judgment None None "move") (Agent.self (sample_run 3)))) /\
  (exists r',
     Agent.execute_task 3 (scripted_world "move" 0) "open the menu"
                        (Some silent_observer) (sample_run 3)
     = Some (Ok (RunResult.mk false (Agent.max_iterations (Agent.self (sample_run 3)))
                   (judgments (action_until_done "move" 0) 1
                      (Z.to_nat (Agent.max_iterations (Agent.self (sample_run 3)))))
                   (Some "Max iterations reached")), r') /\
     Agent.self r'
     = perceived (judgment None None "move")
         (perceived (judgment None None "move")
            (perceived (judgment None None "move") (Agent.self (sample_run 3))))).
Proof.
  split.
  - destruct (execute_task_ends_at_done_or_at_the_cap
                3 (scripted_world "move" 2) "open the menu" (Some silent_observer)
                (sample_run 3) (action_until_done "move" 2) 2
                (perceived (judgment None None "done")
                   (perceived (judgment None None "move") (Agent.self (sample_run 3)))))
      as [Hdone _].
    + simpl. lia.
    + lia.
    + intros i Hi. split; [split; [by eexists|reflexivity]|].
      split; [by intros ? ?|by intros f analysis action [= <-]].
    + intros i Hi. assert (i = 1) as -> by lia. discriminate.
    + reflexivity.
    + apply Hdone. reflexivity.
  - destruct (execute_task_ends_at_done_or_at_the_cap
                3 (scripted_world "move" 0) "open the menu" (Some silent_observer)
                (sample_run 3) (action_until_done "move" 0) 3
                (perceived (judgment None None "move")
                   (perceived (judgment None None "move")
                      (perceived (judgment None None "move")
                         (Agent.self (sample_run 3))))))
      as [_ Hcap].
    + simpl. lia.
    + lia.
    + intros i Hi. split; [split; [by eexists|reflexivity]|].
      split; [by intros ? ?|by intros f analysis action [= <-]].
    + intros i Hi. unfold action_until_done.
      destruct (Z.eqb_spec i 0); [lia|discriminate].
    + reflexivity.
    + apply Hcap; [reflexivity|discriminate].
Defined.

(** Against C1 as stated: a judge that never says [done] and never
    raises, with a capture that never raises, gives the error text
    ["Max iterations reached"], which is not ["max iterations reached"];
    and a judge that says [done] in iteration 1 and never raises does not
    give [success = True] when the capture raises. *)
Lemma execute_task_claimed_error_text_counterexample :
  (exists res r',
     Agent.execute_task 3 (scripted_world "move" 0) "open the menu" None (sample_run 3)
     = Some (Ok res, r') /\
     RunResult.success res = false /\
     RunResult.iterations res = 3 /\
     RunResult.error res = Some "Max iterations reached" /\
     RunResult.error res <> Some "max iterations reached") /\
  (exists res r',
     Agent.execute_task 3 (broken_capture_world 1 (Exception "no frame"))
                        "open the menu" None (sample_run 3)
     = Some (Ok res, r') /\
     RunResult.success res = false /\
     RunResult.error res = Some "Capture failed: no frame").
Proof.
  split.
  - eexists _, _. split; [vm_compute; reflexivity|].
    split_and!; [reflexivity|reflexivity|reflexivity|discriminate].
  - eexists _, _. split; [vm_compute; reflexivity|].
    split_and!; reflexivity.
Qed.

(** C5. An observer that raises is not caught.  With the capture
    answering, the sleep returning, the judge following a script
    without [done] and the observer returning in every iteration before
    [k] (within the cap); with the frame arriving and the script naming
    an action the loop has a branch for in iteration [k]; and with the
    arithmetic of the moves raising nothing up to there: when the
    observer [f], called in iteration [k], raises [e], then
    [execute_task], given [k] passes, ends by raising [e].  There is no
    result.  The agent is the one that [k] scripted passes give (its
    counter stands at [k]); the calls made to the observer in the whole
    run are its one call in each earlier pass whose action has a branch,
    then the one call of pass [k]; and that call is the last call made
    to anyone: the observer is not called again, and no iteration
    follows. *)
Theorem observer_exception_leaves_execute_task
    (fuel : nat) (w : World) (task : string) (f : Callback) (r : Agent.Run)
    (script : Z -> ScreenAnalysis) (k : Z) (e : Exn) (a' : Agent.t) :
  let a0 := Agent.self (started r) in
  1 <= k <= Agent.max_iterations (Agent.self r) ->
  (Z.to_nat k <= fuel)%nat ->
  (forall i, 1 <= i < k ->
     goes_through w task (Some f) a0 script i /\ suggested_action (script i) <> "done") ->
  frame_arrives w a0 k ->
  scripted w task script k ->
  suggested_action (script k) ∈ recognised_actions ->
  agent_after (libm_pow w) script (Z.to_nat k) a0 = Ok a' ->
  f k (script k) (suggested_action (script k)) = Raise e ->
  exists r',
    Agent.execute_task fuel w task (Some f) r = Some (Raise e, r') /\
    Agent.self r' = a' /\
    Agent.iteration (Agent.self r') = k /\
    callback_calls (Agent.calls r')
    = callback_calls (Agent.calls r)
      ++ observer_calls script 1 (Z.to_nat (k - 1))
      ++ [CallCallback k (script k) (suggested_action (script k))] /\
    last (Agent.calls r') = Some (CallCallback k (script k) (suggested_action (script k))).
Proof.
  intros a0 Hk Hfuel Hgo (Hcap & Hsleep) Hscript Hknown Hafter Hraise. subst a0.
  destruct (started_fields r) as (Hi & Hh & Hm & _ & _ & _ & _ & Hcalls).
  replace (Z.to_nat k) with (S (Z.to_nat (k - 1))) in Hafter by lia.
  rewrite agent_after_last in Hafter.
  destruct (agent_after (libm_pow w) script (Z.to_nat (k - 1)) _)
    as [a1|e1] eqn:Hafter1; [|discriminate].
  rewrite res_bind_Ok in Hafter.
  destruct (agent_after_fields _ _ _ _ _ Hafter1) as (Hi1 & Hm1 & Hh1 & Hd1 & Hc1).
  assert (Hk1 : Agent.iteration a1 + 1 = k) by lia.
  rewrite Hk1 in Hafter.
  destruct (while_loop_scripted w task (Some f) script (Z.to_nat (k - 1))
              (S (fuel - Z.to_nat k)) "" (started r) a1)
    as (calls1 & Hrun & Hcalls1).
  { intros i Hrange. apply Hgo. lia. }
  { exact Hafter1. }
  { lia. }
  rewrite execute_task_started.
  replace fuel with (Z.to_nat (k - 1) + S (fuel - Z.to_nat k))%nat by lia.
  rewrite Hrun, while_loop_unfold. cbn [Agent.self].
  destruct (Z.ltb_spec (Agent.iteration a1) (Agent.max_iterations a1)); [|lia].
  destruct Hcap as [image_b64 Hcap].
  rewrite <- Hd1 in Hcap. rewrite <- Hc1 in Hsleep.
  erewrite (loop_body_run w task (Some f) _ (Agent.mkRun a1 calls1) image_b64 (script k));
    [|cbn [Agent.self]; rewrite Hk1; first [exact Hcap|exact Hsleep|apply Hscript]..].
  cbn [Agent.self]. cbv zeta. rewrite Hafter.
  rewrite decide_True by assumption.
  destruct (acted_perceived_fields _ _ _ _ Hafter) as (Hi' & _).
  unfold mbind, mret, Eff_bind, Eff_ret, eff_bind, eff_ret.
  rewrite notify_run, Hi', Hk1, Hraise.
  eexists. split; [reflexivity|]. cbn [Agent.self Agent.calls].
  split; [reflexivity|]. split; [lia|]. split.
  - rewrite callback_calls_app, callback_calls_perception. cbn [Agent.calls].
    rewrite Hcalls1, Hi, Hcalls. cbn [callback_calls is_callback_call List.filter].
    by rewrite <- app_assoc.
  - by rewrite last_app.
Qed.

Lemma observer_exception_leaves_execute_task_witness :
  exists r',
    Agent.execute_task 3 (scripted_world "click" 0) "open the menu"
                       (Some (failing_observer 2)) (sample_run 3)
    = Some (Raise (Exception "observer"), r') /\
    Agent.self r'
    = Agent.set_mouse (Mouse.mk "/dev/hidg1" [[1; 0; 0]; [0; 0; 0]; [1; 0; 0]; [0; 0; 0]])
        (perceived (judgment None None "click")
           (perceived (judgment None None "click") (Agent.self (sample_run 3)))) /\
    Agent.iteration (Agent.self r') = 2 /\
    callback_calls (Agent.calls r')
    = callback_calls (Agent.calls (sample_run 3))
      ++ observer_calls (action_until_done "click" 0) 1 (Z.to_nat (2 - 1))
      ++ [CallCallback 2 (action_until_done "click" 0 2)
            (suggested_action (action_until_done "click" 0 2))] /\
    last (Agent.calls r')
    = Some (CallCallback 2 (action_until_done "click" 0 2)
              (suggested_action (action_until_done "click" 0 2))).
Proof.
  apply (observer_exception_leaves_execute_task
           3 (scripted_world "click" 0) "open the menu" (failing_observer 2)
           (sample_run 3) (action_until_done "click" 0) 2 (Exception "observer")).
  - simpl. lia.
  - lia.
  - intros i Hi. assert (i = 1) as -> by lia.
    split; [|discriminate].
    split; [split; [by eexists|reflexivity]|].
    split; [by intros ? ?|by intros f analysis action [= <-]].
  - split; [by eexists|reflexivity].
  - by intros ? ?.
  - simpl. in_list.
  - reflexivity.
  - reflexivity.
Defined.

(** Against C5 as stated: with an observer that raises in iteration 1,
    [execute_task] does not return a result; the exception comes out of
    it, after one call to the judge and one to the observer. *)
Lemma observer_exception_swallowed_counterexample :
  exists r',
    Agent.execute_task 3 (scripted_world "move" 0) "open the menu"
                       (Some (failing_observer 1)) (sample_run 3)
    = Some (Raise (Exception "observer"), r') /\
    length (analyze_calls (Agent.calls r')) = 1%nat /\
    length (callback_calls (Agent.calls r')) = 1%nat /\
    Agent.iteration (Agent.self r') = 1.
Proof.
  eexists. split; [vm_compute; reflexivity|]. split_and!; reflexivity.
Qed.

(** ** Invariants of the loop *)

(** What every pass keeps, the run keeps. *)
Lemma while_loop_invariant (P : Agent.Run -> Prop) w task callback :
  (forall context r, P r -> P (Agent.loop_body w task callback context r).2) ->
  forall fuel context r out r',
    P r -> Agent.while_loop fuel w task callback context r = Some (out, r') -> P r'.
Proof.
  intros Hbody fuel. induction fuel as [|fuel IH]; intros context r out r' HP Hrun.
  - cbn [Agent.while_loop] in Hrun.
    destruct (Agent.iteration (Agent.self r) <? Agent.max_iterations (Agent.self r));
      [discriminate|]. by inversion Hrun; subst.
  - rewrite while_loop_unfold in Hrun.
    destruct (Agent.iteration (Agent.self r) <? Agent.max_iterations (Agent.self r));
      [|by inversion Hrun; subst].
    specialize (Hbody context r HP).
    destruct (Agent.loop_body w task callback context r) as [[[res|context']|e] r1];
      cbn [snd] in Hbody.
    + by inversion Hrun; subst.
    + by apply (IH context' r1 out r').
    + by inversion Hrun; subst.
Qed.

Lemma mouse_reports_since_wrote a m reports :
  m = wrote (Agent.mouse a) reports ->
  forall a', Agent.mouse a' = m -> mouse_reports_since a a' = reports.
Proof.
  intros -> a' Hm. unfold mouse_reports_since. rewrite Hm. unfold wrote.
  cbn [Mouse.written]. by rewrite drop_app_length.
Qed.

Lemma mouse_reports_since_moved a d :
  mouse_reports_since a (moved a d) = [mouse_report 0 d.1 d.2].
Proof. by apply (mouse_reports_since_wrote a _ _ eq_refl), moved_mouse. Qed.

(** The calls that the observer adds to a pass. *)
Lemma notify_outcome callback analysis action a calls {A} (x : A) :
  exists more,
    ((Agent.notify callback analysis action ;; mret x) (Agent.mkRun a calls)).2
    = Agent.mkRun a (calls ++ more) /\
    capture_calls more = [] /\
    analyze_calls more = [].
Proof.
  unfold mbind, mret, Eff_bind, Eff_ret, eff_bind, eff_ret.
  rewrite notify_run. destruct callback as [f|].
  - exists [CallCallback (Agent.iteration a) analysis action].
    by destruct (f _ _ _).
  - exists []. by rewrite app_nil_r.
Qed.

(** The run that a pass leaves, whatever the collaborators do: the
    capture has been called once more; the agent is as it was with its
    counter advanced, when the capture, the sleep or the judge raised;
    otherwise the judge has been called with the frame and the context,
    and the agent is as the judgment left it, when a move raised, or as
    the commands of the action left it. *)
Lemma loop_body_outcome w task callback context r :
  exists more,
    Agent.calls (Agent.loop_body w task callback context r).2
    = Agent.calls r ++ CallCapture (Agent.capture_device (Agent.self r)) :: more /\
    capture_calls more = [] /\
    (Agent.self (Agent.loop_body w task callback context r).2
     = Agent.set_iteration (Agent.iteration (Agent.self r) + 1) (Agent.self r) \/
     exists image_b64 analysis,
       capture_frame_base64 w (Agent.iteration (Agent.self r) + 1)
         (Agent.capture_device (Agent.self r)) = Ok image_b64 /\
       analyze w (Agent.iteration (Agent.self r) + 1) image_b64 task context
       = Ok analysis /\
       CallAnalyze image_b64 task context ∈ more /\
       (Agent.self (Agent.loop_body w task callback context r).2
        = perceived analysis (Agent.self r) \/
        acted (libm_pow w) analysis (perceived analysis (Agent.self r))
        = Ok (Agent.self (Agent.loop_body w task callback context r).2))).
Proof.
  destruct (capture_frame_base64 w (Agent.iteration (Agent.self r) + 1)
              (Agent.capture_device (Agent.self r))) as [image_b64|e] eqn:Hcap.
  2: { rewrite (loop_body_capture_raises w task callback context r e Hcap).
       exists []. cbn [snd Agent.self Agent.calls]. by split_and!; [..|left]. }
  destruct (time_sleep (sleep w (Agent.iteration (Agent.self r) + 1)
                          (Agent.capture_delay (Agent.self r)))
                       (Agent.capture_delay (Agent.self r))) as [[]|e] eqn:Hsleep.
  2: { rewrite (loop_body_sleep_raises w task callback context r image_b64 e Hcap Hsleep).
       exists []. cbn [snd Agent.self Agent.calls]. by split_and!; [..|left]. }
  destruct (analyze w (Agent.iteration (Agent.self r) + 1) image_b64 task context)
    as [analysis|e] eqn:Hana.
  2: { rewrite (loop_body_vision_raises w task callback context r image_b64 e
                  Hcap Hsleep Hana).
       exists [CallAnalyze image_b64 task context].
       cbn [snd Agent.self Agent.calls]. by split_and!; [..|left]. }
  rewrite (loop_body_run w task callback context r image_b64 analysis Hcap Hsleep Hana).
  cbv zeta.
  assert (Hin : forall more, CallAnalyze image_b64 task context
                             ∈ CallAnalyze image_b64 task context :: more)
    by (intros; apply list_elem_of_here).
  destruct (acted (libm_pow w) analysis (perceived analysis (Agent.self r)))
    as [a'|e] eqn:Hact.
  2: { exists [CallAnalyze image_b64 task context].
       cbn [snd Agent.self Agent.calls]. split_and!; [reflexivity..|].
       right. exists image_b64, analysis. split_and!; [reflexivity|exact Hana|apply Hin|by left]. }
  destruct (decide (suggested_action analysis ∈ recognised_actions)).
  - destruct (notify_outcome callback analysis (suggested_action analysis) a'
                (perception_calls r image_b64 task context)
                (if decide (suggested_action analysis = "done")
                 then Agent.Return
                        (RunResult.mk true (Agent.iteration a') (Agent.history a') None)
                 else Agent.Continue
                        (next_context context
                           (Agent.iteration (perceived analysis (Agent.self r)))
                           analysis)))
      as (more & -> & Hmore & _).
    exists (CallAnalyze image_b64 task context :: more).
    cbn [Agent.self Agent.calls]. unfold perception_calls. rewrite <- app_assoc.
    split_and!; [reflexivity|exact Hmore|].
    right. exists image_b64, analysis. split_and!; [reflexivity|exact Hana|apply Hin|by right].
  - exists [CallAnalyze image_b64 task context].
    cbn [snd Agent.self Agent.calls]. split_and!; [reflexivity..|].
    right. exists image_b64, analysis. split_and!; [reflexivity|exact Hana|apply Hin|by right].
Qed.

(** A pass that starts without an estimate and whose judgment carries
    no cursor ends without one. *)
Lemma loop_body_estimate w task callback context r :
  Agent.estimated_cursor (Agent.self r) = None ->
  (forall image_b64 analysis,
     analyze w (Agent.iteration (Agent.self r) + 1) image_b64 task context = Ok analysis ->
     cursor_position analysis = None) ->
  Agent.estimated_cursor (Agent.self (Agent.loop_body w task callback context r).2) = None.
Proof.
  intros Hnone Hblind.
  destruct (loop_body_outcome w task callback context r)
    as (more & _ & _ & [->|(image_b64 & analysis & _ & Hana & _ & Hself)]);
    [exact Hnone|].
  assert (Hseen : Agent.estimated_cursor (perceived analysis (Agent.self r)) = None)
    by (rewrite perceived_estimate, (Hblind image_b64 analysis Hana); exact Hnone).
  destruct Hself as [->|Hact]; [exact Hseen|].
  apply acted_estimate in Hact as [Hest _].
  destruct (Agent.estimated_cursor
              (Agent.self (Agent.loop_body w task callback context r).2))
    as [p|] eqn:Hp; [|reflexivity].
  destruct (proj1 Hest (mk_is_Some _ _ eq_refl)) as [q Hq]. congruence.
Qed.

(** An action without a device command leaves the agent as the
    judgment left it. *)
Lemma acted_no_command pow analysis seen :
  suggested_action analysis ∉ ["move"; "click"; "type"; "scroll_up"; "scroll_down"] ->
  acted pow analysis seen = Ok seen.
Proof.
  intros Hout. unfold acted.
  repeat (rewrite decide_False by (intros Heq; apply Hout; rewrite Heq; in_list)).
  reflexivity.
Qed.

(** C4. A judgment whose action is none of [move], [click], [type],
    [scroll_up], [scroll_down], [done], [error] (the capture and the
    judge having answered, the sleep between them having returned): the
    pass returns nothing and raises nothing,
    so the loop goes on to its next test; nothing is written to the
    keyboard or to the mouse; and the running context is handed on as it
    was, with no note added.  The agent is left as the judgment alone
    leaves it. *)
Theorem unknown_action_pass_writes_nothing_and_adds_no_note
    (w : World) (task : string) (callback : option Callback) (context : string)
    (r : Agent.Run) (image_b64 : string) (analysis : ScreenAnalysis) :
  capture_frame_base64 w (Agent.iteration (Agent.self r) + 1)
    (Agent.capture_device (Agent.self r)) = Ok image_b64 ->
  time_sleep (sleep w (Agent.iteration (Agent.self r) + 1)
                (Agent.capture_delay (Agent.self r)))
             (Agent.capture_delay (Agent.self r)) = Ok tt ->
  analyze w (Agent.iteration (Agent.self r) + 1) image_b64 task context = Ok analysis ->
  suggested_action analysis ∉ recognised_actions ->
  exists r',
    Agent.loop_body w task callback context r = (Ok (Agent.Continue context), r') /\
    Agent.self r' = perceived analysis (Agent.self r) /\
    Agent.keyboard (Agent.self r') = Agent.keyboard (Agent.self r) /\
    Agent.mouse (Agent.self r') = Agent.mouse (Agent.self r).
Proof.
  intros Hcap Hsleep Hana Hunknown.
  rewrite (loop_body_run w task callback context r image_b64 analysis Hcap Hsleep Hana).
  cbv zeta. rewrite acted_no_command.
  2: { intros Hin. apply Hunknown. unfold recognised_actions.
       repeat (apply elem_of_cons in Hin as [->|Hin]; [in_list|]).
       by apply elem_of_nil in Hin. }
  rewrite decide_False by assumption.
  eexists. split; [reflexivity|]. cbn [Agent.self].
  destruct (perceived_bookkeeping analysis (Agent.self r)) as (_ & _ & _ & Hk & Hm & _).
  by split_and!.
Qed.

Lemma unknown_action_pass_writes_nothing_and_adds_no_note_witness :
  exists r',
    Agent.loop_body (scripted_world "wave" 0) "open the menu" (Some silent_observer)
                    "so far" (sample_run 3)
    = (Ok (Agent.Continue "so far"), r') /\
    Agent.self r' = perceived (judgment None None "wave") (Agent.self (sample_run 3)) /\
    Agent.keyboard (Agent.self r') = Agent.keyboard (Agent.self (sample_run 3)) /\
    Agent.mouse (Agent.self r') = Agent.mouse (Agent.self (sample_run 3)).
Proof.
  apply (unknown_action_pass_writes_nothing_and_adds_no_note
           (scripted_world "wave" 0) "open the menu" (Some silent_observer) "so far"
           (sample_run 3) "frame" (judgment None None "wave")).
  - reflexivity.
  - reflexivity.
  - reflexivity.
  - simpl. not_in_list.
Defined.

(** Against C4 as stated: from the same run, a pass with the action
    [wave] and a pass with the action [error] both continue, but the
    first hands the context on unchanged and makes no call to the
    observer, while the second adds its note and calls the observer
    once. *)
Lemma unknown_action_like_error_counterexample :
  exists r1 r2,
    Agent.loop_body (scripted_world "wave" 0) "open the menu" (Some silent_observer)
                    "" (sample_run 3)
    = (Ok (Agent.Continue ""), r1) /\
    Agent.loop_body (scripted_world "error" 0) "open the menu" (Some silent_observer)
                    "" (sample_run 3)
    = (Ok (Agent.Continue (LF +:+ "Iteration 1: Error - button")), r2) /\
    callback_calls (Agent.calls r1) = [] /\
    callback_calls (Agent.calls r2) = [CallCallback 1 (judgment None None "error") "error"].
Proof.
  eexists _, _. split_and!; [vm_compute; reflexivity|vm_compute; reflexivity|
                             reflexivity|reflexivity].
Qed.

(** C10. A call of [move_cursor_toward] while the estimate is [None]
    plans the motion from the screen centre at the base speed.  When
    that arithmetic gives a motion, the call returns normally, writes
    to the mouse the one report of that motion and leaves the estimate
    [None]; when it raises (the target is too far for a float), the
    call raises the same, writes nothing and leaves the agent, and
    with it the estimate [None], as it was.  In a pass of the loop that
    starts with the estimate [None], the estimate is [None] afterwards
    as well unless the judgment of that pass carries a cursor position,
    whatever the action and the observer do. *)
Theorem fallback_move_leaves_estimate_unknown :
  (forall (pow : Libm) (target : Point.t) (speed : option Z) (a : Agent.t),
     Agent.estimated_cursor a = None ->
     match toward pow (screen_center a) target (constant_speed (base_speed a speed)) with
     | Ok d =>
         exists a',
           Agent.move_cursor_toward pow target speed a = (Ok tt, a') /\
           mouse_reports_since a a' = [mouse_report 0 d.1 d.2] /\
           Agent.estimated_cursor a' = None
     | Raise e => Agent.move_cursor_toward pow target speed a = (Raise e, a)
     end) /\
  (forall (w : World) (task : string) (callback : option Callback) (context : string)
          (r : Agent.Run),
     Agent.estimated_cursor (Agent.self r) = None ->
     (forall image_b64 analysis,
        analyze w (Agent.iteration (Agent.self r) + 1) image_b64 task context
        = Ok analysis ->
        cursor_position analysis = None) ->
     Agent.estimated_cursor
       (Agent.self (Agent.loop_body w task callback context r).2) = None).
Proof.
  split.
  - intros pow target speed a Hnone.
    rewrite move_cursor_toward_run, motion_toward.
    unfold planned_motion, reference_point. rewrite Hnone. cbn [default].
    destruct (toward pow (screen_center a) target (constant_speed (base_speed a speed)))
      as [d|e]; [|reflexivity].
    eexists. split; [reflexivity|].
    split; [apply mouse_reports_since_moved|].
    by rewrite moved_estimate, Hnone.
  - apply loop_body_estimate.
Qed.

Lemma fallback_move_leaves_estimate_unknown_witness :
  (exists a',
     Agent.move_cursor_toward rounded_root (Point.mk 970 540) None
       (sample_agent 40 50 None) = (Ok tt, a') /\
     mouse_reports_since (sample_agent 40 50 None) a' = [mouse_report 0 40 0] /\
     Agent.estimated_cursor a' = None) /\
  Agent.estimated_cursor
    (Agent.self
       (Agent.loop_body (pointing_world rounded_root None (Some (Point.mk 970 540)) "move")
                        "open the menu" None "" (sample_run 3)).2) = None.
Proof.
  split.
  - apply (proj1 fallback_move_leaves_estimate_unknown
             rounded_root (Point.mk 970 540) None (sample_agent 40 50 None)).
    reflexivity.
  - apply (proj2 fallback_move_leaves_estimate_unknown).
    + reflexivity.
    + by intros image_b64 analysis [= <-].
Defined.

(** Against C10 as stated: with no estimate, on a 1920 by 1080 screen,
    a move toward the target (10^200, 0).  The sum of the squares of
    the two distances has no float: the call raises [OverflowError]
    and no report is written to the mouse.  In a run whose judge names
    that target, the exception leaves [execute_task] in the first
    iteration, again with nothing written. *)
Lemma fallback_move_too_far_writes_nothing_counterexample :
  Agent.move_cursor_toward rounded_root (Point.mk (10 ^ 200) 0) None
    (sample_agent 40 50 None)
  = (Raise (Exception "int too large to convert to float"), sample_agent 40 50 None) /\
  Mouse.written (Agent.mouse (sample_agent 40 50 None)) = [] /\
  exists r',
    Agent.execute_task 3
      (pointing_world rounded_root None (Some (Point.mk (10 ^ 200) 0)) "move")
      "open the menu" None (sample_run 3)
    = Some (Raise (Exception "int too large to convert to float"), r') /\
    Agent.iteration (Agent.self r') = 1 /\
    Mouse.written (Agent.mouse (Agent.self r')) = [].
Proof.
  split; [vm_compute; reflexivity|]. split; [reflexivity|].
  eexists. split; [vm_compute; reflexivity|]. split; reflexivity.
Qed.

(** C3. The motion that [move_cursor_toward] computes is the vector
    from the reference point (the estimate, or the screen centre when
    there is none) to the target, normalized to unit length, scaled by
    the selected speed and truncated to integers, where the selected
    speed is the proportional one ([max(5, base // 4)] below 50 units,
    [max(10, base // 2)] from 50 and below 150, the base speed
    otherwise) when there is an estimate, and the base speed, whatever
    the distance, when there is none; and it raises what that
    arithmetic raises.  When there is a motion, the call returns
    normally, having written the one report of that motion and moved
    the estimate, if any, by it; when the arithmetic raises, the call
    raises the same and leaves the agent as it was.  For a target at
    the reference point the motion is zero and the call returns
    normally, whatever the C library. *)
Theorem move_delta_is_scaled_unit_vector
    (pow : Libm) (target : Point.t) (speed : option Z) (a : Agent.t) :
  let origin := reference_point a in
  let selected :=
    match Agent.estimated_cursor a with
    | Some _ => proportional_speed (base_speed a speed)
    | None => constant_speed (base_speed a speed)
    end in
  Agent.motion pow a target speed = toward pow origin target selected /\
  Agent.move_cursor_toward pow target speed a
  = match toward pow origin target selected with
    | Ok d => (Ok tt, moved a d)
    | Raise e => (Raise e, a)
    end /\
  (forall d, mouse_reports_since a (moved a d) = [mouse_report 0 d.1 d.2]) /\
  Agent.motion pow a origin speed = Ok (0, 0) /\
  Agent.move_cursor_toward pow origin speed a = (Ok tt, moved a (0, 0)).
Proof.
  intros origin selected.
  assert (Hd : Agent.motion pow a target speed = toward pow origin target selected)
    by apply motion_toward.
  assert (H0 : Agent.motion pow a origin speed = Ok (0, 0))
    by (rewrite motion_toward; apply toward_self).
  split_and!.
  - exact Hd.
  - rewrite <- Hd. apply move_cursor_toward_run.
  - intros d. apply mouse_reports_since_moved.
  - exact H0.
  - by rewrite move_cursor_toward_run, H0.
Qed.

(** Against C3 as stated: with no estimate, on a 1920 by 1080 screen at
    base speed 40, a target 10 units right of the centre: the code asks
    for the motion (40, 0), at the full base speed, where proportional
    speed control would give (10, 0). *)
Lemma fallback_move_proportional_speed_counterexample :
  Agent.motion rounded_root (sample_agent 40 50 None) (Point.mk 970 540) None
  = Ok (40, 0) /\
  proportional_motion rounded_root (sample_agent 40 50 None) (Point.mk 970 540) None
  = Ok (10, 0) /\
  Agent.motion rounded_root (sample_agent 40 50 (Some (Point.mk 960 540)))
               (Point.mk 970 540) None
  = Ok (10, 0).
Proof. split_and!; vm_compute; reflexivity. Qed.

(** ** The estimate against what was written *)

(** [x ** 0.5] for a finite [x] other than 1.0 is what the C library
    gives, when that is not an infinity. *)
Lemma float_pow_half_libm (pow : Libm) s m e y :
  SFeqb (S754_finite s m e) one = false ->
  pow (S754_finite s m e) half = y ->
  match y with S754_infinity _ => False | _ => True end ->
  float_pow_half pow (S754_finite s m e) = Ok y.
Proof.
  intros Hone Hpow Hy. unfold float_pow_half. rewrite Hone, Hpow.
  by destruct y.
Qed.

(** The motion from the estimate (0, 0) toward (1000, 0) at base speed
    200, with a C library that gives 1000.0 for [1000000.0 ** 0.5]. *)
Lemma motion_from_origin (pow : Libm) (a : Agent.t) :
  pow (float_const 1000000) half = float_const 1000 ->
  Agent.estimated_cursor a = Some (Point.mk 0 0) ->
  Agent.move_speed a = 200 ->
  Agent.motion pow a (Point.mk 1000 0) None = Ok (200, 0).
Proof.
  intros Hpow Hest Hspeed.
  assert (Hroot : int_pow_half pow 1000000 = Ok (float_const 1000)).
  { unfold int_pow_half.
    change (float_of_int 1000000) with (Ok (S754_finite false 8589934592000000 (-33))).
    rewrite res_bind_Ok.
    apply float_pow_half_libm; [reflexivity|exact Hpow|exact I]. }
  unfold Agent.motion. rewrite Hest, Hspeed. cbn [Point.x Point.y].
  change ((1000 - 0) ^ 2 + (0 - 0) ^ 2) with 1000000.
  rewrite Hroot, res_bind_Ok. vm_compute. reflexivity.
Qed.

(** C2, at an input where the claim fails.  With a base speed of 200
    and the estimate at (0, 0), a move toward (1000, 0) asks for the
    motion (200, 0), with any C library that gives 1000.0 for
    [1000000.0 ** 0.5]; the report written carries (127, 0), and the
    estimate becomes (200, 0), not (127, 0).  The same in a pass of the
    loop whose judgment reports the cursor at (0, 0). *)
Theorem estimate_advances_by_requested_not_written_delta (pow : Libm) :
  pow (float_const 1000000) half = float_const 1000 ->
  (exists a',
     Agent.move_cursor_toward pow (Point.mk 1000 0) None
       (sample_agent 200 50 (Some (Point.mk 0 0))) = (Ok tt, a') /\
     total_delta (mouse_reports_since (sample_agent 200 50 (Some (Point.mk 0 0))) a')
     = (127, 0) /\
     Agent.estimated_cursor a' = Some (Point.mk 200 0)) /\
  (exists context' r',
     Agent.loop_body
       (pointing_world pow (Some (Point.mk 0 0)) (Some (Point.mk 1000 0)) "move")
       "open the menu" None "" (Agent.mkRun (sample_agent 200 50 None) [])
     = (Ok (Agent.Continue context'), r') /\
     total_delta (mouse_reports_since (sample_agent 200 50 None) (Agent.self r'))
     = (127, 0) /\
     Agent.estimated_cursor (Agent.self r') = Some (Point.mk 200 0)).
Proof.
  intros Hpow. split.
  - rewrite move_cursor_toward_run, (motion_from_origin pow) by (assumption || reflexivity).
    eexists. split; [reflexivity|]. split; reflexivity.
  - erewrite (loop_body_run _ "open the menu" None "" _ "frame"
                (judgment (Some (Point.mk 0 0)) (Some (Point.mk 1000 0)) "move"));
      [|reflexivity..].
    cbv zeta. unfold acted.
    cbn [suggested_action target_position judgment].
    decide_literals.
    rewrite <- motion_toward, (motion_from_origin pow) by (assumption || reflexivity).
    res_reduce. rewrite decide_True by in_list.
    eexists _, _. split; [reflexivity|]. split; reflexivity.
Qed.

Lemma estimate_advances_by_requested_not_written_delta_witness :
  (exists a',
     Agent.move_cursor_toward rounded_root (Point.mk 1000 0) None
       (sample_agent 200 50 (Some (Point.mk 0 0))) = (Ok tt, a') /\
     total_delta (mouse_reports_since (sample_agent 200 50 (Some (Point.mk 0 0))) a')
     = (127, 0) /\
     Agent.estimated_cursor a' = Some (Point.mk 200 0)) /\
  (exists context' r',
     Agent.loop_body
       (pointing_world rounded_root (Some (Point.mk 0 0)) (Some (Point.mk 1000 0)) "move")
       "open the menu" None "" (Agent.mkRun (sample_agent 200 50 None) [])
     = (Ok (Agent.Continue context'), r') /\
     total_delta (mouse_reports_since (sample_agent 200 50 None) (Agent.self r'))
     = (127, 0) /\
     Agent.estimated_cursor (Agent.self r') = Some (Point.mk 200 0)).
Proof.
  apply (estimate_advances_by_requested_not_written_delta rounded_root).
  vm_compute. reflexivity.
Defined.
(** * Further properties of [hid.py] *)

(** ** The mouse *)

Lemma steps_for_next M :
  0 < M -> steps_for M = 1 + steps_for (Z.max 0 (M - 127)).
Proof.
  intros HM. unfold steps_for.
  destruct (Z_lt_le_dec M 127).
  - rewrite Z.max_l by lia.
    rewrite (Z.div_small (0 + 126)) by lia.
    symmetry. apply (Z.div_unique (M + 126) 127 (1 + 0) (M - 1)); lia.
  - rewrite Z.max_r by lia.
    replace (M + 126) with (M - 127 + 126 + 1 * 127) by lia.
    rewrite Z.div_add by lia. lia.
Qed.

Lemma steps_for_nonneg M : 0 <= M -> 0 <= steps_for M.
Proof. intros HM. unfold steps_for. apply Z.div_pos; lia. Qed.

(** The stepping loop of [move_to], counted: the passes it takes are
    the steps of 127 that cover the larger of the two distances. *)
Lemma move_to_loop_count fuel : forall dx dy m,
  steps_for (Z.max (Z.abs dx) (Z.abs dy)) <= Z.of_nat fuel ->
  exists reports,
    Mouse.move_to_loop fuel dx dy m = Some (Ok tt, wrote m reports) /\
    Z.of_nat (length reports) = steps_for (Z.max (Z.abs dx) (Z.abs dy)) /\
    Forall in_device_range reports /\
    total_delta reports = (dx, dy).
Proof.
  induction fuel as [|fuel IH]; intros dx dy m Hfuel.
  - destruct (Z.eq_dec (Z.max (Z.abs dx) (Z.abs dy)) 0) as [H0|Hpos].
    + assert (dx = 0 /\ dy = 0) as [-> ->] by lia.
      exists []. rewrite wrote_nil. by repeat split.
    + rewrite steps_for_next in Hfuel by lia.
      pose proof (steps_for_nonneg (Z.max 0 (Z.max (Z.abs dx) (Z.abs dy) - 127))). lia.
  - cbn [Mouse.move_to_loop].
    destruct ((0 <? Z.abs dx) || (0 <? Z.abs dy)) eqn:Hgo.
    + apply orb_true_iff in Hgo.
      rewrite mouse_move. fold (clamp dx) (clamp dy).
      rewrite (steps_for_next (Z.max (Z.abs dx) (Z.abs dy))) in Hfuel |- * by lia.
      assert (Hnext : Z.max (Z.abs (dx - clamp dx)) (Z.abs (dy - clamp dy))
                      = Z.max 0 (Z.max (Z.abs dx) (Z.abs dy) - 127))
        by (unfold clamp; lia).
      destruct (IH (dx - clamp dx) (dy - clamp dy)
                  (wrote m [mouse_report 0 (clamp dx) (clamp dy)]))
        as (reports & Hrun & Hlen & Hrange & Hsum).
      { rewrite Hnext. lia. }
      exists (mouse_report 0 (clamp dx) (clamp dy) :: reports).
      rewrite Hrun, wrote_wrote. split; [reflexivity|].
      split; [cbn [length]; rewrite <- Hnext; lia|].
      split.
      * constructor; [|assumption]. unfold in_device_range.
        rewrite delta_of_mouse_report. cbn [fst snd].
        pose proof (clamp_range (clamp dx)). pose proof (clamp_range (clamp dy)). lia.
      * rewrite total_delta_cons, Hsum, delta_of_mouse_report. cbn [fst snd].
        rewrite !(clamp_id (clamp _)) by apply clamp_range.
        f_equal; lia.
    + apply orb_false_iff in Hgo as [Hx Hy].
      assert (dx = 0 /\ dy = 0) as [-> ->] by lia.
      exists []. rewrite wrote_nil. by repeat split.
Qed.

(** X3.  [move_to] from a known position ends after exactly as many reports
    as steps of 127 cover the larger of the two distances, and needs no
    more passes than that. *)
Theorem move_to_report_count
    (fuel : nat) (target_x target_y screen_width screen_height : Z)
    (current_x current_y : Z) (m : Mouse.t) :
  let distance := Z.max (Z.abs (target_x - current_x)) (Z.abs (target_y - current_y)) in
  steps_for distance <= Z.of_nat fuel ->
  exists reports,
    Mouse.move_to fuel target_x target_y screen_width screen_height
                  (Some current_x) (Some current_y) m
    = Some (Ok tt, wrote m reports) /\
    Z.of_nat (length reports) = steps_for distance /\
    total_delta reports = (target_x - current_x, target_y - current_y).
Proof.
  intros distance Hfuel. unfold Mouse.move_to.
  destruct (move_to_loop_count fuel _ _ m Hfuel) as (reports & Hrun & Hlen & _ & Hsum).
  exists reports. auto.
Qed.

Lemma move_to_report_count_witness :
  exists reports,
    Mouse.move_to 3 300 (-130) 1920 1080 (Some 0) (Some 0) (Mouse.mk "/dev/hidg1" [])
    = Some (Ok tt, wrote (Mouse.mk "/dev/hidg1" []) reports) /\
    Z.of_nat (length reports) = steps_for (Z.max (Z.abs (300 - 0)) (Z.abs (-130 - 0))) /\
    total_delta reports = (300 - 0, -130 - 0).
Proof.
  apply (move_to_report_count 3 300 (-130) 1920 1080 0 0). vm_compute. discriminate.
Defined.

(** The twenty moves toward the top-left corner. *)
Lemma corner_moves_run n m :
  for_each (replicate n tt) (fun _ => Mouse.move (-127) (-127)) m
  = (Ok tt, wrote m (replicate n (mouse_report 0 (-127) (-127)))).
Proof.
  revert m. induction n as [|n IH]; intros m.
  - cbn [replicate for_each]. by rewrite wrote_nil.
  - cbn [replicate for_each]. eff_unfold. rewrite mouse_move, IH, wrote_wrote.
    reflexivity.
Qed.

(** X4.  When either coordinate of the current position is missing,
    [move_to] ignores the other one: it first writes twenty reports of
    (-127, -127), then steps to the target as from (0, 0). *)
Theorem move_to_unknown_position_starts_from_corner
    (fuel : nat) (target_x target_y screen_width screen_height : Z)
    (current_x current_y : option Z) (m : Mouse.t) :
  current_x = None \/ current_y = None ->
  steps_for (Z.max (Z.abs target_x) (Z.abs target_y)) <= Z.of_nat fuel ->
  exists reports,
    Mouse.move_to fuel target_x target_y screen_width screen_height
                  current_x current_y m
    = Some (Ok tt, wrote m (replicate 20 (mouse_report 0 (-127) (-127)) ++ reports)) /\
    total_delta (replicate 20 (mouse_report 0 (-127) (-127))) = (-2540, -2540) /\
    Forall in_device_range reports /\
    total_delta reports = (target_x, target_y).
Proof.
  intros Hunknown Hfuel.
  destruct (move_to_loop_count fuel (target_x - 0) (target_y - 0)
              (wrote m (replicate 20 (mouse_report 0 (-127) (-127)))))
    as (reports & Hrun & _ & Hrange & Hsum).
  { by rewrite !Z.sub_0_r. }
  exists reports.
  assert (Hmove : Mouse.move_to fuel target_x target_y screen_width screen_height
                    current_x current_y m
                  = match for_each (replicate 20 tt) (fun _ => Mouse.move (-127) (-127)) m with
                    | (Ok _, m') => Mouse.move_to_loop fuel (target_x - 0) (target_y - 0) m'
                    | (Raise e, m') => Some (Raise e, m')
                    end).
  { unfold Mouse.move_to. destruct Hunknown as [-> | ->]; [reflexivity|].
    by destruct current_x. }
  rewrite Hmove, corner_moves_run, Hrun, wrote_wrote.
  split; [reflexivity|]. split; [by vm_compute|].
  split; [assumption|]. by rewrite Hsum, !Z.sub_0_r.
Qed.

Lemma move_to_unknown_position_starts_from_corner_witness :
  exists reports,
    Mouse.move_to 2 200 100 1920 1080 (Some 50) None (Mouse.mk "/dev/hidg1" [])
    = Some (Ok tt, wrote (Mouse.mk "/dev/hidg1" [])
                         (replicate 20 (mouse_report 0 (-127) (-127)) ++ reports)) /\
    total_delta (replicate 20 (mouse_report 0 (-127) (-127))) = (-2540, -2540) /\
    Forall in_device_range reports /\
    total_delta reports = (200, 100).
Proof.
  apply (move_to_unknown_position_starts_from_corner 2 200 100 1920 1080 (Some 50) None).
  - by right.
  - vm_compute. discriminate.
Defined.

(** A button byte outside the signed byte range: [struct.pack] raises
    and nothing is written. *)
Lemma mouse_send_report_raises buttons x y m :
  ~ (-128 <= buttons <= 127) ->
  exists e, Mouse._send_report buttons x y m = (Raise e, m).
Proof.
  intros Hb. unfold Mouse._send_report, Mouse.pack_bbb, Mouse.pack_b at 1.
  replace ((-128 <=? buttons) && (buttons <=? 127)) with false by lia.
  eexists. reflexivity.
Qed.

(** X1.  Whatever motion is asked of [_send_report], the report it writes
    is three bytes and carries that motion clamped to [-127, 127] on
    each axis, read back as signed bytes; it raises, writing nothing,
    exactly when the button value is no signed byte. *)
Theorem mouse_send_report_clamps_the_motion (buttons x y : Z) (m : Mouse.t) :
  if decide (-128 <= buttons <= 127) then
    Mouse._send_report buttons x y m = (Ok tt, wrote m [mouse_report buttons x y]) /\
    Forall (fun byte => 0 <= byte < 256) (mouse_report buttons x y) /\
    Mouse.delta_of (mouse_report buttons x y)
    = (Z.max (-127) (Z.min 127 x), Z.max (-127) (Z.min 127 y))
  else
    exists e, Mouse._send_report buttons x y m = (Raise e, m).
Proof.
  destruct (decide (-128 <= buttons <= 127)) as [Hb|Hb].
  - split; [by apply mouse_send_report|]. split.
    + unfold mouse_report. repeat constructor; apply Z.mod_pos_bound; lia.
    + apply delta_of_mouse_report.
  - by apply mouse_send_report_raises.
Qed.

(** X2.  [click] writes two reports that carry no motion: the button (left
    for a name that is none of [left], [right], [middle]) pressed, then
    no button pressed. *)
Theorem click_presses_then_releases (button : string) (m : Mouse.t) :
  let btn := if decide (button = "right") then 2
             else if decide (button = "middle") then 4 else 1 in
  Mouse.click button m = (Ok tt, wrote m [[btn; 0; 0]; [0; 0; 0]]) /\
  total_delta [[btn; 0; 0]; [0; 0; 0]] = (0, 0).
Proof.
  intros btn.
  assert (Hbtn : dict_get (list_to_map ["left" :-> 1; "right" :-> 2; "middle" :-> 4])
                          button 1 = btn).
  { subst btn. unfold dict_get.
    destruct (decide (button = "right")) as [->|Hr]; [reflexivity|].
    destruct (decide (button = "middle")) as [->|Hm]; [reflexivity|].
    destruct (decide (button = "left")) as [->|Hl]; [reflexivity|].
    rewrite (not_elem_of_list_to_map_1 _ button); [reflexivity|].
    cbn [fmap list_fmap fst]. not_in_list. }
  split.
  - unfold Mouse.click. rewrite Hbtn. eff_unfold.
    rewrite mouse_send_report by (subst btn; repeat case_decide; lia).
    rewrite mouse_send_report by lia. rewrite wrote_wrote.
    subst btn. by repeat case_decide.
  - subst btn. by repeat case_decide.
Qed.

(** ** The keyboard *)

(** A press followed by the release, for any modifier and keycode:
    both reports are written, or the press is refused and neither is. *)
Lemma keyboard_press_release_or_nothing modifier keycode kb :
  (Keyboard._send_report modifier keycode ;; Keyboard._send_report 0 0) kb
  = if decide (0 <= modifier < 256 /\ 0 <= keycode < 256)
    then (Ok tt, typed kb [key_report modifier keycode; release_report])
    else (Raise (Exception "bytes must be in range(0, 256)"), kb).
Proof.
  destruct (decide (0 <= modifier < 256 /\ 0 <= keycode < 256)) as [[Hm Hk]|Hout].
  - by apply keyboard_press_release.
  - assert (Hraise : Keyboard._send_report modifier keycode kb
                     = (Raise (Exception "bytes must be in range(0, 256)"), kb)).
    { unfold Keyboard._send_report, Keyboard.bytes. simpl.
      destruct ((0 <=? modifier) && (modifier <? 256)) eqn:Hm; [|reflexivity].
      destruct ((0 <=? keycode) && (keycode <? 256)) eqn:Hk; [|reflexivity].
      exfalso. apply Hout. lia. }
    unfold mbind, Eff_bind, eff_bind. by rewrite Hraise.
Qed.

(** X5.  For any character, key name and modifier, also a modifier that is
    no byte: [press_key] and [press_special] leave the device as it
    was, or write a press report and the release report after it; a
    press is never left without its release, and a command that raises
    has written nothing. *)
Theorem keyboard_command_writes_both_reports_or_none
    (char key : string) (modifier : Z) (kb : Keyboard.t) :
  let all_or_nothing (outcome : Res unit * Keyboard.t) :=
    (outcome.2 = kb) \/
    (exists modifier' keycode,
        outcome = (Ok tt, typed kb [key_report modifier' keycode; release_report])) in
  all_or_nothing (Keyboard.press_key char modifier kb) /\
  all_or_nothing (Keyboard.press_special key modifier kb).
Proof.
  intros all_or_nothing.
  assert (Hpair : forall m k,
    all_or_nothing ((Keyboard._send_report m k ;; Keyboard._send_report 0 0) kb)).
  { intros m k. rewrite keyboard_press_release_or_nothing.
    destruct (decide _); [right; eauto|by left]. }
  split.
  - unfold Keyboard.press_key.
    destruct (SHIFT_CHARS !! char) as [base|];
      match goal with |- context [dict_get KEYMAP ?c 0 =? 0] =>
        destruct (dict_get KEYMAP c 0 =? 0) end;
      first [by left | apply Hpair].
  - unfold Keyboard.press_special.
    destruct (dict_get SPECIAL_KEYS (lower key) 0 =? 0); [by left|apply Hpair].
Qed.

(** The keycodes of [KEYMAP] are pairwise distinct: each one reads back
    as its character. *)
Lemma KEYMAP_round_trip :
  map_Forall (fun char keycode => key_of KEYMAP keycode = Some char) KEYMAP.
Proof. apply (bool_decide_unpack _). by vm_compute. Qed.

(** The reports of one character of a typed string. *)
Lemma press_key_typed_char char kb :
  exists reports,
    Keyboard.press_key char MOD_NONE kb = (Ok tt, typed kb reports) /\
    typed_chars reports = (if is_mapped char then [char] else []) /\
    length reports = (if is_mapped char then 2 else 0)%nat /\
    default release_report (last reports) = release_report.
Proof.
  rewrite press_key_run by (unfold MOD_NONE; lia). unfold is_mapped.
  destruct (SHIFT_CHARS !! char) as [base|] eqn:Hshift.
  - destruct (SHIFT_CHARS_round_trip char base Hshift)
      as (keycode & Hkey & Hback & Hunshift).
    pose proof (KEYMAP_codes base keycode Hkey) as Hcode. cbn beta in Hcode.
    eexists. split; [reflexivity|].
    rewrite (bool_decide_eq_true_2 _ (mk_is_Some _ _ eq_refl)). cbn [orb].
    split; [|by split].
    unfold dict_get. rewrite Hkey. unfold key_report, release_report.
    cbn [default typed_chars omap list_omap report_char].
    change (0 =? 0) with true. cbv iota. unfold id.
    destruct (Z.eqb_spec keycode 0); [lia|].
    unfold derive_char. rewrite Hback. cbn [mbind option_bind].
    change (Z.testbit (Z.lor MOD_NONE MOD_SHIFT) 1) with true. cbv iota.
    by rewrite Hunshift.
  - rewrite (bool_decide_eq_false_2 (is_Some None)) by (by intros [? ?]). cbn [orb].
    destruct (KEYMAP !! char) as [keycode|] eqn:Hkey.
    + pose proof (KEYMAP_codes char keycode Hkey) as Hcode. cbn beta in Hcode.
      eexists. split; [reflexivity|].
      rewrite (bool_decide_eq_true_2 _ (mk_is_Some _ _ eq_refl)).
      split; [|by split].
      unfold key_report, release_report.
      cbn [typed_chars omap list_omap report_char].
      change (0 =? 0) with true. cbv iota.
      destruct (Z.eqb_spec keycode 0); [lia|].
      unfold derive_char. rewrite (KEYMAP_round_trip char keycode Hkey).
      cbn [mbind option_bind]. reflexivity.
    + exists []. rewrite typed_nil.
      rewrite (bool_decide_eq_false_2 (is_Some None)) by (by intros [? ?]).
      by repeat split.
Qed.

Lemma typed_chars_app r1 r2 : typed_chars (r1 ++ r2) = typed_chars r1 ++ typed_chars r2.
Proof. unfold typed_chars. apply omap_app. Qed.

(** Pressing the keys of a list of characters, one after the other. *)
Lemma press_keys_reports (cs : list string) : forall kb,
  exists reports,
    for_each cs (fun char => Keyboard.press_key char MOD_NONE) kb
    = (Ok tt, typed kb reports) /\
    typed_chars reports = List.filter is_mapped cs /\
    length reports = (2 * length (List.filter is_mapped cs))%nat /\
    default release_report (last reports) = release_report.
Proof.
  induction cs as [|c cs IH]; intros kb.
  - exists []. rewrite typed_nil. by repeat split.
  - cbn [for_each]. eff_unfold.
    destruct (press_key_typed_char c kb) as (r & -> & Hr & Hlen & Hlast).
    destruct (IH (typed kb r)) as (rs & -> & Hrs & Hlens & Hlasts).
    exists (r ++ rs). rewrite typed_typed. split; [reflexivity|].
    rewrite typed_chars_app, Hr, Hrs, length_app, Hlen, Hlens.
    cbn [List.filter]. destruct (is_mapped c); cbn [app length].
    + split; [reflexivity|]. split; [lia|].
      destruct rs as [|r0 rs]; [by rewrite app_nil_r|].
      by rewrite last_app_cons.
    + destruct r; [|discriminate]. by repeat split.
Qed.


(** *** Key combinations *)

(** The modifier bits that a key name of [hotkey] stands for. *)
Lemma hotkey_key_modifier acc key :
  (Keyboard.hotkey_key acc key).1 = Z.lor acc.1 (Keyboard.hotkey_key (0, 0) key).1.
Proof.
  destruct acc as [modifier keycode]. unfold Keyboard.hotkey_key. cbn [fst].
  repeat case_decide; cbn [fst]; try reflexivity.
  destruct (SPECIAL_KEYS !! lower key); cbn [fst]; [by rewrite Z.lor_0_r|].
  destruct (String.length (lower key) =? 1)%nat; cbn [fst]; [|by rewrite Z.lor_0_r].
  destruct (KEYMAP !! lower key); cbn [fst]; by rewrite Z.lor_0_r.
Qed.

(** One key name keeps the modifier within the four bits and the
    keycode within a byte. *)
Lemma hotkey_key_range acc key :
  0 <= acc.1 < 16 /\ 0 <= acc.2 < 256 ->
  0 <= (Keyboard.hotkey_key acc key).1 < 16 /\
  0 <= (Keyboard.hotkey_key acc key).2 < 256.
Proof.
  destruct acc as [modifier keycode]. cbn [fst snd]. intros [Hm Hk].
  assert (Hbits : forall bit, bit ∈ [MOD_CTRL; MOD_SHIFT; MOD_ALT; MOD_META] ->
                              0 <= Z.lor modifier bit < 16).
  { assert (Hall : Forall (fun m => Forall (fun bit => 0 <= Z.lor m bit < 16)
                                           [MOD_CTRL; MOD_SHIFT; MOD_ALT; MOD_META])
                          (seqZ 0 16))
      by (apply (bool_decide_unpack _); by vm_compute).
    rewrite Forall_forall in Hall.
    intros bit Hbit. specialize (Hall modifier). rewrite Forall_forall in Hall.
    apply Hall; [apply elem_of_seqZ; lia|assumption]. }
  unfold Keyboard.hotkey_key.
  repeat case_decide; cbn [fst snd];
    try (split; [apply Hbits; in_list|assumption]).
  destruct (SPECIAL_KEYS !! lower key) as [code|] eqn:Hspecial; cbn [fst snd].
  { pose proof (SPECIAL_KEYS_codes _ code Hspecial) as Hcode. cbn beta in Hcode. lia. }
  destruct (String.length (lower key) =? 1)%nat; cbn [fst snd]; [|lia].
  destruct (KEYMAP !! lower key) as [code|] eqn:Hkey; cbn [fst snd]; [|lia].
  pose proof (KEYMAP_codes _ code Hkey) as Hcode. cbn beta in Hcode. lia.
Qed.

Lemma hotkey_fold_range keys : forall acc,
  0 <= acc.1 < 16 /\ 0 <= acc.2 < 256 ->
  0 <= (foldl Keyboard.hotkey_key acc keys).1 < 16 /\
  0 <= (foldl Keyboard.hotkey_key acc keys).2 < 256.
Proof.
  induction keys as [|key keys IH]; intros acc Hacc; [assumption|].
  cbn [foldl]. by apply IH, hotkey_key_range.
Qed.

(** The press report of a combination, and its release. *)
Lemma hotkey_reports (keys : list string) (kb : Keyboard.t) :
  exists modifier keycode,
    foldl Keyboard.hotkey_key (MOD_NONE, 0) keys = (modifier, keycode) /\
    0 <= modifier < 16 /\
    0 <= keycode < 256 /\
    Keyboard.hotkey keys kb
    = (Ok tt, typed kb [key_report modifier keycode; release_report]).
Proof.
  destruct (hotkey_fold_range keys (MOD_NONE, 0)) as [Hm Hk].
  { cbn [fst snd]. unfold MOD_NONE. lia. }
  unfold Keyboard.hotkey.
  destruct (foldl Keyboard.hotkey_key (MOD_NONE, 0) keys) as [modifier keycode].
  cbn [fst snd] in Hm, Hk. exists modifier, keycode.
  split; [reflexivity|]. split; [lia|]. split; [lia|].
  apply keyboard_press_release; lia.
Qed.

(** One turn of the loop of [hotkey]: the bit of a modifier name is
    added to the modifier, the keycode of a key name replaces the
    keycode, and any other name changes nothing. *)
Lemma hotkey_key_meaning acc key :
  Keyboard.hotkey_key acc key
  = (match modifier_bit key with Some bit => Z.lor acc.1 bit | None => acc.1 end,
     match combination_keycode key with Some code => code | None => acc.2 end).
Proof.
  destruct acc as [modifier keycode].
  unfold Keyboard.hotkey_key, combination_keycode, modifier_bit. cbn [fst snd].
  set (name := lower key).
  assert (H2 : forall a b : string, name ∈ [a; b] <-> name = a \/ name = b).
  { intros a b. rewrite !elem_of_cons, elem_of_nil. tauto. }
  assert (H1 : forall a : string, name ∈ [a] <-> name = a).
  { intros a. rewrite elem_of_cons, elem_of_nil. tauto. }
  assert (H5 : forall a b c d e : string,
             name ∈ [a; b; c; d; e]
             <-> name = a \/ name = b \/ name = c \/ name = d \/ name = e).
  { intros a b c d e. rewrite !elem_of_cons, elem_of_nil. tauto. }
  destruct (decide (name ∈ ["ctrl"; "control"])) as [Hc|Hc]; rewrite H2 in Hc.
  { by rewrite decide_True. }
  rewrite (decide_False (P := name = "ctrl" \/ name = "control")) by assumption.
  destruct (decide (name ∈ ["shift"])) as [Hs|Hs]; rewrite H1 in Hs.
  { by rewrite decide_True. }
  rewrite (decide_False (P := name = "shift")) by assumption.
  destruct (decide (name ∈ ["alt"; "option"])) as [Ha|Ha]; rewrite H2 in Ha.
  { by rewrite decide_True. }
  rewrite (decide_False (P := name = "alt" \/ name = "option")) by assumption.
  destruct (decide (name ∈ ["meta"; "cmd"; "command"; "win"; "super"])) as [Hm|Hm];
    rewrite H5 in Hm.
  { by rewrite decide_True. }
  rewrite decide_False by assumption.
  destruct (SPECIAL_KEYS !! name); [reflexivity|].
  destruct (String.length name =? 1)%nat; [|reflexivity].
  by destruct (KEYMAP !! name).
Qed.

Lemma last_cons_default {A} (x d : A) (l : list A) :
  default d (last (x :: l)) = default x (last l).
Proof.
  revert x d. induction l as [|y l IH]; intros x d; [reflexivity|].
  change (last (x :: y :: l)) with (last (y :: l)).
  by rewrite (IH y d), (IH y x).
Qed.

(** The loop of [hotkey]: the bits of the modifier names together, and
    the keycode of the last key name. *)
Lemma hotkey_fold_meaning keys : forall acc,
  foldl Keyboard.hotkey_key acc keys
  = (Z.lor acc.1 (combined_modifier keys),
     default acc.2 (last (omap combination_keycode keys))).
Proof.
  unfold combined_modifier.
  induction keys as [|key keys IH]; intros [modifier keycode].
  - cbn. by rewrite Z.lor_0_r.
  - cbn [foldl]. rewrite IH, hotkey_key_meaning. cbn [fst snd omap list_omap].
    destruct (modifier_bit key) as [bit|], (combination_keycode key) as [code|];
      cbn [foldr]; rewrite ?last_cons_default, ?Z.lor_assoc; reflexivity.
Qed.

(** A name that is not known changes nothing; the names that are not
    known give no modifier and no keycode. *)
Lemma combined_filter_known keys :
  combined_modifier (filter (fun key => known_name key = true) keys)
  = combined_modifier keys /\
  omap combination_keycode (filter (fun key => known_name key = true) keys)
  = omap combination_keycode keys.
Proof.
  unfold combined_modifier.
  induction keys as [|key keys [IHm IHk]]; [by split|].
  destruct (modifier_bit key) as [bit|] eqn:Hbit.
  - rewrite filter_cons_True
      by (unfold known_name; apply bool_decide_eq_true; left; by eexists).
    cbn [omap list_omap]. rewrite Hbit. cbn [foldr]. rewrite IHm.
    destruct (combination_keycode key); by rewrite IHk.
  - destruct (combination_keycode key) as [code|] eqn:Hcode.
    + rewrite filter_cons_True
        by (unfold known_name; apply bool_decide_eq_true; right; by eexists).
      cbn [omap list_omap]. rewrite Hbit, Hcode. by rewrite IHm, IHk.
    + rewrite filter_cons_False.
      2: { unfold known_name. rewrite bool_decide_eq_true.
           intros [[? ?]|[? ?]]; congruence. }
      cbn [omap list_omap]. rewrite Hbit, Hcode. by split.
Qed.

Lemma combined_filter_unknown keys :
  combined_modifier (filter (fun key => known_name key = false) keys) = 0 /\
  omap combination_keycode (filter (fun key => known_name key = false) keys) = [].
Proof.
  unfold combined_modifier.
  induction keys as [|key keys [IHm IHk]]; [by split|].
  destruct (known_name key) eqn:Hknown.
  - by rewrite filter_cons_False by (rewrite Hknown; discriminate).
  - rewrite filter_cons_True by assumption.
    unfold known_name in Hknown. apply bool_decide_eq_false in Hknown.
    destruct (modifier_bit key) as [bit|] eqn:Hbit;
      [exfalso; apply Hknown; left; by eexists|].
    destruct (combination_keycode key) as [code|] eqn:Hcode;
      [exfalso; apply Hknown; right; by eexists|].
    cbn [omap list_omap]. by rewrite Hbit, Hcode.
Qed.

(** The reports of a combination, in terms of its names. *)
Lemma hotkey_meaning (keys : list string) (kb : Keyboard.t) :
  Keyboard.hotkey keys kb
  = (Ok tt, typed kb [key_report (combined_modifier keys) (combined_keycode keys);
                      release_report]) /\
  0 <= combined_modifier keys < 16 /\
  0 <= combined_keycode keys < 256.
Proof.
  destruct (hotkey_reports keys kb) as (modifier & keycode & Hfold & Hm & Hk & Hrun).
  rewrite hotkey_fold_meaning in Hfold. cbn [fst snd] in Hfold.
  unfold MOD_NONE in Hfold. rewrite Z.lor_0_l in Hfold.
  injection Hfold as <- <-. unfold combined_keycode.
  split; [exact Hrun|]. split; [exact Hm|exact Hk].
Qed.

(** X7.  [hotkey] never raises, whatever the names it is given: it writes
    one press report and the release report after it.  The modifier
    byte of the press is made of the bits of the names that stand for a
    modifier (ctrl or control, shift, alt or option, meta, cmd, command,
    win or super, in any case of letters), and holds only those four
    bits; its keycode is that of the last name that stands for a key (a
    special key, or a single character of the key map), and 0 when no
    name does.  Names it does not know are passed over: the reports are
    those of the known names alone; and names of which none is known
    give two all-zero reports. *)
Theorem hotkey_press_then_release (keys : list string) (kb : Keyboard.t) :
  Keyboard.hotkey keys kb
  = (Ok tt, typed kb [key_report (combined_modifier keys) (combined_keycode keys);
                      release_report]) /\
  0 <= combined_modifier keys < 16 /\
  0 <= combined_keycode keys < 256 /\
  Keyboard.hotkey (filter (fun key => known_name key = true) keys) kb
  = Keyboard.hotkey keys kb /\
  Keyboard.hotkey (filter (fun key => known_name key = false) keys) kb
  = (Ok tt, typed kb [release_report; release_report]).
Proof.
  destruct (hotkey_meaning keys kb) as (Hrun & Hm & Hk).
  split; [exact Hrun|]. split; [exact Hm|]. split; [exact Hk|].
  destruct (combined_filter_known keys) as [Hkm Hkk].
  destruct (combined_filter_unknown keys) as [Hum Huk].
  split.
  - rewrite Hrun, (proj1 (hotkey_meaning _ kb)).
    unfold combined_keycode. by rewrite Hkm, Hkk.
  - rewrite (proj1 (hotkey_meaning _ kb)).
    unfold combined_keycode. by rewrite Hum, Huk.
Qed.

Lemma hotkey_fold_modifier keys : forall acc acc',
  acc.1 = acc'.1 ->
  (foldl Keyboard.hotkey_key acc keys).1 = (foldl Keyboard.hotkey_key acc' keys).1.
Proof.
  induction keys as [|key keys IH]; intros acc acc' Hacc; [assumption|].
  cbn [foldl]. apply IH.
  by rewrite (hotkey_key_modifier acc), (hotkey_key_modifier acc'), Hacc.
Qed.

Lemma hotkey_fold_permutation keys keys' :
  keys ≡ₚ keys' ->
  forall acc acc', acc.1 = acc'.1 ->
  (foldl Keyboard.hotkey_key acc keys).1 = (foldl Keyboard.hotkey_key acc' keys').1.
Proof.
  induction 1 as [|key keys keys' _ IH|key1 key2 keys|keys1 keys2 keys3 _ IH1 _ IH2];
    intros acc acc' Hacc.
  - assumption.
  - cbn [foldl]. apply IH.
    by rewrite (hotkey_key_modifier acc), (hotkey_key_modifier acc'), Hacc.
  - cbn [foldl]. apply hotkey_fold_modifier.
    rewrite (hotkey_key_modifier (Keyboard.hotkey_key acc key2) key1),
      (hotkey_key_modifier acc key2),
      (hotkey_key_modifier (Keyboard.hotkey_key acc' key1) key2),
      (hotkey_key_modifier acc' key1), Hacc, <- !Z.lor_assoc.
    f_equal. apply Z.lor_comm.
  - rewrite (IH1 acc acc eq_refl). by apply IH2.
Qed.

(** X8.  The modifiers of a combination do not depend on the order in which
    its keys are named: two orders of the same names give press reports
    with the same modifier byte (the keycodes may differ, the last key
    named being the one sent). *)
Theorem hotkey_modifiers_in_any_order (keys keys' : list string) (kb : Keyboard.t) :
  keys ≡ₚ keys' ->
  exists modifier keycode keycode',
    Keyboard.hotkey keys kb
    = (Ok tt, typed kb [key_report modifier keycode; release_report]) /\
    Keyboard.hotkey keys' kb
    = (Ok tt, typed kb [key_report modifier keycode'; release_report]).
Proof.
  intros Hperm.
  destruct (hotkey_reports keys kb) as (m & k & Hfold & _ & _ & Hrun).
  destruct (hotkey_reports keys' kb) as (m' & k' & Hfold' & _ & _ & Hrun').
  pose proof (hotkey_fold_permutation keys keys' Hperm (MOD_NONE, 0) (MOD_NONE, 0) eq_refl)
    as Hsame.
  rewrite Hfold, Hfold' in Hsame. cbn [fst] in Hsame. subst m'.
  exists m, k, k'. by split.
Qed.

Lemma hotkey_modifiers_in_any_order_witness :
  exists modifier keycode keycode',
    Keyboard.hotkey ["Ctrl"; "shift"; "c"; "delete"] (Keyboard.mk "/dev/hidg0" [])
    = (Ok tt, typed (Keyboard.mk "/dev/hidg0" [])
                    [key_report modifier keycode; release_report]) /\
    Keyboard.hotkey ["delete"; "shift"; "c"; "Ctrl"] (Keyboard.mk "/dev/hidg0" [])
    = (Ok tt, typed (Keyboard.mk "/dev/hidg0" [])
                    [key_report modifier keycode'; release_report]).
Proof.
  apply (hotkey_modifiers_in_any_order
           ["Ctrl"; "shift"; "c"; "delete"] ["delete"; "shift"; "c"; "Ctrl"]).
  apply (bool_decide_unpack _). by vm_compute.
Defined.

(** * Further properties of [agent.py] *)

(** ** Points *)

(** X9.  [direction_to] gives -1, 0 or 1 on each axis, 0 exactly when the
    two points are at most 10 apart on that axis, and the opposite
    direction when the two points are exchanged. *)
Theorem direction_to_is_an_antisymmetric_sign (p q : Point.t) :
  let d := Point.direction_to p q in
  Point.direction_to q p = (- d.1, - d.2) /\
  -1 <= d.1 <= 1 /\
  -1 <= d.2 <= 1 /\
  (d.1 = 0 <-> Z.abs (Point.x q - Point.x p) <= 10) /\
  (d.2 = 0 <-> Z.abs (Point.y q - Point.y p) <= 10).
Proof.
  unfold Point.direction_to. cbn [fst snd].
  repeat match goal with
         | |- context [?a <? ?b] => destruct (Z.ltb_spec a b)
         end;
    repeat split; try f_equal; lia.
Qed.

(** X10.  [distance_to] is symmetric, in its value and in what it
    raises, and zero from a point to itself, whatever the C library. *)
Theorem distance_to_is_symmetric (pow : Libm) (p q : Point.t) :
  Point.distance_to pow p q = Point.distance_to pow q p /\
  Point.distance_to pow p p = Ok (S754_zero false).
Proof.
  unfold Point.distance_to. split.
  - f_equal. lia.
  - replace ((Point.x p - Point.x p) ^ 2 + (Point.y p - Point.y p) ^ 2) with 0 by lia.
    reflexivity.
Qed.

(** ** The pointer estimate *)

(** X11.  With an estimate, [move_cursor_toward] plans the motion from
    the estimate under proportional speed control.  When that
    arithmetic gives a motion, the call moves the estimate by the
    motion it asks for, while the report carries that motion clamped:
    the estimate has advanced by what was written exactly when the
    motion asked for is within [-127, 127] on both axes.  When the
    arithmetic raises, the call raises the same and leaves the agent as
    it was. *)
Theorem estimate_follows_written_motion_within_range
    (pow : Libm) (target : Point.t) (speed : option Z) (a : Agent.t)
    (cursor : Point.t) :
  Agent.estimated_cursor a = Some cursor ->
  match toward pow cursor target (proportional_speed (base_speed a speed)) with
  | Ok d =>
      exists a',
        Agent.move_cursor_toward pow target speed a = (Ok tt, a') /\
        Agent.estimated_cursor a' = Some (displaced cursor d) /\
        total_delta (mouse_reports_since a a') = (clamp d.1, clamp d.2) /\
        (Agent.estimated_cursor a'
         = Some (displaced cursor (total_delta (mouse_reports_since a a')))
         <-> -127 <= d.1 <= 127 /\ -127 <= d.2 <= 127)
  | Raise e => Agent.move_cursor_toward pow target speed a = (Raise e, a)
  end.
Proof.
  intros Hcursor.
  rewrite move_cursor_toward_run, motion_toward.
  unfold planned_motion, reference_point. rewrite Hcursor. cbn [default]. unfold id.
  destruct (toward pow cursor target (proportional_speed (base_speed a speed)))
    as [d|e]; [|reflexivity].
  exists (moved a d). split; [reflexivity|].
  assert (Hest : Agent.estimated_cursor (moved a d) = Some (displaced cursor d))
    by (by rewrite moved_estimate, Hcursor).
  assert (Hsum : total_delta (mouse_reports_since a (moved a d)) = (clamp d.1, clamp d.2)).
  { rewrite mouse_reports_since_moved, total_delta_cons, delta_of_mouse_report.
    cbn [total_delta foldr fst snd]. f_equal; lia. }
  split; [assumption|]. split; [assumption|].
  rewrite Hest, Hsum. unfold displaced. cbn [fst snd]. split.
  - intros [= Hx Hy]. pose proof (clamp_range d.1). pose proof (clamp_range d.2). lia.
  - intros [Hx Hy]. by rewrite !clamp_id.
Qed.

Lemma estimate_follows_written_motion_within_range_witness :
  exists a',
    Agent.move_cursor_toward rounded_root (Point.mk 1000 0) None
      (sample_agent 40 50 (Some (Point.mk 0 0))) = (Ok tt, a') /\
    Agent.estimated_cursor a' = Some (displaced (Point.mk 0 0) (40, 0)) /\
    total_delta (mouse_reports_since (sample_agent 40 50 (Some (Point.mk 0 0))) a')
    = (clamp 40, clamp 0) /\
    (Agent.estimated_cursor a'
     = Some (displaced (Point.mk 0 0)
               (total_delta
                  (mouse_reports_since (sample_agent 40 50 (Some (Point.mk 0 0))) a')))
     <-> -127 <= 40 <= 127 /\ -127 <= 0 <= 127).
Proof.
  apply (estimate_follows_written_motion_within_range
           rounded_root (Point.mk 1000 0) None (sample_agent 40 50 (Some (Point.mk 0 0)))
           (Point.mk 0 0)).
  reflexivity.
Defined.

(** ** The device commands of a pass *)

(** The agent that a pass leaves when the frame has arrived and the
    judge has answered: the one the judgment and the commands of its
    action give, whatever the observer does; the one the judgment gives
    when the arithmetic of a move raises. *)
Lemma loop_body_agent w task callback context r image_b64 analysis :
  capture_frame_base64 w (Agent.iteration (Agent.self r) + 1)
    (Agent.capture_device (Agent.self r)) = Ok image_b64 ->
  time_sleep (sleep w (Agent.iteration (Agent.self r) + 1)
                (Agent.capture_delay (Agent.self r)))
             (Agent.capture_delay (Agent.self r)) = Ok tt ->
  analyze w (Agent.iteration (Agent.self r) + 1) image_b64 task context = Ok analysis ->
  Agent.self (Agent.loop_body w task callback context r).2
  = match acted (libm_pow w) analysis (perceived analysis (Agent.self r)) with
    | Ok a' => a'
    | Raise _ => perceived analysis (Agent.self r)
    end.
Proof.
  intros Hcap Hsleep Hana.
  rewrite (loop_body_run w task callback context r image_b64 analysis Hcap Hsleep Hana).
  cbv zeta.
  destruct (acted (libm_pow w) analysis (perceived analysis (Agent.self r)))
    as [a'|e]; [|reflexivity].
  destruct (decide (suggested_action analysis ∈ recognised_actions));
    [apply notify_keeps_self|reflexivity].
Qed.

Lemma keyboard_reports_since_typed a a' reports :
  Agent.keyboard a' = typed (Agent.keyboard a) reports ->
  keyboard_reports_since a a' = reports.
Proof.
  intros Hk. unfold keyboard_reports_since. rewrite Hk. unfold typed.
  cbn [Keyboard.written]. by rewrite drop_app_length.
Qed.

Lemma keyboard_reports_since_same a a' :
  Agent.keyboard a' = Agent.keyboard a -> keyboard_reports_since a a' = [].
Proof. intros Hk. unfold keyboard_reports_since. rewrite Hk. apply drop_all. Qed.

Lemma mouse_reports_since_same a a' :
  Agent.mouse a' = Agent.mouse a -> mouse_reports_since a a' = [].
Proof. intros Hm. unfold mouse_reports_since. rewrite Hm. apply drop_all. Qed.

(** X12.  A pass whose judgment says [click] writes the press and the release
    of the left button to the mouse, with no motion; one that says
    [scroll_up] or [scroll_down] writes the press and the release of
    Page Up or Page Down to the keyboard.  Neither touches the other
    device, whatever the observer does.  (The pass is one that has its
    judgment: the frame has arrived, the sleep has returned and the
    judge has answered.) *)
Theorem click_and_scroll_passes_write_one_press_and_release
    (w : World) (task : string) (callback : option Callback) (context : string)
    (r : Agent.Run) (image_b64 : string) (analysis : ScreenAnalysis) :
  capture_frame_base64 w (Agent.iteration (Agent.self r) + 1)
    (Agent.capture_device (Agent.self r)) = Ok image_b64 ->
  time_sleep (sleep w (Agent.iteration (Agent.self r) + 1)
                (Agent.capture_delay (Agent.self r)))
             (Agent.capture_delay (Agent.self r)) = Ok tt ->
  analyze w (Agent.iteration (Agent.self r) + 1) image_b64 task context = Ok analysis ->
  let after := Agent.self (Agent.loop_body w task callback context r).2 in
  let action := suggested_action analysis in
  (action = "click" ->
   mouse_reports_since (Agent.self r) after = [[1; 0; 0]; [0; 0; 0]] /\
   keyboard_reports_since (Agent.self r) after = []) /\
  (action = "scroll_up" ->
   keyboard_reports_since (Agent.self r) after = [key_report 0 0x4B; release_report] /\
   mouse_reports_since (Agent.self r) after = []) /\
  (action = "scroll_down" ->
   keyboard_reports_since (Agent.self r) after = [key_report 0 0x4E; release_report] /\
   mouse_reports_since (Agent.self r) after = []).
Proof.
  intros Hcap Hsleep Hana after action. subst after action.
  rewrite (loop_body_agent w task callback context r image_b64 analysis Hcap Hsleep Hana).
  destruct (perceived_bookkeeping analysis (Agent.self r)) as (_ & _ & _ & Hk & Hm & _).
  unfold acted. split_and!; intros ->; decide_literals.
  - split.
    + by apply (mouse_reports_since_wrote _ _ _ eq_refl); cbn; rewrite Hm.
    + by apply keyboard_reports_since_same.
  - split.
    + by apply keyboard_reports_since_typed; cbn; rewrite Hk.
    + by apply mouse_reports_since_same.
  - split.
    + by apply keyboard_reports_since_typed; cbn; rewrite Hk.
    + by apply mouse_reports_since_same.
Qed.

Lemma click_and_scroll_passes_write_one_press_and_release_witness :
  mouse_reports_since (Agent.self (sample_run 3))
    (Agent.self (Agent.loop_body (scripted_world "click" 0) "open the menu"
                                 (Some (failing_observer 1)) "" (sample_run 3)).2)
  = [[1; 0; 0]; [0; 0; 0]] /\
  keyboard_reports_since (Agent.self (sample_run 3))
    (Agent.self (Agent.loop_body (scripted_world "click" 0) "open the menu"
                                 (Some (failing_observer 1)) "" (sample_run 3)).2)
  = [].
Proof.
  apply (click_and_scroll_passes_write_one_press_and_release
           (scripted_world "click" 0) "open the menu" (Some (failing_observer 1)) ""
           (sample_run 3) "frame" (judgment None None "click") eq_refl eq_refl eq_refl).
  reflexivity.
Defined.

(** X13.  A pass whose judgment says [done] or [error], or names no action
    the loop has a branch for, or says [move] without a target, or says
    [type] without a text or with the empty text, writes nothing to the
    keyboard and nothing to the mouse.  (The pass is one that has its
    judgment: the frame has arrived, the sleep has returned and the
    judge has answered.) *)
Theorem passes_without_a_command_write_nothing
    (w : World) (task : string) (callback : option Callback) (context : string)
    (r : Agent.Run) (image_b64 : string) (analysis : ScreenAnalysis) :
  capture_frame_base64 w (Agent.iteration (Agent.self r) + 1)
    (Agent.capture_device (Agent.self r)) = Ok image_b64 ->
  time_sleep (sleep w (Agent.iteration (Agent.self r) + 1)
                (Agent.capture_delay (Agent.self r)))
             (Agent.capture_delay (Agent.self r)) = Ok tt ->
  analyze w (Agent.iteration (Agent.self r) + 1) image_b64 task context = Ok analysis ->
  suggested_action analysis ∈ ["done"; "error"] \/
  suggested_action analysis ∉ recognised_actions \/
  (suggested_action analysis = "move" /\ target_position analysis = None) \/
  (suggested_action analysis = "type" /\ text_to_type analysis ∈ [None; Some ""]) ->
  let after := Agent.self (Agent.loop_body w task callback context r).2 in
  keyboard_reports_since (Agent.self r) after = [] /\
  mouse_reports_since (Agent.self r) after = [].
Proof.
  intros Hcap Hsleep Hana Hidle after. subst after.
  rewrite (loop_body_agent w task callback context r image_b64 analysis Hcap Hsleep Hana).
  destruct (perceived_bookkeeping analysis (Agent.self r)) as (_ & _ & _ & Hk & Hm & _).
  assert (Hsame : acted (libm_pow w) analysis (perceived analysis (Agent.self r))
                  = Ok (perceived analysis (Agent.self r))).
  { unfold acted. destruct Hidle as [Hin|[Hout|[[-> Htarget]|[-> Htext]]]].
    - apply elem_of_cons in Hin as [->|Hin];
        [|apply elem_of_cons in Hin as [->|Hin]; [|by apply elem_of_nil in Hin]];
        by decide_literals.
    - repeat (rewrite decide_False
                by (intros Heq; apply Hout; rewrite Heq; in_list)).
      reflexivity.
    - decide_literals. by rewrite Htarget.
    - decide_literals.
      apply elem_of_cons in Htext as [->|Htext]; [reflexivity|].
      apply elem_of_cons in Htext as [->|Htext]; [|by apply elem_of_nil in Htext].
      res_reduce. f_equal. apply set_keyboard_same. }
  rewrite Hsame. split.
  - by apply keyboard_reports_since_same.
  - by apply mouse_reports_since_same.
Qed.

Lemma passes_without_a_command_write_nothing_witness :
  keyboard_reports_since (Agent.self (sample_run 3))
    (Agent.self (Agent.loop_body (typing_world "") "fill the form" None ""
                                 (sample_run 3)).2) = [] /\
  mouse_reports_since (Agent.self (sample_run 3))
    (Agent.self (Agent.loop_body (typing_world "") "fill the form" None ""
                                 (sample_run 3)).2) = [].
Proof.
  apply (passes_without_a_command_write_nothing
           (typing_world "") "fill the form" None "" (sample_run 3) "frame"
           (typing_judgment "") eq_refl eq_refl eq_refl).
  right. right. right. split; [reflexivity|]. cbn. in_list.
Defined.

(** X14.  A pass whose judgment says [type] and carries a text types it: read
    back report by report, what the pass has written to the keyboard is
    the text without the characters that have no key.  The mouse is not
    touched.  (The pass is one that has its judgment: the frame has
    arrived, the sleep has returned and the judge has answered.) *)
Theorem type_pass_types_the_text
    (w : World) (task : string) (callback : option Callback) (context : string)
    (r : Agent.Run) (image_b64 : string) (analysis : ScreenAnalysis) (text : string) :
  capture_frame_base64 w (Agent.iteration (Agent.self r) + 1)
    (Agent.capture_device (Agent.self r)) = Ok image_b64 ->
  time_sleep (sleep w (Agent.iteration (Agent.self r) + 1)
                (Agent.capture_delay (Agent.self r)))
             (Agent.capture_delay (Agent.self r)) = Ok tt ->
  analyze w (Agent.iteration (Agent.self r) + 1) image_b64 task context = Ok analysis ->
  suggested_action analysis = "type" ->
  text_to_type analysis = Some text ->
  let after := Agent.self (Agent.loop_body w task callback context r).2 in
  typed_chars (keyboard_reports_since (Agent.self r) after)
  = List.filter is_mapped (chars text) /\
  mouse_reports_since (Agent.self r) after = [].
Proof.
  intros Hcap Hsleep Hana Haction Htext after. subst after.
  rewrite (loop_body_agent w task callback context r image_b64 analysis Hcap Hsleep Hana).
  destruct (perceived_bookkeeping analysis (Agent.self r)) as (_ & _ & _ & Hk & Hm & _).
  unfold acted. rewrite Haction, Htext. decide_literals.
  unfold Keyboard.type_string.
  destruct (press_keys_reports (chars text)
              (Agent.keyboard (perceived analysis (Agent.self r))))
    as (reports & Hrun & Hchars & _).
  rewrite Hrun. cbn [snd]. split.
  - rewrite (keyboard_reports_since_typed _ _ reports); [assumption|].
    cbn. by rewrite Hk.
  - by apply mouse_reports_since_same.
Qed.

Lemma type_pass_types_the_text_witness :
  typed_chars
    (keyboard_reports_since (Agent.self (sample_run 3))
       (Agent.self (Agent.loop_body (typing_world "Hi!") "fill the form" None ""
                                    (sample_run 3)).2))
  = List.filter is_mapped (chars "Hi!") /\
  mouse_reports_since (Agent.self (sample_run 3))
    (Agent.self (Agent.loop_body (typing_world "Hi!") "fill the form" None ""
                                 (sample_run 3)).2) = [].
Proof.
  apply (type_pass_types_the_text
           (typing_world "Hi!") "fill the form" None "" (sample_run 3) "frame"
           (typing_judgment "Hi!") "Hi!" eq_refl eq_refl eq_refl eq_refl eq_refl).
Defined.

(** ** Every run ends *)

(** The observer, and then the value of the pass: the outcome is the
    value or what the observer raised. *)
Lemma notify_value callback analysis action a calls {A} (x : A) :
  let out := ((Agent.notify callback analysis action ;; mret x) (Agent.mkRun a calls)).1 in
  out = Ok x \/ exists e, out = Raise e.
Proof.
  unfold mbind, mret, Eff_bind, Eff_ret, eff_bind, eff_ret.
  rewrite notify_run. destruct callback as [f|]; [|by left].
  destruct (f (Agent.iteration a) analysis action) as [[]|e]; [by left|right; eauto].
Qed.

Lemma capture_calls_app calls calls' :
  capture_calls (calls ++ calls') = capture_calls calls ++ capture_calls calls'.
Proof. apply List.filter_app. Qed.

(** What a pass does to the counters, whatever happens in it: one more
    iteration, one more call to the capture, at most one more judgment
    in the history; and a result, if the pass returns one, carries the
    counter and the history as they then are. *)
Lemma loop_body_counters w task callback context r :
  let out := Agent.loop_body w task callback context r in
  Agent.iteration (Agent.self out.2) = Agent.iteration (Agent.self r) + 1 /\
  Agent.max_iterations (Agent.self out.2) = Agent.max_iterations (Agent.self r) /\
  capture_calls (Agent.calls out.2)
  = capture_calls (Agent.calls r) ++ [CallCapture (Agent.capture_device (Agent.self r))] /\
  (length (Agent.history (Agent.self out.2)) <= S (length (Agent.history (Agent.self r))))%nat /\
  (forall res, out.1 = Ok (Agent.Return res) ->
     RunResult.iterations res = Agent.iteration (Agent.self out.2) /\
     RunResult.history res = Agent.history (Agent.self out.2)).
Proof.
  cbv zeta.
  destruct (loop_body_outcome w task callback context r)
    as (more & Hcalls & Hmore & Hself).
  assert (Hcount : capture_calls (Agent.calls (Agent.loop_body w task callback context r).2)
                   = capture_calls (Agent.calls r)
                     ++ [CallCapture (Agent.capture_device (Agent.self r))]).
  { rewrite Hcalls, capture_calls_app.
    change (capture_calls (CallCapture (Agent.capture_device (Agent.self r)) :: more))
      with (CallCapture (Agent.capture_device (Agent.self r)) :: capture_calls more).
    by rewrite Hmore. }
  assert (Hfields :
    Agent.iteration (Agent.self (Agent.loop_body w task callback context r).2)
    = Agent.iteration (Agent.self r) + 1 /\
    Agent.max_iterations (Agent.self (Agent.loop_body w task callback context r).2)
    = Agent.max_iterations (Agent.self r) /\
    (length (Agent.history (Agent.self (Agent.loop_body w task callback context r).2))
     <= S (length (Agent.history (Agent.self r))))%nat).
  { destruct Hself as [->|(image_b64 & analysis & _ & _ & _ & [->|Hact])].
    - destruct r as [[] ?]. cbn. split_and!; [reflexivity..|lia].
    - destruct (perceived_bookkeeping analysis (Agent.self r)) as (-> & -> & -> & _).
      rewrite length_app. cbn. split_and!; [reflexivity..|lia].
    - apply acted_perceived_fields in Hact as (-> & -> & -> & _).
      rewrite length_app. cbn. split_and!; [reflexivity..|lia]. }
  destruct Hfields as (Hi & Hm & Hh).
  split_and!; [assumption..|].
  clear Hcalls Hmore Hself Hcount Hh.
  destruct (capture_frame_base64 w (Agent.iteration (Agent.self r) + 1)
              (Agent.capture_device (Agent.self r))) as [image_b64|e] eqn:Hcap.
  2: { rewrite (loop_body_capture_raises w task callback context r e Hcap).
       cbn [fst snd Agent.self]. intros res Hres.
       destruct e; [|discriminate]. injection Hres as <-. by destruct r as [[] ?]. }
  destruct (time_sleep (sleep w (Agent.iteration (Agent.self r) + 1)
                          (Agent.capture_delay (Agent.self r)))
                       (Agent.capture_delay (Agent.self r))) as [[]|e] eqn:Hsleep.
  2: { rewrite (loop_body_sleep_raises w task callback context r image_b64 e Hcap Hsleep).
       discriminate. }
  destruct (analyze w (Agent.iteration (Agent.self r) + 1) image_b64 task context)
    as [analysis|e] eqn:Hana.
  2: { rewrite (loop_body_vision_raises w task callback context r image_b64 e
                  Hcap Hsleep Hana).
       cbn [fst snd Agent.self]. intros res Hres.
       destruct e; [|discriminate]. injection Hres as <-. by destruct r as [[] ?]. }
  rewrite (loop_body_run w task callback context r image_b64 analysis Hcap Hsleep Hana).
  cbv zeta.
  destruct (acted (libm_pow w) analysis (perceived analysis (Agent.self r)))
    as [a'|e]; [|discriminate].
  destruct (decide (suggested_action analysis ∈ recognised_actions)); [|discriminate].
  rewrite notify_keeps_self. intros res Hres.
  match type of Hres with
  | ((Agent.notify ?cb ?an ?ac ≫= λ _, mret ?x) (Agent.mkRun ?a ?cs)).1 = _ =>
      destruct (notify_value cb an ac a cs x) as [Hout|[e0 Hout]];
        cbv zeta in Hout; rewrite Hout in Hres; [|discriminate]
  end.
  destruct (decide (suggested_action analysis = "done")); [|discriminate].
  injection Hres as <-. by split.
Qed.

(** The loop ends within the passes that the cap leaves, by induction
    on them, and its counters stay in step. *)
Lemma while_loop_ends w task callback fuel : forall context r,
  (Z.to_nat (Agent.max_iterations (Agent.self r) - Agent.iteration (Agent.self r))
   <= fuel)%nat ->
  exists out r',
    Agent.while_loop fuel w task callback context r = Some (out, r') /\
    Agent.iteration (Agent.self r) <= Agent.iteration (Agent.self r')
      <= Z.max (Agent.iteration (Agent.self r)) (Agent.max_iterations (Agent.self r)) /\
    Z.of_nat (length (Agent.history (Agent.self r')))
      <= Z.of_nat (length (Agent.history (Agent.self r)))
         + (Agent.iteration (Agent.self r') - Agent.iteration (Agent.self r)) /\
    Z.of_nat (length (capture_calls (Agent.calls r')))
      = Z.of_nat (length (capture_calls (Agent.calls r)))
        + (Agent.iteration (Agent.self r') - Agent.iteration (Agent.self r)) /\
    (forall res, out = Ok res ->
       RunResult.iterations res = Agent.iteration (Agent.self r') /\
       RunResult.history res = Agent.history (Agent.self r')).
Proof.
  induction fuel as [|fuel IH]; intros context r Hfuel.
  - rewrite while_loop_exit by lia. eexists _, r. split; [reflexivity|].
    split_and!; [lia|lia|lia|lia|]. by intros res [= <-].
  - rewrite while_loop_unfold.
    destruct (Z.ltb_spec (Agent.iteration (Agent.self r))
                (Agent.max_iterations (Agent.self r))) as [Hlt|Hge].
    2: { eexists _, r. split; [reflexivity|].
         split_and!; [lia|lia|lia|lia|]. by intros res [= <-]. }
    pose proof (loop_body_counters w task callback context r) as Hbody.
    cbv zeta in Hbody.
    destruct (Agent.loop_body w task callback context r) as [[[res|context']|e] r1];
      cbn [fst snd] in Hbody; destruct Hbody as (Hi & Hm & Hc & Hh & Hres).
    + eexists _, r1. split; [reflexivity|].
      rewrite Hc, length_app. cbn [length].
      split_and!; [lia|lia|lia|lia|].
      intros res' [= <-]. by apply Hres.
    + destruct (IH context' r1) as (out & r' & -> & Hi' & Hh' & Hc' & Hres'); [lia|].
      exists out, r'. split; [reflexivity|].
      rewrite Hc, length_app in Hc'. cbn [length] in Hc'.
      split_and!; [lia|lia|lia|lia|assumption].
    + eexists _, r1. split; [reflexivity|].
      rewrite Hc, length_app. cbn [length].
      split_and!; [lia|lia|lia|lia|discriminate].
Qed.

(** X15.  Whatever the capture, the sleep, the judge, the arithmetic of
    the moves and the observer do in any
    iteration, [execute_task], given as many passes as the cap, ends:
    with a result or with an exception that comes out of it.  The counter
    is then within the cap, the capture has been called once per
    iteration counted, the history holds at most one judgment per
    iteration, and a result carries the counter and the history. *)
Theorem execute_task_always_ends
    (fuel : nat) (w : World) (task : string) (callback : option Callback)
    (r : Agent.Run) :
  (Z.to_nat (Agent.max_iterations (Agent.self r)) <= fuel)%nat ->
  exists out r',
    Agent.execute_task fuel w task callback r = Some (out, r') /\
    0 <= Agent.iteration (Agent.self r') <= Z.max 0 (Agent.max_iterations (Agent.self r)) /\
    Z.of_nat (length (Agent.history (Agent.self r'))) <= Agent.iteration (Agent.self r') /\
    Z.of_nat (length (capture_calls (Agent.calls r')))
    = Z.of_nat (length (capture_calls (Agent.calls r))) + Agent.iteration (Agent.self r') /\
    (forall res, out = Ok res ->
       RunResult.iterations res = Agent.iteration (Agent.self r') /\
       RunResult.history res = Agent.history (Agent.self r')).
Proof.
  intros Hfuel. rewrite execute_task_started.
  destruct (started_fields r) as (Hi & Hh & Hm & _ & _ & _ & _ & Hcalls).
  destruct (while_loop_ends w task callback fuel "" (started r))
    as (out & r' & Hrun & Hi' & Hh' & Hc' & Hres).
  { rewrite Hi, Hm. lia. }
  exists out, r'. rewrite Hi, Hm, Hh, Hcalls in *. cbn [length] in Hh'.
  split_and!; [assumption|lia|lia|lia|lia|assumption].
Qed.

Lemma execute_task_always_ends_witness :
  exists out r',
    Agent.execute_task 3 (broken_judge_world "click" 2 (Exception "no answer"))
                       "open the menu" (Some (failing_observer 3)) (sample_run 3)
    = Some (out, r') /\
    0 <= Agent.iteration (Agent.self r')
      <= Z.max 0 (Agent.max_iterations (Agent.self (sample_run 3))) /\
    Z.of_nat (length (Agent.history (Agent.self r'))) <= Agent.iteration (Agent.self r') /\
    Z.of_nat (length (capture_calls (Agent.calls r')))
    = Z.of_nat (length (capture_calls (Agent.calls (sample_run 3))))
      + Agent.iteration (Agent.self r') /\
    (forall res, out = Ok res ->
       RunResult.iterations res = Agent.iteration (Agent.self r') /\
       RunResult.history res = Agent.history (Agent.self r')).
Proof.
  apply (execute_task_always_ends 3 (broken_judge_world "click" 2 (Exception "no answer"))
           "open the menu" (Some (failing_observer 3)) (sample_run 3)).
  cbn. lia.
Defined.

(** X16.  A failure of the capture, of the sleep or of the judge in
    iteration [k], after scripted iterations that went through, ends
    the run there.  When the capture or the judge raises an
    [Exception] with text [msg], [execute_task] returns the result with
    [success = False] and [iterations = k], whose error is
    ["Capture failed: "] or ["Vision failed: "] followed by [msg], and
    whose history holds the [k - 1] judgments made before, in order.
    When what they raise is not an [Exception], and whatever the sleep
    raises, there is no result: the exception leaves [execute_task]. *)
Theorem collaborator_failure_ends_the_run
    (fuel : nat) (w : World) (task : string) (callback : option Callback)
    (r : Agent.Run) (script : Z -> ScreenAnalysis) (k : Z) (e : Exn) (a1 : Agent.t) :
  let a0 := Agent.self (started r) in
  let before := judgments script 1 (Z.to_nat (k - 1)) in
  1 <= k <= Agent.max_iterations (Agent.self r) ->
  (Z.to_nat k <= fuel)%nat ->
  (forall i, 1 <= i < k ->
     goes_through w task callback a0 script i /\ suggested_action (script i) <> "done") ->
  agent_after (libm_pow w) script (Z.to_nat (k - 1)) a0 = Ok a1 ->
  (capture_frame_base64 w k (Agent.capture_device a0) = Raise e ->
   exists r',
     Agent.execute_task fuel w task callback r
     = Some (match e with
             | Exception msg =>
                 Ok (RunResult.mk false k before (Some ("Capture failed: " +:+ msg)))
             | BaseException msg => Raise (BaseException msg)
             end, r')) /\
  ((exists image_b64,
      capture_frame_base64 w k (Agent.capture_device a0) = Ok image_b64) ->
   time_sleep (sleep w k (Agent.capture_delay a0)) (Agent.capture_delay a0) = Raise e ->
   exists r', Agent.execute_task fuel w task callback r = Some (Raise e, r')) /\
  (frame_arrives w a0 k ->
   (forall image_b64 context, analyze w k image_b64 task context = Raise e) ->
   exists r',
     Agent.execute_task fuel w task callback r
     = Some (match e with
             | Exception msg =>
                 Ok (RunResult.mk false k before (Some ("Vision failed: " +:+ msg)))
             | BaseException msg => Raise (BaseException msg)
             end, r')).
Proof.
  intros a0 before Hk Hfuel Hgo Hafter. subst a0 before.
  destruct (started_fields r) as (Hi & Hh & Hm & _).
  destruct (agent_after_fields _ _ _ _ _ Hafter) as (Hi1 & Hm1 & Hh1 & Hd1 & Hc1).
  assert (Hk1 : Agent.iteration a1 + 1 = k) by lia.
  assert (Hhist : Agent.history a1 = judgments script 1 (Z.to_nat (k - 1)))
    by (by rewrite Hh1, Hh, Hi).
  destruct (while_loop_scripted w task callback script (Z.to_nat (k - 1))
              (S (fuel - Z.to_nat k)) "" (started r) a1)
    as (calls1 & Hrun & _).
  { intros i Hrange. apply Hgo. lia. }
  { exact Hafter. }
  { lia. }
  rewrite execute_task_started.
  replace fuel with (Z.to_nat (k - 1) + S (fuel - Z.to_nat k))%nat by lia.
  rewrite Hrun, while_loop_unfold. cbn [Agent.self].
  destruct (Z.ltb_spec (Agent.iteration a1) (Agent.max_iterations a1)); [|lia].
  rewrite <- Hd1, <- Hc1. unfold frame_arrives. rewrite <- Hd1, <- Hc1.
  split_and!.
  - intros Hcap.
    rewrite (loop_body_capture_raises w task callback _ (Agent.mkRun a1 calls1) e)
      by (cbn [Agent.self]; by rewrite Hk1).
    cbn [Agent.self]. rewrite Hk1, Hhist.
    destruct e; eexists; reflexivity.
  - intros [image_b64 Hcap] Hsleep.
    rewrite (loop_body_sleep_raises w task callback _ (Agent.mkRun a1 calls1) image_b64 e)
      by (cbn [Agent.self]; by rewrite Hk1).
    eexists; reflexivity.
  - intros [[image_b64 Hcap] Hsleep] Hana.
    rewrite (loop_body_vision_raises w task callback _ (Agent.mkRun a1 calls1) image_b64 e)
      by (cbn [Agent.self]; rewrite Hk1; first [assumption|apply Hana]).
    cbn [Agent.self]. rewrite Hk1, Hhist.
    destruct e; eexists; reflexivity.
Qed.

Lemma collaborator_failure_ends_the_run_witness :
  exists r',
    Agent.execute_task 3 (broken_judge_world "click" 2 (Exception "no answer"))
                       "open the menu" (Some silent_observer) (sample_run 3)
    = Some (Ok (RunResult.mk false 2
                  (judgments (action_until_done "click" 0) 1 (Z.to_nat (2 - 1)))
                  (Some ("Vision failed: " +:+ "no answer"))), r').
Proof.
  destruct (collaborator_failure_ends_the_run
              3 (broken_judge_world "click" 2 (Exception "no answer")) "open the menu"
              (Some silent_observer) (sample_run 3) (action_until_done "click" 0) 2
              (Exception "no answer")
              (Agent.set_mouse (Mouse.mk "/dev/hidg1" [[1; 0; 0]; [0; 0; 0]])
                 (perceived (judgment None None "click") (Agent.self (sample_run 3)))))
    as (_ & _ & Hjudge).
  - simpl. lia.
  - lia.
  - intros i Hi. assert (i = 1) as -> by lia.
    split; [|discriminate].
    split; [split; [by eexists|reflexivity]|].
    split; [by intros ? ?|by intros f analysis action [= <-]].
  - reflexivity.
  - apply Hjudge.
    + split; [by eexists|reflexivity].
    + by intros ? ?.
Defined.

(** X17.  A run in which the judge never reports a cursor never gains an
    estimate: started without one, [execute_task] ends without one,
    however many moves from the screen centre it has made. *)
Theorem blind_run_never_gains_an_estimate
    (fuel : nat) (w : World) (task : string) (callback : option Callback)
    (r : Agent.Run) :
  (Z.to_nat (Agent.max_iterations (Agent.self r)) <= fuel)%nat ->
  Agent.estimated_cursor (Agent.self r) = None ->
  (forall i image_b64 context analysis,
     analyze w i image_b64 task context = Ok analysis ->
     cursor_position analysis = None) ->
  exists out r',
    Agent.execute_task fuel w task callback r = Some (out, r') /\
    Agent.estimated_cursor (Agent.self r') = None.
Proof.
  intros Hfuel Hnone Hblind.
  destruct (started_fields r) as (Hi & _ & Hm & _ & _ & _ & Hest & _).
  destruct (while_loop_ends w task callback fuel "" (started r))
    as (out & r' & Hrun & _).
  { rewrite Hi, Hm. lia. }
  rewrite execute_task_started.
  exists out, r'. split; [assumption|].
  apply (while_loop_invariant
           (fun r => Agent.estimated_cursor (Agent.self r) = None)
           w task callback) with (fuel := fuel) (context := "") (r := started r) (out := out);
    [|by rewrite Hest|assumption].
  intros context r0 Hr0. apply loop_body_estimate; [assumption|].
  intros image_b64 analysis. apply Hblind.
Qed.

Lemma blind_run_never_gains_an_estimate_witness :
  exists out r',
    Agent.execute_task 3 (pointing_world rounded_root None (Some (Point.mk 970 540)) "move")
                       "open the menu" None (sample_run 3) = Some (out, r') /\
    Agent.estimated_cursor (Agent.self r') = None.
Proof.
  apply (blind_run_never_gains_an_estimate
           3 (pointing_world rounded_root None (Some (Point.mk 970 540)) "move")
           "open the menu" None (sample_run 3)).
  - cbn. lia.
  - reflexivity.
  - by intros i image_b64 context analysis [= <-].
Defined.

(** ** The running context *)

(** The context after one more scripted pass. *)
Lemma context_after_last script n : forall first context,
  context_after script first (S n) context
  = next_context (context_after script first n context) (first + Z.of_nat n)
                 (script (first + Z.of_nat n)).
Proof.
  induction n as [|n IH]; intros first context.
  - cbn [context_after]. by replace (first + Z.of_nat 0) with first by lia.
  - change (context_after script first (S (S n)) context)
      with (context_after script (first + 1) (S n)
              (next_context context first (script first))).
    rewrite IH. cbn [context_after].
    by replace (first + 1 + Z.of_nat n) with (first + Z.of_nat (S n)) by lia.
Qed.

(** A pass in which the frame arrives calls the judge with the frame
    and the running context. *)
Lemma loop_body_calls_the_judge w task callback context r image_b64 :
  capture_frame_base64 w (Agent.iteration (Agent.self r) + 1)
    (Agent.capture_device (Agent.self r)) = Ok image_b64 ->
  time_sleep (sleep w (Agent.iteration (Agent.self r) + 1)
                (Agent.capture_delay (Agent.self r)))
             (Agent.capture_delay (Agent.self r)) = Ok tt ->
  CallAnalyze image_b64 task context
  ∈ Agent.calls (Agent.loop_body w task callback context r).2.
Proof.
  intros Hcap Hsleep.
  assert (Hin : forall more, CallAnalyze image_b64 task context
                             ∈ perception_calls r image_b64 task context ++ more).
  { intros more. unfold perception_calls.
    apply elem_of_app. left. apply elem_of_app. right. in_list. }
  destruct (analyze w (Agent.iteration (Agent.self r) + 1) image_b64 task context)
    as [analysis|e] eqn:Hana.
  2: { rewrite (loop_body_vision_raises w task callback context r image_b64 e
                  Hcap Hsleep Hana).
       cbn [snd Agent.calls]. rewrite <- (app_nil_r (perception_calls _ _ _ _)).
       apply Hin. }
  rewrite (loop_body_run w task callback context r image_b64 analysis Hcap Hsleep Hana).
  cbv zeta.
  destruct (acted (libm_pow w) analysis (perceived analysis (Agent.self r))) as [a'|e].
  2: { cbn [snd Agent.calls]. rewrite <- (app_nil_r (perception_calls _ _ _ _)).
       apply Hin. }
  destruct (decide (suggested_action analysis ∈ recognised_actions)).
  - match goal with
    | |- context [(Agent.notify ?cb ?an ?ac ≫= λ _, mret ?x) (Agent.mkRun ?a ?cs)] =>
        destruct (notify_outcome cb an ac a cs x) as (more & -> & _)
    end.
    cbn [Agent.calls]. apply Hin.
  - cbn [snd Agent.calls]. rewrite <- (app_nil_r (perception_calls _ _ _ _)).
    apply Hin.
Qed.

(** The calls made are never taken back: what has been called before a
    stretch of the loop is still among the calls after it. *)
Lemma while_loop_keeps_calls (c : Call) w task callback fuel context r out r' :
  c ∈ Agent.calls r ->
  Agent.while_loop fuel w task callback context r = Some (out, r') ->
  c ∈ Agent.calls r'.
Proof.
  intros Hin Hrun.
  apply (while_loop_invariant (fun r => c ∈ Agent.calls r) w task callback)
    with (fuel := fuel) (context := context) (r := r) (out := out);
    [|assumption..].
  intros context0 r0 Hr0.
  destruct (loop_body_outcome w task callback context0 r0) as (more & -> & _).
  apply elem_of_app. by left.
Qed.

(** X18.  The note of an error reaches the next judgment.  In a run of
    [execute_task] in which the frame arrives, the judge follows a
    script without [done] and the observer returns in every iteration
    up to [k], the arithmetic of the moves raising nothing, and in
    which the script says [error] in iteration [k] (with an iteration
    left under the cap): the running context after iteration [k] is the
    context before it followed by the note of the error; and when the
    frame of iteration [k + 1] arrives, the judge is called in that
    iteration with this frame and with that context.  The run ends,
    and the call is among those it has made. *)
Theorem error_note_reaches_the_next_judgment
    (fuel : nat) (w : World) (task : string) (callback : option Callback)
    (r : Agent.Run) (script : Z -> ScreenAnalysis) (k : Z) (a' : Agent.t)
    (image_b64 : string) :
  let a0 := Agent.self (started r) in
  let noted :=
    context_after script 1 (Z.to_nat (k - 1)) ""
    +:+ LF +:+ "Iteration " +:+ str_int k +:+ ": Error - "
    +:+ target_description (script k) in
  1 <= k ->
  k + 1 <= Agent.max_iterations (Agent.self r) ->
  (Z.to_nat (Agent.max_iterations (Agent.self r)) <= fuel)%nat ->
  (forall i, 1 <= i <= k ->
     goes_through w task callback a0 script i /\ suggested_action (script i) <> "done") ->
  agent_after (libm_pow w) script (Z.to_nat k) a0 = Ok a' ->
  suggested_action (script k) = "error" ->
  capture_frame_base64 w (k + 1) (Agent.capture_device a0) = Ok image_b64 ->
  time_sleep (sleep w (k + 1) (Agent.capture_delay a0)) (Agent.capture_delay a0) = Ok tt ->
  context_after script 1 (Z.to_nat k) "" = noted /\
  exists out r',
    Agent.execute_task fuel w task callback r = Some (out, r') /\
    CallAnalyze image_b64 task noted ∈ Agent.calls r'.
Proof.
  intros a0 noted Hk Hcap Hfuel Hgo Hafter Herror Hframe Hsleep. subst a0.
  destruct (started_fields r) as (Hi & Hh & Hm & _).
  destruct (agent_after_fields _ _ _ _ _ Hafter) as (Hi' & Hm' & _ & Hd' & Hc').
  assert (Hnoted : context_after script 1 (Z.to_nat k) "" = noted).
  { replace (Z.to_nat k) with (S (Z.to_nat (k - 1))) by lia.
    rewrite context_after_last.
    replace (1 + Z.of_nat (Z.to_nat (k - 1))) with k by lia.
    unfold next_context, pass_note. rewrite Herror. decide_literals. reflexivity. }
  split; [exact Hnoted|].
  destruct (while_loop_scripted w task callback script (Z.to_nat k)
              (S (fuel - Z.to_nat k - 1)) "" (started r) a')
    as (calls' & Hrun & _).
  { intros i Hrange. apply Hgo. lia. }
  { exact Hafter. }
  { lia. }
  rewrite Hi in Hrun. change (0 + 1) with 1 in Hrun. rewrite Hnoted in Hrun.
  rewrite execute_task_started.
  replace fuel with (Z.to_nat k + S (fuel - Z.to_nat k - 1))%nat by lia.
  rewrite Hrun, while_loop_unfold. cbn [Agent.self].
  destruct (Z.ltb_spec (Agent.iteration a') (Agent.max_iterations a')); [|lia].
  assert (Hk' : Agent.iteration a' + 1 = k + 1) by lia.
  pose proof (loop_body_calls_the_judge w task callback noted
                (Agent.mkRun a' calls') image_b64) as Hcall.
  cbn [Agent.self] in Hcall. rewrite Hk', Hd', Hc' in Hcall.
  specialize (Hcall Hframe Hsleep).
  pose proof (loop_body_counters w task callback noted (Agent.mkRun a' calls')) as Hcount.
  cbv zeta in Hcount. destruct Hcount as (Hi1 & Hm1 & _).
  destruct (Agent.loop_body w task callback noted (Agent.mkRun a' calls'))
    as [[[res|context1]|e] r1]; cbn [snd Agent.self] in Hcall, Hi1, Hm1.
  - eexists _, _. split; [reflexivity|exact Hcall].
  - destruct (while_loop_ends w task callback (fuel - Z.to_nat k - 1) context1 r1)
      as (out & r' & Hend & _); [lia|].
    exists out, r'. split; [exact Hend|].
    exact (while_loop_keeps_calls _ w task callback (fuel - Z.to_nat k - 1)
             context1 r1 out r' Hcall Hend).
  - eexists _, _. split; [reflexivity|exact Hcall].
Qed.

Lemma error_note_reaches_the_next_judgment_witness :
  context_after (action_until_done "error" 0) 1 (Z.to_nat 1) ""
  = context_after (action_until_done "error" 0) 1 (Z.to_nat (1 - 1)) ""
    +:+ LF +:+ "Iteration " +:+ str_int 1 +:+ ": Error - "
    +:+ target_description (action_until_done "error" 0 1) /\
  exists out r',
    Agent.execute_task 3 (scripted_world "error" 0) "open the menu"
                       (Some silent_observer) (sample_run 3) = Some (out, r') /\
    CallAnalyze "frame" "open the menu"
      (context_after (action_until_done "error" 0) 1 (Z.to_nat (1 - 1)) ""
       +:+ LF +:+ "Iteration " +:+ str_int 1 +:+ ": Error - "
       +:+ target_description (action_until_done "error" 0 1))
    ∈ Agent.calls r'.
Proof.
  apply (error_note_reaches_the_next_judgment
           3 (scripted_world "error" 0) "open the menu" (Some silent_observer)
           (sample_run 3) (action_until_done "error" 0) 1
           (perceived (judgment None None "error") (Agent.self (sample_run 3)))
           "frame").
  - lia.
  - simpl. lia.
  - simpl. lia.
  - intros i Hi. assert (i = 1) as -> by lia.
    split; [|discriminate].
    split; [split; [by eexists|reflexivity]|].
    split; [by intros ? ?|by intros f analysis action [= <-]].
  - reflexivity.
  - reflexivity.
  - reflexivity.
  - reflexivity.
Defined.
